(** * AD013 capacitive fingerprint sensor driver: wire-protocol engine

    A shallow embedding of [AD013.cpp]: the 16-bit byte codec, the bounded
    parameter buffer, the command routine [AD013_Send] (frame assembly,
    transport read loop, reply validation), sensor discovery
    [CFP_FindSensor] and the capture-and-search flow [AD013_SearchTemplate].

    Conventions of the embedding.
    - A [char]/[byte] cell is the unsigned value [0..255] of its bit
      pattern; [int] values are unbounded [Z] ([int] is taken wide enough
      for the candidate speeds, and nothing the driver computes in [int]
      comes near its limits); [uint8_t]/[uint16_t] conversions are written
      out with [mod].
    - The host is little-endian, as the two codec routines assume when they
      address the two bytes of a [uint16_t] through a [byte] pointer.
    - Whether plain [char] is signed is implementation-defined; the single
      place where it matters (the checksum loop of the reply, which adds
      [recv_buff[i]] without a cast) takes it as the parameter
      [char_is_signed].
    - A pointer that may be [NULL] is an [option]; a pointer into a buffer
      is the buffer together with an offset.
    - [AD013_Send] returns an [option]: [None] stands for a call that has
      no result, because the copy of the reply for the caller at its end
      goes out of bounds (its size comes from the reply or from the
      caller).  The routines that call [AD013_Send] inherit the [option].
      The heap is taken to serve the few bytes the driver asks for.
    - [AD013_Send] and [AD013_Recv] reach the port through the name
      [SensorCom], which [AD013_Send] does not take from its own parameter
      (spelt [Sensorcom]); the model takes it to be the port the callers
      hand over.
    - [printf] and [Serial.println] produce debug text only and are left
      out. *)

From stdpp Require Import base list numbers.

Open Scope Z_scope.

(** ** C memory helpers *)

(** [memcpy(dst + off, src, n)].  Defined behaviour needs
    [off + n <= length dst] and [n <= length src]; outside that the C code
    writes or reads out of bounds. *)
Definition memcpy (dst : list Z) (off : nat) (src : list Z) (n : nat) : list Z :=
  take off dst ++ take n src ++ drop (off + n) dst.

(** [memcmp(a, b, n)]: [0] when the first [n] bytes agree, otherwise the
    difference of the first pair of bytes that differ. *)
Fixpoint memcmp (a b : list Z) (n : nat) : Z :=
  match n with
  | O => 0
  | S n' =>
      let x := hd 0 a in
      let y := hd 0 b in
      if x =? y then memcmp (tl a) (tl b) n' else x - y
  end.

(** The cell [p[i]]; cells past the end of the modelled buffer read as 0. *)
Definition cell (p : list Z) (i : nat) : Z := nth i p 0.

(** ** Constants of the driver *)

Definition AD013_MSG_HEADER_SIZE : Z := 10.
Definition AD013_MAX_ACK_BUFF_SIZE : Z := 20.

Definition AD013_MSG_OFFSET_HEADER : nat := 0.
Definition AD013_MSG_OFFSET_DEVID : nat := 2.
Definition AD013_MSG_OFFSET_FLAG : nat := 6.
Definition AD013_MSG_OFFSET_LENGTH : nat := 7.
Definition AD013_MSG_OFFSET_CODE : nat := 9.
Definition AD013_MSG_OFFSET_DATA : nat := 10.

Definition AD013_CODE_OK : Z := 0x00.
Definition AD013_CODE_ERROR : Z := 0x01.
Definition AD013_CODE_NO_FINGER : Z := 0x02.
Definition AD013_CODE_IMAGE_FAIL : Z := 0x03.
Definition AD013_CODE_FEATURE_FAIL_AMORPHOUS : Z := 0x06.
Definition AD013_CODE_FEATURE_FAIL_MINUTIAE : Z := 0x07.
Definition AD013_CODE_FINGER_NOT_FOUND : Z := 0x09.
Definition AD013_CODE_PASSWORD_ERROR : Z := 0x13.
Definition AD013_CODE_IMAGE_INCOMPLETE_ERROR : Z := 0x15.

(** Modelled from the spec: [AD013_MAX_PARAMS_SIZE] is declared in
    [AD013.h], which is not part of the sources.  The specification gives
    the parameter buffer a capacity of 20, the value the sibling header
    gives [CFS_MAX_PARAMS_SIZE]. *)
Definition AD013_MAX_PARAMS_SIZE : Z := 20.

(** Modelled from the spec: the struct [AD013_Params] is declared in
    [AD013.h], which is not part of the sources.  Its fields are those the
    driver uses ([buff], [size]) and the device id of the initialiser of
    [AD013_DefaultParams]; [buff] is an array of [AD013_MAX_PARAMS_SIZE]
    cells. *)
Record AD013_Params : Type := mkParams {
  devId : list Z;
  buff : list Z;
  size : Z
}.

Definition AD013_def_passwd : list Z := [0x00; 0x00; 0x00; 0x00].

Definition AD013_DefaultParams : AD013_Params :=
  {| devId := [0xFF; 0xFF; 0xFF; 0xFF];
     buff := replicate (Z.to_nat AD013_MAX_PARAMS_SIZE) 0x00;
     size := 0 |}.

Definition msgTemplate : list Z :=
  [ 0xEF; 0x01;             (* Header *)
    0xFF; 0xFF; 0xFF; 0xFF; (* Device ID *)
    0x01;                   (* Flag *)
    0x00; 0x03;             (* Data Length (Code/Data + Sum) *)
    0x00 ].                 (* Code/Data *)

(** ** Byte codec *)

(** Reads the two cells at [val + off] as a 16-bit value, first cell
    high. *)
Definition AD013_get_uint16_value (val : list Z) (off : nat) : Z :=
  cell val (off + 1) + 256 * cell val off.

(** Writes the high byte of [val] at [buff + off] and its low byte after
    it. *)
Definition AD013_set_uint16_value (buff : list Z) (off : nat) (val : Z) : list Z :=
  let val := val mod 65536 in
  <[S off := val mod 256]> (<[off := val / 256]> buff).

(** ** Parameter buffer *)

Definition AD013_ClearParams (a : AD013_Params) : AD013_Params :=
  {| devId := devId a; buff := buff a; size := 0 |}.

Definition AD013_AddParam1 (params : option AD013_Params) (val : Z)
  : Z * option AD013_Params :=
  match params with
  | None => (-1, None)
  | Some p =>
      if size p >? AD013_MAX_PARAMS_SIZE - 1 then (-1, Some p)
      else
        let sz := if size p <? 0 then 0 else size p in
        let b := <[Z.to_nat sz := val mod 256]> (buff p) in
        (sz + 1, Some {| devId := devId p; buff := b; size := sz + 1 |})
  end.

Definition AD013_AddParam2 (params : option AD013_Params) (val : Z)
  : Z * option AD013_Params :=
  let val := val mod 65536 in
  match params with
  | None => (-1, None)
  | Some p =>
      if size p >? AD013_MAX_PARAMS_SIZE - 2 then (-1, Some p)
      else
        let sz := if size p <? 0 then 0 else size p in
        let b := <[Z.to_nat sz := val / 256]> (buff p) in
        let b := <[Z.to_nat (sz + 1) := val mod 256]> b in
        (sz + 2, Some {| devId := devId p; buff := b; size := sz + 2 |})
  end.

(** The blob [buff] is the memory the caller's pointer designates; the
    routine copies its first [size] cells.  A negative [params->size] is
    not repaired here (the C code then writes before the array). *)
Definition AD013_AddParamN (params : option AD013_Params)
    (buff0 : option (list Z)) (size0 : Z) : Z * option AD013_Params :=
  let size0 := size0 mod 256 in
  match params, buff0 with
  | Some p, Some src =>
      if size p >? AD013_MAX_PARAMS_SIZE - size0 then (-1, params)
      else
        let b := memcpy (buff p) (Z.to_nat (size p)) src (Z.to_nat size0) in
        (size p + size0,
         Some {| devId := devId p; buff := b; size := size p + size0 |})
  | _, _ => (-1, params)
  end.

(** The bytes the buffer holds: the cells below the cursor. *)
Definition contents (p : AD013_Params) : list Z :=
  take (Z.to_nat (size p)) (buff p).

(** One append request, as the command layer issues them. *)
Inductive push : Type :=
  | push_u8 (b : Z)
  | push_u16 (w : Z)
  | push_bytes (bs : list Z).

Definition push_size (x : push) : Z :=
  match x with
  | push_u8 _ => 1
  | push_u16 _ => 2
  | push_bytes bs => Z.of_nat (length bs)
  end.

(** The bytes a request stands for on the wire. *)
Definition push_wire (x : push) : list Z :=
  match x with
  | push_u8 b => [b]
  | push_u16 w => [w / 256; w mod 256]
  | push_bytes bs => bs
  end.

(** The request fits the C argument types: [uint8_t], [uint16_t], and a
    blob whose length fits the [uint8_t] size argument. *)
Definition push_ok (x : push) : Prop :=
  match x with
  | push_u8 b => 0 <= b < 256
  | push_u16 w => 0 <= w < 65536
  | push_bytes bs => Z.of_nat (length bs) < 256
  end.

Definition do_push (params : option AD013_Params) (x : push)
  : Z * option AD013_Params :=
  match x with
  | push_u8 b => AD013_AddParam1 params b
  | push_u16 w => AD013_AddParam2 params w
  | push_bytes bs => AD013_AddParamN params (Some bs) (Z.of_nat (length bs))
  end.

(** Runs the requests in order; returns the return values and the final
    buffer. *)
Fixpoint do_pushes (params : option AD013_Params) (xs : list push)
  : list Z * option AD013_Params :=
  match xs with
  | [] => ([], params)
  | x :: xs' =>
      let '(r, params') := do_push params x in
      let '(rs, params'') := do_pushes params' xs' in
      (r :: rs, params'')
  end.

Definition pushes_size (xs : list push) : Z :=
  foldr (fun x n => push_size x + n) 0 xs.

(** A buffer in a regular state: the array has its declared length and the
    cursor lies inside it. *)
Definition params_wf (p : AD013_Params) : Prop :=
  length (buff p) = Z.to_nat AD013_MAX_PARAMS_SIZE /\
  0 <= size p <= AD013_MAX_PARAMS_SIZE.

(** ** The serial transport *)

(** The Arduino [Stream] the driver talks through, as operations on a
    world state [T] (the port together with the board's clock, so that
    [delay] is one of them).  [stream_readBytes n] is
    [readBytes(buffer, n)]: it hands back the bytes it stored, never more
    than [n]. *)
Class Stream (T : Type) : Type := {
  stream_write : list Z -> T -> T;
  stream_readBytes : Z -> T -> list Z * T;
  stream_setTimeout : Z -> T -> T;
  serial_begin : Z -> T -> T;
  board_delay : Z -> T -> T;
  stream_readBytes_le :
    forall n s, 0 <= n -> Z.of_nat (length (stream_readBytes n s).1) <= n
}.

(** What the validation of a reply ends in. *)
Inductive reply : Type :=
  | ReplyErr                                  (* [goto err] *)
  | ReplyBadSum                               (* [return -99] *)
  | ReplyCode (recv_code : Z) (data : option (list Z))
  | ReplyFault.                (* the copy for the caller is out of bounds *)

(** The receive out-parameters [recv_data_buff], [recv_data_buff_len]. *)
Inductive recv_arg : Type :=
  | RecvNone                     (* [recv_data_buff == NULL] *)
  | RecvAlloc                    (* [*recv_data_buff == NULL] *)
  | RecvInto (buff_len : Z).     (* a caller buffer of [*recv_data_buff_len] *)

Definition to_uint8 (c : Z) : Z := c mod 256.

(** The loop [for (i = lo; i < hi; i++) sum = (sum + conv buf[i]) & 65535]
    started at [sum = 0]. *)
Definition checksum (conv : Z -> Z) (buf : list Z) (lo : nat) (hi : Z) : Z :=
  foldl (fun sum i => Z.land (sum + conv (cell buf i)) 65535) 0
        (seq lo (Z.to_nat hi - lo)).

Section Driver.

Context {T : Type} `{Stream T}.

(** Signedness of plain [char] on the target. *)
Variable char_is_signed : bool.

(** Modelled from the spec: [defTimeout] is declared in [AD013.h], which
    is not part of the sources; the read timeout is carried by the
    transport and no value is imposed. *)
Variable defTimeout : Z.

(** Integer promotion of a [char] cell. *)
Definition char_to_int (c : Z) : Z :=
  if char_is_signed && (128 <=? c mod 256) then c mod 256 - 256 else c mod 256.

(** *** Frame assembly (first part of [AD013_Send]) *)

Definition params_size (params : option AD013_Params) : Z :=
  match params with Some p => size p | None => 0 end.

Definition AD013_Send_build (code : Z) (params : option AD013_Params) : list Z :=
  let send_buff_len := 12 + params_size params in
  (* malloc: every cell is written below *)
  let send_buff := replicate (Z.to_nat send_buff_len) 0 in
  let send_buff := memcpy send_buff 0 msgTemplate 10 in
  let send_buff := <[AD013_MSG_OFFSET_CODE := to_uint8 code]> send_buff in
  let send_buff :=
    match params with
    | Some p =>
        if size p >? 0
        then memcpy send_buff AD013_MSG_OFFSET_DATA (buff p) (Z.to_nat (size p))
        else send_buff
    | None => send_buff
    end in
  let len := (3 + params_size params) mod 65536 in
  let send_buff := AD013_set_uint16_value send_buff AD013_MSG_OFFSET_LENGTH len in
  let sum := checksum to_uint8 send_buff AD013_MSG_OFFSET_FLAG (send_buff_len - 2) in
  AD013_set_uint16_value send_buff
    (AD013_MSG_OFFSET_DATA + Z.to_nat (params_size params)) sum.

(** *** Transport read loop (second part of [AD013_Send])

    [max_retries] is decremented before it is tested, so the loop stops
    at the decrement that reaches 0. *)
Fixpoint AD013_Send_read (max_retries : nat) (recv_buff : list Z)
    (recv_buff_len : Z) (s : T) : list Z * Z * T :=
  if recv_buff_len <? AD013_MSG_HEADER_SIZE + 2 then
    match max_retries with
    | S (S _ as max_retries') =>
        let '(chunk, s') :=
          stream_readBytes (AD013_MAX_ACK_BUFF_SIZE - recv_buff_len) s in
        let read_chars := Z.of_nat (length chunk) in
        AD013_Send_read max_retries'
          (memcpy recv_buff (Z.to_nat recv_buff_len) chunk (length chunk))
          ((recv_buff_len + read_chars) mod 65536) s'
    | _ => (recv_buff, recv_buff_len, s)
    end
  else (recv_buff, recv_buff_len, s).

(** *** Validation of the reply (third part of [AD013_Send])

    The copy for the caller, a [memcpy] of [max_data] cells from
    [&recv_buff[10]], takes them from offset 10 of the 20-cell receive
    buffer: above 10 it reads past the buffer.  When the routine
    allocates the destination, [max_data] is [pkt_len - 2] as a
    [uint16_t] and the allocation is [malloc(pkt_len - 2)] with an [int]
    argument: for [pkt_len < 2] the size is negative, nothing is
    allocated, and 65534 or 65535 bytes are copied to [NULL].  When the
    caller brings the destination, [max_data] is its stated length as a
    [uint16_t]; a negative length states no buffer.  All of these end in
    [ReplyFault].  For [pkt_len = 2] the allocation is [malloc(0)], taken
    to give a pointer that an empty copy may use. *)

Definition AD013_Send_parse (send_buff recv_buff : list Z)
    (recv_buff_len : Z) (recv_data_buff : recv_arg) : reply :=
  if recv_buff_len <? 10 then ReplyErr
  else if memcmp send_buff recv_buff 5 =? 0 then
    let pkt_len := AD013_get_uint16_value recv_buff AD013_MSG_OFFSET_LENGTH in
    let recv_sum :=
      AD013_get_uint16_value recv_buff (Z.to_nat (recv_buff_len - 2)) in
    let recv_code := to_uint8 (cell recv_buff AD013_MSG_OFFSET_CODE) in
    let sum :=
      checksum char_to_int recv_buff AD013_MSG_OFFSET_FLAG (recv_buff_len - 2) in
    if negb (sum =? recv_sum) then ReplyBadSum
    else
      let copy (max_data : Z) :=
        if max_data <=? AD013_MAX_ACK_BUFF_SIZE - Z.of_nat AD013_MSG_OFFSET_DATA
        then ReplyCode recv_code
               (Some (take (Z.to_nat max_data)
                        (drop AD013_MSG_OFFSET_DATA recv_buff)))
        else ReplyFault in
      match recv_data_buff with
      | RecvNone => ReplyCode recv_code None
      | RecvAlloc =>
          if pkt_len <? 2 then ReplyFault else copy ((pkt_len - 2) mod 65536)
      | RecvInto buff_len =>
          if buff_len <? 0 then ReplyFault else copy (buff_len mod 65536)
      end
  else ReplyErr.

(** *** The command routine

    Returns the return value, the bytes copied out for the caller (if
    any) and the world after the call, or [None] when the copy for the
    caller is out of bounds.  [params->buff] is an array member and never
    [NULL], which leaves [params->size < 1] of the first check. *)
Definition AD013_Send (code : Z) (SensorCom : T)
    (params : option AD013_Params) (recv_data_buff : recv_arg)
  : option (Z * option (list Z) * T) :=
  if match params with Some p => size p <? 1 | None => false end
  then Some (-1, None, SensorCom)
  else
    let send_buff := AD013_Send_build code params in
    let s := stream_write send_buff SensorCom in
    let '(recv_buff, recv_buff_len, s) :=
      AD013_Send_read 5 (replicate (Z.to_nat AD013_MAX_ACK_BUFF_SIZE) 0x00) 0 s in
    match AD013_Send_parse send_buff recv_buff recv_buff_len recv_data_buff with
    | ReplyErr => Some (-1, None, board_delay 50 (board_delay 50 s))
    | ReplyBadSum => Some (-99, None, s)
    | ReplyCode recv_code data => Some (recv_code, data, s)
    | ReplyFault => None
    end.

Definition PS_VerifyPwd (a : T) (b : option AD013_Params) := AD013_Send 0x13 a b RecvNone.
Definition PS_GetImage (a : T) := AD013_Send 0x01 a None RecvNone.
Definition PS_GenChar (a : T) (b : option AD013_Params) := AD013_Send 0x02 a b RecvNone.
Definition PS_Search (a : T) (b : option AD013_Params) (c : recv_arg) := AD013_Send 0x04 a b c.

(** *** Sensor discovery *)

Definition speedVals : list Z := [115200; 57600; 38400; 19200; 9600].

(** The [for] loop over the candidate speeds. *)
Fixpoint CFP_FindSensor_scan (speeds : list Z) (myParams : AD013_Params)
    (s : T) : option (Z * T) :=
  match speeds with
  | [] => Some (-1, s)
  | speed :: speeds' =>
      let s := serial_begin speed s in
      let s := board_delay 100 s in
      '(r, _, s) ← AD013_Send 0x13 s (Some myParams) RecvNone;
      if r <? 0 then CFP_FindSensor_scan speeds' myParams s else Some (1, s)
  end.

(** The local [myParams]: the caller's struct, or the defaults with the
    default password appended. *)
Definition CFP_FindSensor_myParams (params : option AD013_Params)
  : AD013_Params :=
  match params with
  | None =>
      match AD013_AddParamN (Some AD013_DefaultParams)
              (Some AD013_def_passwd) 4 with
      | (_, Some p) => p
      | (_, None) => AD013_DefaultParams
      end
  | Some p => p
  end.

Definition CFP_FindSensor (SensorCom : T) (serSpeed : Z)
    (params : option AD013_Params) : option (Z * T) :=
  let myParams := CFP_FindSensor_myParams params in
  let s := stream_setTimeout defTimeout SensorCom in
  if serSpeed <? 0 then CFP_FindSensor_scan speedVals myParams s
  else
    let s := if serSpeed >? 0 then serial_begin serSpeed s else s in
    let s := board_delay 50 s in
    '(r, _, s) ← AD013_Send 0x13 s (Some myParams) RecvNone;
    if r <? 0 then Some (-1, s) else Some (1, s).

(** *** Capture and search *)

(** The [while ((code = PS_GetImage(SensorCom)) != 0)] loop.  It returns
    the last code; it returns [None] when [fuel] iterations were not
    enough (the command itself, sent without a receive pointer, always
    has a result). *)
Fixpoint AD013_SearchTemplate_poll (fuel : nat) (timeOut : Z) (s : T)
  : option (Z * T) :=
  match fuel with
  | O => None
  | S fuel' =>
      '(code, _, s) ← PS_GetImage s;
      if code =? 0 then Some (code, s)
      else if timeOut <=? 0 then Some (code, s)
      else
        let delayPeriod := 120 in
        let defDelayPeriod := 240 in
        AD013_SearchTemplate_poll fuel'
          (timeOut - (delayPeriod + defDelayPeriod))
          (board_delay delayPeriod s)
  end.

(** The part of [AD013_SearchTemplate] after the polling loop.  The
    Search command is sent with [data = NULL], so the routine allocates
    the receive data: the call has no result when that copy is out of
    bounds. *)
Definition AD013_SearchTemplate_match (code : Z) (s : T)
    (SecurityOfficerOnly : bool) : option (Z * T) :=
  if negb (code =? 0) then Some (-1, s)
  else
    let params := Some AD013_DefaultParams in
    let params := (AD013_AddParam1 params 1).2 in
    '(code, _, s) ← PS_GenChar s params;
    if (code =? AD013_CODE_ERROR)
       || (code =? AD013_CODE_FEATURE_FAIL_AMORPHOUS)
       || (code =? AD013_CODE_FEATURE_FAIL_MINUTIAE)
       || (code =? AD013_CODE_IMAGE_INCOMPLETE_ERROR)
    then Some (-1, s)
    else
      let params := option_map AD013_ClearParams params in
      let params := (AD013_AddParam1 params 1).2 in
      let params := (AD013_AddParam2 params 0).2 in
      let params := (AD013_AddParam2 params 99).2 in
      '(matched_template, data, s) ← PS_Search s params RecvAlloc;
      Some (1, s).

(** [AD013_SearchTemplate]; the polling loop gets one iteration per
    millisecond of budget and one more, which it never uses up. *)
Definition AD013_SearchTemplate (SensorCom : T) (timeOut threashold : Z)
    (SecurityOfficerOnly : bool) : option (Z * T) :=
  '(code, s) ← AD013_SearchTemplate_poll (S (Z.to_nat timeOut)) timeOut SensorCom;
  AD013_SearchTemplate_match code s SecurityOfficerOnly.

End Driver.

(** ** A scripted wire

    A transport whose reads are scripted: [rx] lists the chunks the port
    will deliver, one per read (a chunk longer than the read asks for is
    cut and its rest stays pending; an empty chunk is a read that times
    out).  Every operation is recorded in [log], most recent first.  Any
    run of the driver against a real device is a run against the script of
    what the device delivered. *)
Inductive wire_event : Type :=
  | EvWrite (frame : list Z)
  | EvRead (n : Z) (got : list Z)
  | EvSetTimeout (ms : Z)
  | EvBegin (baud : Z)
  | EvDelay (ms : Z).

Record Wire : Type := mkWire {
  rx : list (list Z);
  log : list wire_event
}.

Definition wire_record (e : wire_event) (w : Wire) : Wire :=
  {| rx := rx w; log := e :: log w |}.

Definition wire_readBytes (n : Z) (w : Wire) : list Z * Wire :=
  match rx w with
  | [] => ([], wire_record (EvRead n []) w)
  | c :: r =>
      let got := take (Z.to_nat n) c in
      let rest := drop (Z.to_nat n) c in
      (got, {| rx := match rest with [] => r | _ => rest :: r end;
               log := EvRead n got :: log w |})
  end.

#[export] Instance Wire_Stream : Stream Wire.
Proof.
  refine {| stream_write frame := wire_record (EvWrite frame);
            stream_readBytes := wire_readBytes;
            stream_setTimeout ms := wire_record (EvSetTimeout ms);
            serial_begin baud := wire_record (EvBegin baud);
            board_delay ms := wire_record (EvDelay ms) |}.
  intros n w Hn. unfold wire_readBytes.
  destruct (rx w) as [|c r]; simpl; [lia|].
  rewrite length_take. lia.
Defined.

(** A wire on which nothing has happened yet and which will deliver the
    chunks [chunks]. *)
Definition wire_of (chunks : list (list Z)) : Wire :=
  {| rx := chunks; log := [] |}.

(** The frames written so far, oldest first. *)
Definition written (w : Wire) : list (list Z) :=
  omap (fun e => match e with EvWrite f => Some f | _ => None end)
       (reverse (log w)).

(** The speeds the port was opened at so far, oldest first. *)
Definition begun (w : Wire) : list Z :=
  omap (fun e => match e with EvBegin b => Some b | _ => None end)
       (reverse (log w)).


(** ** The frame of the data model

    The frame as the specification lays it out, to compare the assembly
    code with: header, device id, then the summed part (flag, big-endian
    length [1 + payload + 2], code, payload), then the big-endian sum of
    the summed part truncated to 16 bits. *)
Definition frame_sum (bytes : list Z) : Z := foldr Z.add 0 bytes mod 65536.

Definition spec_frame (code : Z) (payload : list Z) : list Z :=
  let len := 3 + Z.of_nat (length payload) in
  let body := [0x01; len / 256; len mod 256; code] ++ payload in
  [0xEF; 0x01; 0xFF; 0xFF; 0xFF; 0xFF] ++ body
    ++ [frame_sum body / 256; frame_sum body mod 256].

(** The operand bytes a command carries. *)
Definition payload_of (params : option AD013_Params) : list Z :=
  match params with Some p => contents p | None => [] end.

(** The command [code], [params] run against a port that answers with the
    command's own frame, delivered in one read: the return value and the
    bytes copied out. *)
Definition loopback (char_is_signed : bool) (code : Z)
    (params : option AD013_Params) : option (Z * option (list Z)) :=
  fst <$> AD013_Send char_is_signed code (wire_of [AD013_Send_build code params])
            params RecvAlloc.

(** The commands that pass the first check of [AD013_Send]: no struct, or
    a struct holding at least one byte. *)
Definition sendable (params : option AD013_Params) : Prop :=
  match params with Some p => 1 <= size p | None => True end.

(** The chunks the reads made so far returned, oldest first. *)
Definition read_chunks (w : Wire) : list (list Z) :=
  omap (fun e => match e with EvRead _ got => Some got | _ => None end)
       (reverse (log w)).

(** The number of bytes in a list of chunks. *)
Definition total (chunks : list (list Z)) : Z :=
  Z.of_nat (length (concat chunks)).

(** The reads of a receive loop that holds [got] bytes and is delivered
    [chunks]: each read asks for the room left in the 20-byte buffer. *)
Fixpoint loop_reads (got : Z) (chunks : list (list Z)) : list wire_event :=
  match chunks with
  | [] => []
  | c :: chunks' =>
      EvRead (AD013_MAX_ACK_BUFF_SIZE - got) c
        :: loop_reads (got + Z.of_nat (length c)) chunks'
  end.

(** [scan_fails p speeds s s']: tried in order from the world [s], every
    speed of [speeds] gets a negative answer to the password command, and
    the world is [s'] afterwards. *)
Inductive scan_fails {T : Type} `{Stream T} (char_is_signed : bool)
    (myParams : AD013_Params) : list Z -> T -> T -> Prop :=
  | scan_fails_nil (s : T) : scan_fails char_is_signed myParams [] s s
  | scan_fails_cons (speed : Z) (speeds : list Z) (s s' : T)
        (r : Z * option (list Z) * T) :
      AD013_Send char_is_signed 0x13
        (board_delay 100 (serial_begin speed s))
        (Some myParams) RecvNone = Some r ->
      r.1.1 < 0 ->
      scan_fails char_is_signed myParams speeds r.2 s' ->
      scan_fails char_is_signed myParams (speed :: speeds) s s'.

(** The events that are reads. *)
Definition is_read (e : wire_event) : Prop :=
  match e with EvRead _ _ => True | _ => False end.

(** A port that delivers nothing: every pending read comes back empty. *)
Definition silent (w : Wire) : Prop := Forall (fun c => c = []) (rx w).

(** ** The remaining routines of the driver *)

(** [AD013_Recv]: one read of up to 128 bytes into a local buffer, which
    is dropped; the caller's [data] is not written. *)
Definition AD013_Recv {T : Type} `{Stream T} (data : list Z) (data_len : Z)
    (SensorCom : T) : Z * T :=
  let '(buff, s) := stream_readBytes 128 SensorCom in
  (1, s).

(** The four placeholders: a debug line and [-1]. *)
Definition AD013_ClearTemplates {T : Type} `{Stream T} (SerialPort : T)
    (rangeStart rangeEnd : Z) : Z * T := (-1, SerialPort).

Definition AD013_ClearUserTemplates {T : Type} `{Stream T} (SerialPort : T)
  : Z * T := (-1, SerialPort).

Definition AD013_ClearSOTemplates {T : Type} `{Stream T} (SerialPort : T)
  : Z * T := (-1, SerialPort).

Definition AD013_Enroll {T : Type} `{Stream T} (SerialPort : T)
    (isSecurityOfficer : bool) : Z * T := (-1, SerialPort).

(** The three frames capture-and-search sends. *)
Definition GetImage_frame : list Z := spec_frame 0x01 [].
Definition GenChar_frame : list Z := spec_frame 0x02 [1].
Definition Search_frame : list Z := spec_frame 0x04 [1; 0; 0; 0; 99].

(** * Properties *)

(** ** Parameter buffer *)

Lemma take_succ_insert (l : list Z) (i : nat) (x : Z) :
  (i < length l)%nat -> take (S i) (<[i := x]> l) = take i l ++ [x].
Proof.
  intros Hi.
  rewrite (take_S_r _ i x) by (by apply list_lookup_insert_eq).
  by rewrite take_insert_ge.
Qed.

Lemma memcpy_length (dst src : list Z) (off n : nat) :
  (off + n <= length dst)%nat -> (n <= length src)%nat ->
  length (memcpy dst off src n) = length dst.
Proof.
  intros Hd Hs. unfold memcpy.
  rewrite !length_app, !length_take, length_drop. lia.
Qed.

Lemma memcpy_take (dst src : list Z) (off n : nat) :
  (off + n <= length dst)%nat -> (n <= length src)%nat ->
  take (off + n) (memcpy dst off src n) = take off dst ++ take n src.
Proof.
  intros Hd Hs. unfold memcpy.
  rewrite app_assoc.
  apply take_app_length'.
  rewrite length_app, !length_take. lia.
Qed.

Lemma AddParam1_fits (p : AD013_Params) (b : Z) :
  params_wf p -> 0 <= b < 256 -> size p + 1 <= AD013_MAX_PARAMS_SIZE ->
  exists p', AD013_AddParam1 (Some p) b = (size p + 1, Some p') /\
             params_wf p' /\ size p' = size p + 1 /\
             contents p' = contents p ++ [b].
Proof.
  intros [Hlen Hsz] Hb Hfit. unfold AD013_AddParam1, AD013_MAX_PARAMS_SIZE in *.
  destruct (Z.gtb_spec (size p) (20 - 1)); [lia|].
  destruct (Z.ltb_spec (size p) 0); [lia|].
  eexists; split; [reflexivity|].
  unfold params_wf, contents, AD013_MAX_PARAMS_SIZE; simpl.
  rewrite length_insert, Z.mod_small by lia.
  repeat split; try lia.
  replace (Z.to_nat (size p + 1)) with (S (Z.to_nat (size p))) by lia.
  apply take_succ_insert. lia.
Qed.

Lemma AddParam2_fits (p : AD013_Params) (w : Z) :
  params_wf p -> 0 <= w < 65536 -> size p + 2 <= AD013_MAX_PARAMS_SIZE ->
  exists p', AD013_AddParam2 (Some p) w = (size p + 2, Some p') /\
             params_wf p' /\ size p' = size p + 2 /\
             contents p' = contents p ++ [w / 256; w mod 256].
Proof.
  intros [Hlen Hsz] Hw Hfit. unfold AD013_AddParam2, AD013_MAX_PARAMS_SIZE in *.
  destruct (Z.gtb_spec (size p) (20 - 2)); [lia|].
  destruct (Z.ltb_spec (size p) 0); [lia|].
  eexists; split; [reflexivity|].
  unfold params_wf, contents, AD013_MAX_PARAMS_SIZE; simpl.
  rewrite !length_insert, (Z.mod_small w) by lia.
  repeat split; try lia.
  replace (Z.to_nat (size p + 2)) with (S (S (Z.to_nat (size p)))) by lia.
  replace (Z.to_nat (size p + 1)) with (S (Z.to_nat (size p))) by lia.
  rewrite take_succ_insert by (rewrite length_insert; lia).
  rewrite take_succ_insert by lia.
  by rewrite <- app_assoc.
Qed.

Lemma AddParamN_fits (p : AD013_Params) (bs : list Z) :
  params_wf p -> Z.of_nat (length bs) < 256 ->
  size p + Z.of_nat (length bs) <= AD013_MAX_PARAMS_SIZE ->
  exists p', AD013_AddParamN (Some p) (Some bs) (Z.of_nat (length bs))
               = (size p + Z.of_nat (length bs), Some p') /\
             params_wf p' /\ size p' = size p + Z.of_nat (length bs) /\
             contents p' = contents p ++ bs.
Proof.
  intros [Hlen Hsz] Hn Hfit. unfold AD013_AddParamN, AD013_MAX_PARAMS_SIZE in *.
  rewrite Z.mod_small by lia.
  destruct (Z.gtb_spec (size p) (20 - Z.of_nat (length bs))); [lia|].
  eexists; split; [reflexivity|].
  unfold params_wf, contents, AD013_MAX_PARAMS_SIZE; simpl.
  rewrite Nat2Z.id.
  rewrite memcpy_length by lia.
  repeat split; try lia.
  replace (Z.to_nat (size p + Z.of_nat (length bs)))
    with (Z.to_nat (size p) + length bs)%nat by lia.
  rewrite memcpy_take by lia.
  by rewrite firstn_all.
Qed.

Lemma do_push_fits (p : AD013_Params) (x : push) :
  params_wf p -> push_ok x -> size p + push_size x <= AD013_MAX_PARAMS_SIZE ->
  exists p', do_push (Some p) x = (size p + push_size x, Some p') /\
             params_wf p' /\ size p' = size p + push_size x /\
             contents p' = contents p ++ push_wire x.
Proof.
  destruct x as [b|w|bs]; simpl; intros Hwf Hok Hfit.
  - by apply AddParam1_fits.
  - by apply AddParam2_fits.
  - by apply AddParamN_fits.
Qed.

Lemma do_push_overflow (p : AD013_Params) (x : push) :
  push_ok x -> size p + push_size x > AD013_MAX_PARAMS_SIZE ->
  do_push (Some p) x = (-1, Some p).
Proof.
  destruct x as [b|w|bs]; simpl; intros Hok Hover;
    unfold AD013_AddParam1, AD013_AddParam2, AD013_AddParamN,
      AD013_MAX_PARAMS_SIZE in *.
  - destruct (Z.gtb_spec (size p) (20 - 1)); [done|lia].
  - destruct (Z.gtb_spec (size p) (20 - 2)); [done|lia].
  - rewrite Z.mod_small by lia.
    destruct (Z.gtb_spec (size p) (20 - Z.of_nat (length bs))); [done|lia].
Qed.

Lemma pushes_size_nonneg (xs : list push) : 0 <= pushes_size xs.
Proof.
  induction xs as [|x xs IH]; simpl; [lia|].
  destruct x; simpl; lia.
Qed.

Lemma do_pushes_fit (xs : list push) :
  forall p : AD013_Params,
    params_wf p -> Forall push_ok xs ->
    size p + pushes_size xs <= AD013_MAX_PARAMS_SIZE ->
    exists rs p', do_pushes (Some p) xs = (rs, Some p') /\
                  Forall (fun r => 0 <= r) rs /\ length rs = length xs /\
                  params_wf p' /\ size p' = size p + pushes_size xs /\
                  contents p' = contents p ++ concat (map push_wire xs).
Proof.
  induction xs as [|x xs IH]; intros p Hwf Hok Hfit.
  - exists [], p. simpl. rewrite app_nil_r. split_and!; try done; lia.
  - inversion Hok as [|? ? Hx Hxs]; subst. simpl in Hfit.
    pose proof (pushes_size_nonneg xs) as Hnn.
    destruct (do_push_fits p x Hwf Hx) as (p1 & E1 & Hwf1 & Hs1 & Hc1); [lia|].
    destruct (IH p1 Hwf1 Hxs) as (rs & p2 & E2 & Hrs & Hlen & Hwf2 & Hs2 & Hc2);
      [lia|].
    exists (size p + push_size x :: rs), p2.
    simpl. rewrite E1, E2.
    split_and!; [done| |simpl; lia|done|lia|].
    + constructor; [|done]. destruct Hwf as [_ ?]. destruct x; simpl; lia.
    + rewrite Hc2, Hc1. by rewrite <- app_assoc.
Qed.

(** C9.  Starting from a cleared parameter buffer (capacity 20), any
    sequence of [push_u8], [push_u16] (high byte, then low byte) and
    [push_bytes] requests whose cumulative size is at most the capacity
    succeeds at every step and leaves the buffer holding exactly the
    concatenation of the pushed values in order; and for a buffer in any
    state, a push that would exceed the capacity returns -1 and leaves the
    contents and the cursor as they were. *)
Theorem param_buffer_law (p0 p : AD013_Params) (xs : list push) (x : push) :
  length (buff p0) = Z.to_nat AD013_MAX_PARAMS_SIZE ->
  Forall push_ok xs -> push_ok x ->
  (pushes_size xs <= AD013_MAX_PARAMS_SIZE ->
   exists rs p',
     do_pushes (Some (AD013_ClearParams p0)) xs = (rs, Some p') /\
     length rs = length xs /\ Forall (fun r => 0 <= r) rs /\
     size p' = pushes_size xs /\
     contents p' = concat (map push_wire xs)) /\
  (size p + push_size x > AD013_MAX_PARAMS_SIZE ->
   do_push (Some p) x = (-1, Some p)).
Proof.
  intros Hlen Hxs Hx. split.
  - intros Hfit.
    assert (Hwf : params_wf (AD013_ClearParams p0)).
    { split; [done|]. simpl. unfold AD013_MAX_PARAMS_SIZE. lia. }
    destruct (do_pushes_fit xs (AD013_ClearParams p0) Hwf Hxs) as
      (rs & p' & E & Hrs & Hl & _ & Hs & Hc); [simpl; lia|].
    exists rs, p'. simpl in Hs, Hc. rewrite Z.add_0_l in Hs.
    by split_and!.
  - by apply do_push_overflow.
Qed.

Lemma param_buffer_law_witness :
  (exists rs p',
     do_pushes (Some (AD013_ClearParams AD013_DefaultParams))
       [push_u8 1; push_u16 0x1234; push_bytes [7; 8; 9]] = (rs, Some p') /\
     length rs = 3%nat /\ Forall (fun r => 0 <= r) rs /\
     size p' = 6 /\ contents p' = [1; 0x12; 0x34; 7; 8; 9]) /\
  do_push (Some (mkParams [] (replicate 20 0) 19)) (push_u16 5)
    = (-1, Some (mkParams [] (replicate 20 0) 19)).
Proof.
  pose proof (param_buffer_law AD013_DefaultParams
                (mkParams [] (replicate 20 0) 19)
                [push_u8 1; push_u16 0x1234; push_bytes [7; 8; 9]]
                (push_u16 5)) as W.
  destruct W as [W1 W2].
  - reflexivity.
  - repeat constructor; simpl; lia.
  - simpl; lia.
  - split.
    + apply W1. vm_compute. discriminate.
    + apply W2. vm_compute. reflexivity.
Defined.

(** ** Cells, codec and checksum *)

Lemma cell_app_l (a b : list Z) (i : nat) :
  (i < length a)%nat -> cell (a ++ b) i = cell a i.
Proof. intros Hi. unfold cell. by apply app_nth1. Qed.

Lemma cell_app_r (a b : list Z) (i : nat) :
  (length a <= i)%nat -> cell (a ++ b) i = cell b (i - length a).
Proof. intros Hi. unfold cell. by apply app_nth2. Qed.

Lemma cell_insert_ne (l : list Z) (i j : nat) (x : Z) :
  i <> j -> cell (<[i := x]> l) j = cell l j.
Proof.
  intros Hne. unfold cell.
  rewrite !nth_lookup, list_lookup_insert_ne; done.
Qed.

Lemma cell_insert_eq (l : list Z) (i : nat) (x : Z) :
  (i < length l)%nat -> cell (<[i := x]> l) i = x.
Proof.
  intros Hi. unfold cell.
  by rewrite nth_lookup, list_lookup_insert_eq.
Qed.

Lemma cell_lookup (l : list Z) (i : nat) :
  (i < length l)%nat -> l !! i = Some (cell l i).
Proof.
  intros Hi. unfold cell. rewrite nth_lookup.
  destruct (lookup_lt_is_Some_2 l i Hi) as [x Hx]. by rewrite Hx.
Qed.

(** Round trip of the 16-bit codec through a buffer. *)
Lemma get_set_uint16 (l : list Z) (off : nat) (w : Z) :
  (S off < length l)%nat ->
  AD013_get_uint16_value (AD013_set_uint16_value l off w) off = w mod 65536.
Proof.
  intros Hoff. unfold AD013_get_uint16_value, AD013_set_uint16_value.
  replace (off + 1)%nat with (S off) by lia.
  rewrite cell_insert_eq by (rewrite length_insert; lia).
  rewrite cell_insert_ne by lia.
  rewrite cell_insert_eq by lia.
  pose proof (Z.div_mod (w mod 65536) 256). lia.
Qed.

Lemma land_65535 (x : Z) : Z.land x 65535 = x mod 65536.
Proof. change 65535 with (Z.ones 16). by rewrite Z.land_ones. Qed.

Lemma checksum_ext (c1 c2 : Z -> Z) (a b : list Z) (lo : nat) (hi : Z) :
  (forall i, (lo <= i)%nat -> Z.of_nat i < hi -> c1 (cell a i) = c2 (cell b i)) ->
  checksum c1 a lo hi = checksum c2 b lo hi.
Proof.
  unfold checksum. intros Hext.
  assert (Hseq : forall i, i ∈ seq lo (Z.to_nat hi - lo) ->
                           c1 (cell a i) = c2 (cell b i)).
  { intros i Hi. apply elem_of_seq in Hi. apply Hext; lia. }
  clear Hext. revert Hseq. generalize (seq lo (Z.to_nat hi - lo)). intros l.
  generalize 0. induction l as [|i l IH]; intros acc Hseq; simpl; [done|].
  rewrite Hseq by apply list_elem_of_here.
  apply IH. intros j Hj. apply Hseq. by apply list_elem_of_further.
Qed.

Lemma checksum_foldr (c : Z -> Z) (body : list Z) :
  forall (pre post : list Z) (acc : Z),
    0 <= acc < 65536 ->
    foldl (fun sum i => Z.land (sum + c (cell (pre ++ body ++ post) i)) 65535)
      acc (seq (length pre) (length body))
    = (acc + foldr Z.add 0 (map c body)) mod 65536.
Proof.
  induction body as [|x body IH]; intros pre post acc Hacc; simpl.
  - rewrite Z.add_0_r, Z.mod_small; lia.
  - rewrite cell_app_r, Nat.sub_diag by lia. simpl.
    specialize (IH (pre ++ [x]) post (Z.land (acc + c x) 65535)).
    rewrite <- app_assoc, length_app in IH. simpl in IH.
    rewrite Nat.add_1_r in IH. change (cell (x :: body ++ post) 0) with x.
    rewrite IH.
    + rewrite land_65535, Z.add_mod_idemp_l by lia. f_equal. lia.
    + rewrite land_65535. apply Z.mod_pos_bound. lia.
Qed.

Lemma map_to_uint8_bytes (l : list Z) :
  Forall (fun b => 0 <= b < 256) l -> map to_uint8 l = l.
Proof.
  induction 1 as [|b l Hb _ IH]; simpl; [done|].
  unfold to_uint8 at 1. rewrite Z.mod_small, IH; done.
Qed.

Lemma memcpy_mid (a b c src : list Z) (off n : nat) :
  off = length a -> n = length b ->
  memcpy (a ++ b ++ c) off src n = a ++ take n src ++ c.
Proof.
  intros -> ->. unfold memcpy.
  rewrite take_app_length. f_equal. f_equal.
  rewrite app_assoc, <- length_app. apply drop_app_length.
Qed.

Lemma build_spec_frame (code : Z) (params : option AD013_Params) :
  0 <= code < 256 ->
  0 <= params_size params <= AD013_MAX_PARAMS_SIZE ->
  match params with
  | Some p => (Z.to_nat (size p) <= length (buff p))%nat
  | None => True
  end ->
  Forall (fun b => 0 <= b < 256) (payload_of params) ->
  AD013_Send_build code params = spec_frame code (payload_of params).
Proof.
  intros Hcode Hn Hlen Hbytes.
  set (n := params_size params) in *.
  set (payload := payload_of params) in *.
  assert (Hpl : length payload = Z.to_nat n).
  { subst payload n. destruct params as [p|]; simpl in *; [|done].
    unfold contents. rewrite length_take. lia. }
  unfold AD013_MAX_PARAMS_SIZE in Hn.
  unfold AD013_Send_build. fold n.
  match goal with
  | |- context [AD013_set_uint16_value ?b AD013_MSG_OFFSET_LENGTH _] =>
      set (X := b)
  end.
  assert (HX : X = [0xEF; 0x01; 0xFF; 0xFF; 0xFF; 0xFF; 0x01; 0; 3; code]
                     ++ payload ++ [0; 0]).
  { subst X.
    replace (Z.to_nat (12 + n)) with (10 + (length payload + 2))%nat by lia.
    rewrite !replicate_add.
    pose proof (memcpy_mid [] (replicate 10 0)
                  (replicate (length payload) 0 ++ replicate 2 0)
                  msgTemplate 0 10 eq_refl eq_refl) as Hhead.
    simpl app in Hhead. simpl app. rewrite Hhead. clear Hhead.
    unfold to_uint8. rewrite (Z.mod_small code) by lia.
    change (<[AD013_MSG_OFFSET_CODE:=code]> _)
      with ([0xEF; 0x01; 0xFF; 0xFF; 0xFF; 0xFF; 0x01; 0; 3; code]
              ++ replicate (length payload) 0 ++ [0; 0]).
    destruct params as [p|].
    - destruct (Z.gtb_spec (size p) 0) as [Hpos|Hzero].
      + rewrite memcpy_mid; [done|done|].
        rewrite length_replicate. exact (eq_sym Hpl).
      + assert (n = 0) as Hz by (subst n; simpl in *; lia).
        rewrite Hz in Hpl. destruct payload; [done|discriminate].
    - destruct payload; [done|discriminate]. }
  rewrite HX. clear X HX.
  set (len := 3 + Z.of_nat (length payload)).
  assert (Hlen' : (3 + n) `mod` 65536 = len) by (subst len; rewrite Z.mod_small; lia).
  rewrite Hlen'.
  set (body := [0x01; len / 256; len `mod` 256; code] ++ payload).
  assert (HY : AD013_set_uint16_value
                 ([0xEF; 0x01; 0xFF; 0xFF; 0xFF; 0xFF; 0x01; 0; 3; code]
                    ++ payload ++ [0; 0]) AD013_MSG_OFFSET_LENGTH len
               = [0xEF; 0x01; 0xFF; 0xFF; 0xFF; 0xFF] ++ body ++ [0; 0]).
  { unfold AD013_set_uint16_value. rewrite (Z.mod_small len) by (subst len; lia).
    reflexivity. }
  rewrite HY. clear HY.
  assert (Hbody : Forall (fun b => 0 <= b < 256) body).
  { subst body. apply Forall_app. split; [|done].
    repeat constructor; try lia.
    - apply Z.div_pos; subst len; lia.
    - apply Z.div_lt_upper_bound; subst len; lia.
    - apply Z.mod_pos_bound; lia.
    - apply Z.mod_pos_bound; lia. }
  assert (Hsum : checksum to_uint8
                   ([0xEF; 0x01; 0xFF; 0xFF; 0xFF; 0xFF] ++ body ++ [0; 0])
                   AD013_MSG_OFFSET_FLAG (12 + n - 2) = frame_sum body).
  { unfold checksum, frame_sum.
    replace (Z.to_nat (12 + n - 2) - AD013_MSG_OFFSET_FLAG)%nat
      with (length body)
      by (subst body; rewrite length_app; simpl; unfold AD013_MSG_OFFSET_FLAG; lia).
    change AD013_MSG_OFFSET_FLAG
      with (length [0xEF; 0x01; 0xFF; 0xFF; 0xFF; 0xFF]).
    rewrite checksum_foldr by lia.
    by rewrite map_to_uint8_bytes, Z.add_0_l. }
  rewrite Hsum. clear Hsum.
  unfold spec_frame. fold len. fold body.
  pose proof (Z.mod_pos_bound (foldr Z.add 0 body) 65536 ltac:(lia)) as Hs.
  fold (frame_sum body) in Hs.
  unfold AD013_set_uint16_value. rewrite (Z.mod_small (frame_sum body)) by done.
  assert (Hoff : (AD013_MSG_OFFSET_DATA + Z.to_nat n)%nat
                 = length ([0xEF; 0x01; 0xFF; 0xFF; 0xFF; 0xFF] ++ body)).
  { subst body. rewrite !length_app. simpl. unfold AD013_MSG_OFFSET_DATA. lia. }
  rewrite Hoff, !(app_assoc _ body).
  generalize ([0xEF; 0x01; 0xFF; 0xFF; 0xFF; 0xFF] ++ body). intros l.
  rewrite (insert_app_r_alt l _ (length l)) by lia.
  rewrite (insert_app_r_alt l _ (S (length l))) by lia.
  rewrite Nat.sub_diag.
  replace (S (length l) - length l)%nat with 1%nat by lia.
  reflexivity.
Qed.


Lemma char_to_int_7bit (cs : bool) (c : Z) : 0 <= c < 128 -> char_to_int cs c = c.
Proof.
  intros Hc. unfold char_to_int. rewrite Z.mod_small by lia.
  destruct (Z.leb_spec 128 c); [lia|]. by rewrite andb_false_r.
Qed.

Lemma map_char_to_int_7bit (cs : bool) (l : list Z) :
  Forall (fun b => 0 <= b < 128) l -> map (char_to_int cs) l = l.
Proof.
  induction 1 as [|b l Hb _ IH]; simpl; [done|].
  by rewrite char_to_int_7bit, IH.
Qed.

(** A read loop that finds a whole frame of 12 to 20 bytes in its first
    read stores it and stops. *)
Lemma Send_read_one_chunk (frame : list Z) (r : list (list Z)) (w : Wire) :
  rx w = frame :: r ->
  (12 <= length frame <= 20)%nat ->
  AD013_Send_read 5 (replicate (Z.to_nat AD013_MAX_ACK_BUFF_SIZE) 0) 0 w
  = (frame ++ replicate (20 - length frame) 0, Z.of_nat (length frame),
     {| rx := r; log := EvRead 20 frame :: log w |}).
Proof.
  intros Hrx Hlen.
  change (AD013_Send_read 5) with (AD013_Send_read (T:=Wire) (S (S 3))).
  cbn [AD013_Send_read].
  change (0 <? AD013_MSG_HEADER_SIZE + 2) with true. cbn match.
  change (AD013_MAX_ACK_BUFF_SIZE - 0) with 20.
  cbn [stream_readBytes Wire_Stream]. unfold wire_readBytes. rewrite Hrx.
  change (Z.to_nat 20) with 20%nat.
  rewrite take_ge, drop_ge by lia.
  rewrite Z.add_0_l, Z.mod_small by lia.
  destruct (Z.ltb_spec (Z.of_nat (length frame)) (AD013_MSG_HEADER_SIZE + 2))
    as [Hlt|_].
  { unfold AD013_MSG_HEADER_SIZE in Hlt. lia. }
  unfold memcpy. rewrite firstn_all.
  rewrite drop_replicate. done.
Qed.

Lemma get_uint16_bytes (l : list Z) (off : nat) (w : Z) :
  cell l off = w / 256 -> cell l (S off) = w mod 256 ->
  AD013_get_uint16_value l off = w.
Proof.
  intros Hhi Hlo. unfold AD013_get_uint16_value.
  replace (off + 1)%nat with (S off) by lia.
  rewrite Hhi, Hlo. pose proof (Z.div_mod w 256). lia.
Qed.

(** The validation of a reply that is the request's own frame. *)
Lemma Send_parse_own_frame (cs : bool) (code : Z) (payload zeros : list Z) :
  0 <= code < 128 ->
  (length payload <= 8)%nat ->
  Forall (fun b => 0 <= b < 128) payload ->
  let len := 3 + Z.of_nat (length payload) in
  let body := [0x01; len / 256; len mod 256; code] ++ payload in
  AD013_Send_parse cs (spec_frame code payload)
    (spec_frame code payload ++ zeros)
    (12 + Z.of_nat (length payload)) RecvAlloc
  = ReplyCode code (Some (payload ++ [frame_sum body / 256])).
Proof.
  intros Hcode Hlen Hbytes len body.
  unfold AD013_Send_parse.
  destruct (Z.ltb_spec (12 + Z.of_nat (length payload)) 10); [lia|].
  unfold spec_frame. fold len; fold body.
  change (memcmp _ _ 5 =? 0) with true. cbn match.
  set (sm := frame_sum body).
  set (R := ([239; 1; 255; 255; 255; 255] ++ body ++ [sm / 256; sm `mod` 256]) ++ zeros).
  assert (Hlenlt : len < 128) by (subst len; lia).
  assert (Hbody : Forall (fun b => 0 <= b < 128) body).
  { subst body. apply Forall_app. split; [|done].
    rewrite Z.div_small, Z.mod_small by lia.
    repeat constructor; lia. }
  assert (Hsum : checksum (char_to_int cs) R AD013_MSG_OFFSET_FLAG
                   (12 + Z.of_nat (length payload) - 2) = sm).
  { unfold checksum, R. rewrite <- !app_assoc.
    replace (Z.to_nat (12 + Z.of_nat (length payload) - 2) - AD013_MSG_OFFSET_FLAG)%nat
      with (length body)
      by (subst body; rewrite length_app; simpl; unfold AD013_MSG_OFFSET_FLAG; lia).
    change AD013_MSG_OFFSET_FLAG
      with (length [0xEF; 0x01; 0xFF; 0xFF; 0xFF; 0xFF]).
    rewrite checksum_foldr by lia.
    by rewrite map_char_to_int_7bit, Z.add_0_l. }
  rewrite Hsum.
  assert (HS : 0 <= sm < 65536) by (apply Z.mod_pos_bound; lia).
  assert (Hrs : AD013_get_uint16_value R
                  (Z.to_nat (12 + Z.of_nat (length payload) - 2)) = sm).
  { assert (Hoff : Z.to_nat (12 + Z.of_nat (length payload) - 2)
                   = length ([239; 1; 255; 255; 255; 255] ++ body)).
    { subst body. rewrite !length_app. simpl. lia. }
    rewrite Hoff. unfold R. rewrite <- !app_assoc, (app_assoc _ body).
    generalize ([239; 1; 255; 255; 255; 255] ++ body). intros l.
    apply get_uint16_bytes.
    - rewrite cell_app_r, Nat.sub_diag by lia. done.
    - rewrite cell_app_r by lia.
      by replace (S (length l) - length l)%nat with 1%nat by lia. }
  rewrite Hrs, Z.eqb_refl. cbn [negb].
  assert (Hpk : AD013_get_uint16_value R AD013_MSG_OFFSET_LENGTH = len).
  { by apply get_uint16_bytes. }
  rewrite Hpk.
  assert (Hcd : to_uint8 (cell R AD013_MSG_OFFSET_CODE) = code).
  { change (cell R AD013_MSG_OFFSET_CODE) with code.
    unfold to_uint8. rewrite Z.mod_small; lia. }
  rewrite Hcd.
  destruct (Z.ltb_spec len 2) as [Hx|_]; [subst len; lia|].
  rewrite Z.mod_small by (subst len; lia).
  destruct (Z.leb_spec (len - 2)
              (AD013_MAX_ACK_BUFF_SIZE - Z.of_nat AD013_MSG_OFFSET_DATA))
    as [_|Hx];
    [|unfold AD013_MAX_ACK_BUFF_SIZE, AD013_MSG_OFFSET_DATA in Hx;
      subst len; lia].
  f_equal. f_equal.
  change (drop AD013_MSG_OFFSET_DATA R)
    with ((payload ++ [sm / 256; sm `mod` 256]) ++ zeros).
  replace (Z.to_nat (len - 2)) with (length payload + 1)%nat by (subst len; lia).
  rewrite <- !app_assoc, take_app_add. done.
Qed.


Lemma spec_frame_length (code : Z) (payload : list Z) :
  length (spec_frame code payload) = (12 + length payload)%nat.
Proof. unfold spec_frame. rewrite !length_app. simpl. lia. Qed.

(** C1 (as amended).  For every opcode below 0x80 and every command with
    no parameter struct or with a parameter buffer of 1 to 8 bytes, each
    below 0x80, the assembled frame is the frame of the data model: 12 +
    param_len bytes, length field 3 + param_len, sum of the bytes from the
    flag to the end of the payload modulo 2^16.  Delivered back in one read
    as the reply to that command, it passes the validation: the command
    returns the same code, and the bytes copied out are the same payload
    followed by the high byte of the sum. *)
Theorem frame_round_trip (cs : bool) (code : Z) (params : option AD013_Params) :
  0 <= code < 128 ->
  match params with
  | Some p => params_wf p /\ 1 <= size p <= 8
  | None => True
  end ->
  Forall (fun b => 0 <= b < 128) (payload_of params) ->
  let payload := payload_of params in
  let len := 3 + Z.of_nat (length payload) in
  let body := [0x01; len / 256; len mod 256; code] ++ payload in
  Z.of_nat (length payload) = params_size params /\
  AD013_Send_build code params = spec_frame code payload /\
  loopback cs code params
  = Some (code, Some (payload ++ [frame_sum body / 256])).
Proof.
  intros Hcode Hp Hbytes payload len body.
  assert (Hn : 0 <= params_size params <= 8).
  { destruct params as [p|]; simpl; [|lia]. destruct Hp as [_ ?]. lia. }
  assert (Hfit : match params with
                 | Some p => (Z.to_nat (size p) <= length (buff p))%nat
                 | None => True
                 end).
  { destruct params as [p|]; [|done]. destruct Hp as [[Hl _] ?].
    rewrite Hl. unfold AD013_MAX_PARAMS_SIZE. lia. }
  assert (Hpl : Z.of_nat (length payload) = params_size params).
  { subst payload. destruct params as [p|]; simpl in *; [|done].
    unfold contents. rewrite length_take. lia. }
  assert (Hbuild : AD013_Send_build code params = spec_frame code payload).
  { apply build_spec_frame; try done; try lia.
    - unfold AD013_MAX_PARAMS_SIZE. lia.
    - revert Hbytes. apply Forall_impl. intros; lia. }
  split_and!; [done|done|].
  unfold loopback, AD013_Send.
  assert (Hguard : match params with Some p => size p <? 1 | None => false end = false).
  { destruct params as [p|]; [|done]. destruct Hp as [_ ?].
    apply Z.ltb_ge. lia. }
  rewrite Hguard, Hbuild.
  rewrite (Send_read_one_chunk (spec_frame code payload) []);
    [|done|rewrite spec_frame_length; lia].
  rewrite spec_frame_length.
  replace (Z.of_nat (12 + length payload)) with (12 + Z.of_nat (length payload)) by lia.
  rewrite Send_parse_own_frame; try done. lia.
Qed.

Lemma frame_round_trip_witness :
  let p := mkParams [0xFF; 0xFF; 0xFF; 0xFF]
             ([1; 0; 0; 0; 99] ++ replicate 15 0) 5 in
  AD013_Send_build 0x04 (Some p)
    = [0xEF; 0x01; 0xFF; 0xFF; 0xFF; 0xFF; 0x01; 0x00; 0x08; 0x04;
       1; 0; 0; 0; 99; 0x00; 0x71] /\
  loopback true 0x04 (Some p) = Some (0x04, Some [1; 0; 0; 0; 99; 0x00]).
Proof.
  intros p.
  destruct (frame_round_trip true 0x04 (Some p)) as (_ & Hb & Hl).
  - lia.
  - split; [split; [reflexivity | simpl; unfold AD013_MAX_PARAMS_SIZE; lia] | simpl; lia].
  - vm_compute. repeat constructor; discriminate.
  - split; [exact Hb | exact Hl].
Defined.

(** A parameter buffer of 9 bytes is within the capacity of 20, but its
    frame has 21 bytes and the receive buffer holds 20: read back, the
    frame fails the validation. *)
Lemma frame_round_trip_fails_beyond_8 :
  let p := mkParams [0xFF; 0xFF; 0xFF; 0xFF] (replicate 20 0) 9 in
  params_wf p /\ size p <= AD013_MAX_PARAMS_SIZE /\
  length (AD013_Send_build 0x01 (Some p)) = 21%nat /\
  loopback true 0x01 (Some p) = Some (-99, None) /\
  loopback false 0x01 (Some p) = Some (-99, None).
Proof. vm_compute. repeat split; try discriminate; reflexivity. Qed.

(** Where the two checksum loops part: for a byte of 0x80 or above the
    reply loop adds [recv_buff[i]] as a plain [char].  With a signed
    [char] the frame of opcode 0x80, read back, fails the checksum; with an
    unsigned [char] it passes. *)
Example frame_round_trip_high_byte :
  AD013_Send_build 0x80 None
    = [0xEF; 0x01; 0xFF; 0xFF; 0xFF; 0xFF; 0x01; 0x00; 0x03; 0x80; 0x00; 0x84] /\
  loopback true 0x80 None = Some (-99, None) /\
  loopback false 0x80 None = Some (0x80, Some [0x00]).
Proof. vm_compute. split_and!; reflexivity. Qed.

(** The password command with the default password, and the sensor's
    acknowledgement of it. *)
Example VerifyPwd_exchange :
  let request := [0xEF; 0x01; 0xFF; 0xFF; 0xFF; 0xFF; 0x01; 0x00; 0x07; 0x13;
                  0x00; 0x00; 0x00; 0x00; 0x00; 0x1B] in
  let reply := [0xEF; 0x01; 0xFF; 0xFF; 0xFF; 0xFF; 0x07; 0x00; 0x03; 0x00;
                0x00; 0x0A] in
  let r := PS_VerifyPwd true (wire_of [reply])
             (Some (CFP_FindSensor_myParams None)) in
  written ∘ snd <$> r = Some [request] /\
  fst <$> r = Some (AD013_CODE_OK, None).
Proof. vm_compute. split; reflexivity. Qed.

(** ** What a command leaves on the wire *)

Lemma written_record (e : wire_event) (w : Wire) :
  written (wire_record e w)
  = written w ++ match e with EvWrite f => [f] | _ => [] end.
Proof.
  unfold written, wire_record. simpl. rewrite reverse_cons, omap_app.
  by destruct e.
Qed.

Lemma written_readBytes (n : Z) (w : Wire) :
  written (wire_readBytes n w).2 = written w.
Proof.
  unfold wire_readBytes. destruct (rx w) as [|c r]; cbn [snd].
  - rewrite written_record. apply app_nil_r.
  - unfold written. simpl. rewrite reverse_cons, omap_app. apply app_nil_r.
Qed.

Lemma written_Send_read (k : nat) :
  forall (buf : list Z) (got : Z) (w : Wire),
    written (AD013_Send_read k buf got w).2 = written w.
Proof.
  induction k as [|k IH]; intros buf got w; simpl.
  - by destruct (got <? _).
  - destruct (got <? _); [|done].
    destruct k as [|k']; [done|].
    simpl in IH |- *.
    pose proof (written_readBytes (AD013_MAX_ACK_BUFF_SIZE - got) w) as Hr.
    destruct (wire_readBytes (AD013_MAX_ACK_BUFF_SIZE - got) w) as [chunk w'].
    rewrite IH. exact Hr.
Qed.

Lemma sendable_guard (params : option AD013_Params) :
  sendable params ->
  match params with Some p => size p <? 1 | None => false end = false.
Proof.
  destruct params as [p|]; simpl; [|done].
  intros Hp. apply Z.ltb_ge. lia.
Qed.

(** Sent without a receive pointer, a command always has a result: -1,
    -99 or a status byte, and no bytes for the caller. *)
Lemma Send_no_data {T : Type} `{Stream T} (cs : bool) (code : Z) (s : T)
    (params : option AD013_Params) :
  exists c s',
    AD013_Send cs code s params RecvNone = Some (c, None, s') /\
    (c = -1 \/ c = -99 \/ 0 <= c < 256).
Proof.
  unfold AD013_Send.
  destruct (match params with Some _ => _ | None => _ end);
    [eexists _, _; split; [done|by left]|].
  destruct (AD013_Send_read 5 _ 0 _) as [[buf got] s1].
  unfold AD013_Send_parse.
  destruct (got <? 10); [eexists _, _; split; [done|by left]|].
  destruct (memcmp _ _ 5 =? 0); [|eexists _, _; split; [done|by left]].
  destruct (negb _); [eexists _, _; split; [done|right; by left]|].
  eexists _, _. split; [done|]. right; right.
  apply Z.mod_pos_bound. lia.
Qed.

Lemma written_Send (cs : bool) (code : Z) (w : Wire)
    (params : option AD013_Params) (rd : recv_arg)
    (r : Z * option (list Z) * Wire) :
  sendable params ->
  AD013_Send cs code w params rd = Some r ->
  written r.2 = written w ++ [AD013_Send_build code params].
Proof.
  intros Hg. unfold AD013_Send. rewrite (sendable_guard params Hg).
  pose proof (written_Send_read 5 (replicate (Z.to_nat AD013_MAX_ACK_BUFF_SIZE) 0) 0
                (stream_write (AD013_Send_build code params) w)) as Hr.
  destruct (AD013_Send_read 5 _ 0 _) as [[buf got] w'].
  simpl in Hr. rewrite written_record in Hr.
  destruct (AD013_Send_parse cs _ buf got rd); intros [= <-]; simpl; try done.
  by rewrite !written_record, !app_nil_r.
Qed.

(** C10.  A call of the command routine with a parameter struct whose
    size field is below 1 returns -1 at once: the transport is left exactly
    as it was, nothing is written.  A command without operands is sent by
    passing no struct: the routine then writes the 12-byte frame whose
    length field is 3 (sent without a receive pointer the command always
    has a result; with one, whenever it has a result). *)
Theorem Send_rejects_empty_struct {T : Type} `{Stream T} (cs : bool)
    (code : Z) (s : T) (w : Wire) (p : AD013_Params) (rd : recv_arg) :
  size p < 1 ->
  0 <= code < 256 ->
  AD013_Send cs code s (Some p) rd = Some (-1, None, s) /\
  (exists r, AD013_Send cs code w None RecvNone = Some r /\
             written r.2 = written w ++ [AD013_Send_build code None]) /\
  (forall r, AD013_Send cs code w None rd = Some r ->
             written r.2 = written w ++ [AD013_Send_build code None]) /\
  AD013_Send_build code None = spec_frame code [] /\
  length (AD013_Send_build code None) = 12%nat /\
  AD013_get_uint16_value (AD013_Send_build code None) AD013_MSG_OFFSET_LENGTH = 3.
Proof.
  intros Hsz Hcode.
  assert (Hb : AD013_Send_build code None = spec_frame code []).
  { apply (build_spec_frame code None); simpl; done. }
  split_and!.
  - unfold AD013_Send. by destruct (Z.ltb_spec (size p) 1); [|lia].
  - destruct (Send_no_data cs code w None) as (c & w' & E & _).
    eexists. split; [exact E|]. by apply (written_Send cs code w None RecvNone).
  - intros r E. by apply (written_Send cs code w None rd).
  - exact Hb.
  - by rewrite Hb.
  - by rewrite Hb.
Qed.

Lemma Send_rejects_empty_struct_witness :
  AD013_Send true 0x01 (wire_of [[0xEF; 0x01; 0xFF; 0xFF; 0xFF; 0xFF; 0x07; 0; 3; 0; 0; 0x0A]])
    (Some AD013_DefaultParams) RecvNone
  = Some (-1, None,
          wire_of [[0xEF; 0x01; 0xFF; 0xFF; 0xFF; 0xFF; 0x07; 0; 3; 0; 0; 0x0A]]) /\
  (exists r,
     AD013_Send true 0x01
       (wire_of [[0xEF; 0x01; 0xFF; 0xFF; 0xFF; 0xFF; 0x07; 0; 3; 0; 0; 0x0A]])
       None RecvNone = Some r /\
     written r.2
     = [[0xEF; 0x01; 0xFF; 0xFF; 0xFF; 0xFF; 0x01; 0x00; 0x03; 0x01; 0x00; 0x05]]).
Proof.
  destruct (Send_rejects_empty_struct true 0x01
              (wire_of [[0xEF; 0x01; 0xFF; 0xFF; 0xFF; 0xFF; 0x07; 0; 3; 0; 0; 0x0A]])
              (wire_of [[0xEF; 0x01; 0xFF; 0xFF; 0xFF; 0xFF; 0x07; 0; 3; 0; 0; 0x0A]])
              AD013_DefaultParams RecvNone)
    as (H1 & (r & E & H3) & _ & H4 & _).
  - simpl. lia.
  - lia.
  - split; [exact H1|]. exists r. split; [exact E|].
    rewrite H3, H4. reflexivity.
Defined.

(** ** Validation of a reply *)

Lemma cell_0 (a : list Z) : cell a 0 = hd 0 a.
Proof. by destruct a. Qed.

Lemma cell_S (a : list Z) (i : nat) : cell a (S i) = cell (tl a) i.
Proof. destruct a; [by destruct i|done]. Qed.

Lemma memcmp_zero_iff (n : nat) :
  forall a b : list Z,
    memcmp a b n = 0 <-> (forall i, (i < n)%nat -> cell a i = cell b i).
Proof.
  induction n as [|n IH]; intros a b; simpl.
  - split; [intros _ i Hi; lia|done].
  - destruct (Z.eqb_spec (hd 0 a) (hd 0 b)) as [Heq|Hne].
    + rewrite IH. split.
      * intros Htl [|i] Hi; [by rewrite !cell_0|].
        rewrite !cell_S. apply Htl. lia.
      * intros Hall i Hi. rewrite <- !cell_S. apply Hall. lia.
    + split; [intros; lia|].
      intros Hall. specialize (Hall 0%nat ltac:(lia)).
      rewrite !cell_0 in Hall. done.
Qed.

Lemma memcmp_ext (n : nat) (a b b' : list Z) :
  (forall i, (i < n)%nat -> cell b i = cell b' i) ->
  (memcmp a b n =? 0) = (memcmp a b' n =? 0).
Proof.
  intros Hext.
  destruct (Z.eqb_spec (memcmp a b n) 0) as [H0|H0];
    destruct (Z.eqb_spec (memcmp a b' n) 0) as [H1|H1]; try done; exfalso.
  - apply H1. apply memcmp_zero_iff. intros i Hi.
    rewrite <- Hext by done. by apply (memcmp_zero_iff n a b).
  - apply H0. apply memcmp_zero_iff. intros i Hi.
    rewrite Hext by done. by apply (memcmp_zero_iff n a b').
Qed.

(** The validation depends on the receive buffer only through the cells
    it reads: cells 0 to 4 (echo check) and the cells from 6 on. *)
Lemma Send_parse_ext (cs : bool) (send recv recv' : list Z) (len : Z)
    (rd : recv_arg) :
  (forall i, i <> 5%nat -> cell recv i = cell recv' i) ->
  drop AD013_MSG_OFFSET_DATA recv = drop AD013_MSG_OFFSET_DATA recv' ->
  AD013_Send_parse cs send recv len rd = AD013_Send_parse cs send recv' len rd.
Proof.
  intros Hcells Hdrop. unfold AD013_Send_parse.
  destruct (Z.ltb_spec len 10) as [|Hlen]; [done|].
  rewrite (memcmp_ext 5 send recv recv') by (intros; apply Hcells; lia).
  destruct (memcmp send recv' 5 =? 0); [|done].
  rewrite (checksum_ext (char_to_int cs) (char_to_int cs) recv recv')
    by (intros i Hi _; rewrite Hcells; [done|unfold AD013_MSG_OFFSET_FLAG in Hi; lia]).
  unfold AD013_get_uint16_value, AD013_MSG_OFFSET_LENGTH, AD013_MSG_OFFSET_CODE.
  rewrite !(Hcells (Z.to_nat (len - 2) + 1)%nat), !(Hcells (Z.to_nat (len - 2))),
    !(Hcells (7 + 1)%nat), !(Hcells 7%nat), !(Hcells 9%nat) by lia.
  by rewrite Hdrop.
Qed.

(** C2.  The validation of a reply never looks at the fourth device-id
    byte (offset 5): whatever stands there, the outcome is the same.  So a
    reply that differs from the request in that byte only, and is otherwise
    well formed, is accepted and its status code returned, where the echo
    rule asks for a rejection. *)
Theorem Send_accepts_wrong_device_id :
  (forall (cs : bool) (send recv : list Z) (len : Z) (rd : recv_arg) (x : Z),
      AD013_Send_parse cs send (<[5%nat := x]> recv) len rd
      = AD013_Send_parse cs send recv len rd) /\
  (forall cs : bool,
      let request := AD013_Send_build 0x01 None in
      let reply := [0xEF; 0x01; 0xFF; 0xFF; 0xFF; 0xFE; 0x07; 0; 3; 0; 0; 0x0A] in
      take 6 request = [0xEF; 0x01; 0xFF; 0xFF; 0xFF; 0xFF] /\
      take 6 reply <> take 6 request /\
      fst <$> AD013_Send cs 0x01 (wire_of [reply]) None RecvNone
      = Some (0, None)).
Proof.
  split.
  - intros cs send recv len rd x. apply Send_parse_ext.
    + intros i Hi. by apply cell_insert_ne.
    + apply drop_insert_lt. unfold AD013_MSG_OFFSET_DATA. lia.
  - intros [|]; vm_compute; split_and!; done.
Qed.

(** A reply that differs from the request in one of its first five bytes
    is rejected through the error exit. *)
Lemma Send_parse_rejects_first_five (cs : bool) (send recv : list Z)
    (len : Z) (rd : recv_arg) (i : nat) :
  (i < 5)%nat -> cell send i <> cell recv i ->
  AD013_Send_parse cs send recv len rd = ReplyErr.
Proof.
  intros Hi Hne. unfold AD013_Send_parse.
  destruct (len <? 10); [done|].
  destruct (Z.eqb_spec (memcmp send recv 5) 0) as [H0|]; [|done].
  exfalso. apply Hne. by apply (memcmp_zero_iff 5 send recv).
Qed.

Lemma map_char_to_int_bytes (cs : bool) (l : list Z) :
  Forall (fun b => 0 <= b < (if cs then 128 else 256)) l ->
  map (char_to_int cs) l = l.
Proof.
  induction 1 as [|b l Hb _ IH]; simpl; [done|].
  rewrite IH. f_equal. destruct cs; [by apply char_to_int_7bit|].
  unfold char_to_int. simpl. apply Z.mod_small. lia.
Qed.

(** The checksum loop of the reply computes the 16-bit sum of the bytes it
    runs over, as long as none of them is a [char] of negative value. *)
Lemma checksum_frame_sum (cs : bool) (buf : list Z) (n : nat) :
  (8 <= n <= length buf)%nat ->
  Forall (fun b => 0 <= b < (if cs then 128 else 256))
    (take (n - 8) (drop AD013_MSG_OFFSET_FLAG buf)) ->
  checksum (char_to_int cs) buf AD013_MSG_OFFSET_FLAG (Z.of_nat n - 2)
  = frame_sum (take (n - 8) (drop AD013_MSG_OFFSET_FLAG buf)).
Proof.
  intros Hn Hbytes. unfold AD013_MSG_OFFSET_FLAG in *.
  set (body := take (n - 8) (drop 6 buf)) in *.
  assert (Hlb : length body = (n - 8)%nat)
    by (subst body; rewrite length_take, length_drop; lia).
  assert (Hbuf : buf = take 6 buf ++ body ++ drop (n - 8) (drop 6 buf)).
  { subst body. by rewrite !take_drop. }
  rewrite (checksum_ext (char_to_int cs) (char_to_int cs) buf
             (take 6 buf ++ body ++ drop (n - 8) (drop 6 buf)))
    by (intros; by rewrite <- Hbuf).
  unfold checksum, frame_sum.
  replace (Z.to_nat (Z.of_nat n - 2) - 6)%nat with (length body) by lia.
  replace 6%nat with (length (take 6 buf)) at 1 by (rewrite length_take; lia).
  rewrite checksum_foldr by lia.
  by rewrite map_char_to_int_bytes, Z.add_0_l.
Qed.

(** A command run against a port whose next read delivers a whole reply
    of 12 to 20 bytes: one write, one read, then the validation of those
    bytes. *)
Lemma Send_one_chunk (cs : bool) (code : Z) (w : Wire)
    (params : option AD013_Params) (rd : recv_arg) (reply : list Z)
    (rest : list (list Z)) :
  sendable params -> rx w = reply :: rest ->
  (12 <= length reply <= 20)%nat ->
  let frame := AD013_Send_build code params in
  let w1 := {| rx := rest; log := EvRead 20 reply :: EvWrite frame :: log w |} in
  AD013_Send cs code w params rd
  = match AD013_Send_parse cs frame
            (reply ++ replicate (20 - length reply) 0)
            (Z.of_nat (length reply)) rd with
    | ReplyErr => Some (-1, None, board_delay 50 (board_delay 50 w1))
    | ReplyBadSum => Some (-99, None, w1)
    | ReplyCode recv_code data => Some (recv_code, data, w1)
    | ReplyFault => None
    end.
Proof.
  intros Hg Hrx Hlen frame w1. unfold AD013_Send.
  rewrite (sendable_guard params Hg).
  by rewrite (Send_read_one_chunk reply rest).
Qed.

(** C3 (as amended).  The validation reads the 16-bit length field but
    never compares it with the number of bytes received.  Take a reply of
    12 to 20 bytes, delivered in one read, whose first five bytes echo the
    request and whose bytes from offset 6 up to the last two are below
    0x80 (below 0x100 where [char] is unsigned).  When its last two bytes
    carry the 16-bit sum of its bytes from offset 6 up to them, it is
    interpreted as a status code, its byte at offset 9: that is what the
    command returns when sent without a receive pointer, and what it
    returns with one whenever it has a result.  Otherwise the command
    returns -99.  The value of the length field plays no part in this. *)
Theorem Send_ignores_length_field (cs : bool) (code : Z)
    (params : option AD013_Params) (reply : list Z) :
  sendable params ->
  (12 <= length reply <= 20)%nat ->
  memcmp (AD013_Send_build code params) reply 5 = 0 ->
  let n := length reply in
  let summed := take (n - 8) (drop AD013_MSG_OFFSET_FLAG reply) in
  Forall (fun b => 0 <= b < (if cs then 128 else 256)) summed ->
  let recv_sum := AD013_get_uint16_value reply (n - 2) in
  let status := cell reply AD013_MSG_OFFSET_CODE in
  let run := AD013_Send cs code (wire_of [reply]) params in
  (frame_sum summed = recv_sum ->
   fst <$> run RecvNone = Some (status, None) /\
   0 <= status < 256 /\
   forall rd r, run rd = Some r -> r.1.1 = status) /\
  (frame_sum summed <> recv_sum ->
   forall rd, fst <$> run rd = Some (-99, None)).
Proof.
  intros Hg Hlen Hecho n summed Hbytes recv_sum status run.
  set (frame := AD013_Send_build code params) in *.
  set (recv := reply ++ replicate (20 - length reply) 0).
  assert (Hcell : forall i, (i < n)%nat -> cell recv i = cell reply i).
  { intros i Hi. unfold recv. by apply cell_app_l. }
  assert (Hst : 0 <= status < 256).
  { assert (Hl : summed !! 3%nat = Some status).
    { subst summed status. unfold AD013_MSG_OFFSET_FLAG, AD013_MSG_OFFSET_CODE.
      rewrite lookup_take_lt by (subst n; lia).
      rewrite lookup_drop. apply cell_lookup. lia. }
    pose proof (proj1 (Forall_lookup _ _) Hbytes 3%nat status Hl) as Hb.
    simpl in Hb. destruct cs; lia. }
  assert (Hlt : (Z.of_nat n <? 10) = false) by (apply Z.ltb_ge; subst n; lia).
  assert (Hm : (memcmp frame recv 5 =? 0) = true).
  { rewrite (memcmp_ext 5 _ recv reply) by (intros; apply Hcell; subst n; lia).
    by rewrite Hecho. }
  assert (Hsum : checksum (char_to_int cs) recv AD013_MSG_OFFSET_FLAG
                   (Z.of_nat n - 2) = frame_sum summed).
  { rewrite (checksum_ext (char_to_int cs) (char_to_int cs) recv reply)
      by (intros i _ Hi; rewrite Hcell; [done|lia]).
    apply checksum_frame_sum; [subst n; lia|done]. }
  assert (Hrs : AD013_get_uint16_value recv (Z.to_nat (Z.of_nat n - 2))
                = recv_sum).
  { replace (Z.to_nat (Z.of_nat n - 2)) with (n - 2)%nat by lia.
    unfold recv_sum, AD013_get_uint16_value.
    rewrite !Hcell by (subst n; lia). done. }
  assert (Hcd : to_uint8 (cell recv AD013_MSG_OFFSET_CODE) = status).
  { rewrite Hcell by (unfold AD013_MSG_OFFSET_CODE; subst n; lia).
    unfold to_uint8. apply Z.mod_small. exact Hst. }
  assert (HS : forall rd,
             run rd
             = match AD013_Send_parse cs frame recv (Z.of_nat n) rd with
               | ReplyErr =>
                   Some (-1, None,
                         board_delay 50 (board_delay 50
                           {| rx := [];
                              log := [EvRead 20 reply; EvWrite frame] |}))
               | ReplyBadSum =>
                   Some (-99, None,
                         {| rx := []; log := [EvRead 20 reply; EvWrite frame] |})
               | ReplyCode c d =>
                   Some (c, d,
                         {| rx := []; log := [EvRead 20 reply; EvWrite frame] |})
               | ReplyFault => None
               end).
  { intros rd. by apply (Send_one_chunk cs code (wire_of [reply])). }
  split.
  - intros Heq. split; [|split; [exact Hst|]].
    + rewrite (HS RecvNone). unfold AD013_Send_parse.
      rewrite Hlt, Hm, Hsum, Hrs, Hcd, Heq, Z.eqb_refl. done.
    + intros rd r. rewrite (HS rd). unfold AD013_Send_parse.
      rewrite Hlt, Hm, Hsum, Hrs, Hcd, Heq, Z.eqb_refl. cbn [negb].
      destruct rd as [| |len]; [by intros [= <-]| |].
      * destruct (_ <? 2); [done|]. destruct (_ <=? _); [|done].
        by intros [= <-].
      * destruct (len <? 0); [done|]. destruct (_ <=? _); [|done].
        by intros [= <-].
  - intros Hne rd. rewrite (HS rd). unfold AD013_Send_parse.
    rewrite Hlt, Hm, Hsum, Hrs.
    by destruct (Z.eqb_spec (frame_sum summed) recv_sum).
Qed.

Lemma Send_ignores_length_field_witness :
  let gen_char := Some (mkParams [0xFF; 0xFF; 0xFF; 0xFF] (1 :: replicate 19 0) 1) in
  (* twelve bytes received, length field 5: 9 + 5 is not 12 *)
  fst <$> AD013_Send true 0x02
            (wire_of [[0xEF; 0x01; 0xFF; 0xFF; 0xFF; 0xFF; 0x07; 0; 5; 0; 0; 0x0C]])
            gen_char RecvNone = Some (0, None) /\
  (* the same reply with a wrong sum *)
  fst <$> AD013_Send true 0x02
            (wire_of [[0xEF; 0x01; 0xFF; 0xFF; 0xFF; 0xFF; 0x07; 0; 5; 0; 0; 0x0D]])
            gen_char RecvAlloc = Some (-99, None).
Proof.
  intros gen_char. split.
  - apply (Send_ignores_length_field true 0x02 gen_char
             [0xEF; 0x01; 0xFF; 0xFF; 0xFF; 0xFF; 0x07; 0; 5; 0; 0; 0x0C]);
      [simpl; lia | simpl; lia | reflexivity
      | simpl; repeat constructor; lia | reflexivity].
  - apply (Send_ignores_length_field true 0x02 gen_char
             [0xEF; 0x01; 0xFF; 0xFF; 0xFF; 0xFF; 0x07; 0; 5; 0; 0; 0x0D]);
      [simpl; lia | simpl; lia | reflexivity
      | simpl; repeat constructor; lia | vm_compute; discriminate].
Defined.

(** Twelve bytes arrive, the length field says 5 (a frame of 14): the
    reply is taken as status OK. *)
Lemma Send_accepts_inconsistent_length :
  let reply := [0xEF; 0x01; 0xFF; 0xFF; 0xFF; 0xFF; 0x07; 0; 5; 0; 0; 0x0C] in
  let L := AD013_get_uint16_value reply AD013_MSG_OFFSET_LENGTH in
  L = 5 /\
  Z.of_nat (length reply) <> 9 + L /\
  fst <$> AD013_Send true 0x01 (wire_of [reply]) None RecvNone
    = Some (AD013_CODE_OK, None) /\
  fst <$> AD013_Send false 0x01 (wire_of [reply]) None RecvNone
    = Some (AD013_CODE_OK, None).
Proof. vm_compute. split_and!; done. Qed.

(** ** The transport read loop *)

Lemma read_chunks_record (e : wire_event) (w : Wire) :
  read_chunks (wire_record e w)
  = read_chunks w ++ match e with EvRead _ got => [got] | _ => [] end.
Proof.
  unfold read_chunks, wire_record. simpl. rewrite reverse_cons, omap_app.
  by destruct e.
Qed.

Lemma total_cons (c : list Z) (cs : list (list Z)) :
  total (c :: cs) = Z.of_nat (length c) + total cs.
Proof. unfold total. simpl. rewrite length_app. lia. Qed.

Lemma total_nonneg (cs : list (list Z)) : 0 <= total cs.
Proof. unfold total. lia. Qed.

Lemma Send_read_step {T : Type} `{Stream T} (k : nat) (buf : list Z)
    (got : Z) (s : T) :
  got < 12 ->
  AD013_Send_read (S (S k)) buf got s
  = AD013_Send_read (S k)
      (memcpy buf (Z.to_nat got)
         (stream_readBytes (AD013_MAX_ACK_BUFF_SIZE - got) s).1
         (length (stream_readBytes (AD013_MAX_ACK_BUFF_SIZE - got) s).1))
      ((got + Z.of_nat
                (length (stream_readBytes (AD013_MAX_ACK_BUFF_SIZE - got) s).1))
         mod 65536)
      (stream_readBytes (AD013_MAX_ACK_BUFF_SIZE - got) s).2.
Proof.
  intros Hgot.
  change (AD013_Send_read (S (S k)) buf got s)
    with (if got <? AD013_MSG_HEADER_SIZE + 2
          then let '(chunk, s') :=
                 stream_readBytes (AD013_MAX_ACK_BUFF_SIZE - got) s in
               AD013_Send_read (S k)
                 (memcpy buf (Z.to_nat got) chunk (length chunk))
                 ((got + Z.of_nat (length chunk)) mod 65536) s'
          else (buf, got, s)).
  destruct (Z.ltb_spec got (AD013_MSG_HEADER_SIZE + 2)) as [_|Hge];
    [|unfold AD013_MSG_HEADER_SIZE in Hge; lia].
  by destruct (stream_readBytes (AD013_MAX_ACK_BUFF_SIZE - got) s).
Qed.

Lemma log_readBytes (n : Z) (w : Wire) :
  log (wire_readBytes n w).2 = EvRead n (wire_readBytes n w).1 :: log w.
Proof. unfold wire_readBytes. by destruct (rx w). Qed.

Lemma removelast_cons_ne (c : list Z) (cs : list (list Z)) :
  cs <> [] -> removelast (c :: cs) = c :: removelast cs.
Proof. by destruct cs. Qed.

(** The receive loop, whatever the port delivers.  Started with [pre] in
    the buffer it makes the reads [loop_reads] of the chunks [new] it is
    handed, stores them one behind the other after [pre], and counts them;
    it stops at the first read that brings the count to 12 or after
    [max_retries - 1] reads. *)
Lemma Send_read_spec (k : nat) :
  forall (pre : list Z) (w : Wire),
    (length pre <= 20)%nat ->
    exists (new : list (list Z)) (w1 : Wire),
      AD013_Send_read k (pre ++ replicate (20 - length pre) 0)
        (Z.of_nat (length pre)) w
      = (pre ++ concat new
           ++ replicate (20 - length pre - length (concat new)) 0,
         Z.of_nat (length pre) + total new, w1) /\
      log w1 = reverse (loop_reads (Z.of_nat (length pre)) new) ++ log w /\
      Z.of_nat (length pre) + total new <= 20 /\
      (length new <= k - 1)%nat /\
      (new <> [] -> Z.of_nat (length pre) + total (removelast new) < 12) /\
      ((length new < k - 1)%nat -> 12 <= Z.of_nat (length pre) + total new) /\
      (Z.of_nat (length pre) < 12 -> (2 <= k)%nat -> new <> []).
Proof.
  assert (Hstop : forall (j : nat) (pre : list Z) (w : Wire),
             (j <= 1)%nat \/ 12 <= Z.of_nat (length pre) ->
             AD013_Send_read j (pre ++ replicate (20 - length pre) 0)
               (Z.of_nat (length pre)) w
             = (pre ++ concat []
                  ++ replicate (20 - length pre
                                - length (concat ([] : list (list Z)))) 0,
                Z.of_nat (length pre) + total [], w)).
  { intros j pre w Hj. unfold total. simpl. rewrite Nat.sub_0_r, Z.add_0_r.
    destruct j as [|[|j]]; cbn [AD013_Send_read];
      destruct (Z.ltb_spec (Z.of_nat (length pre)) (AD013_MSG_HEADER_SIZE + 2))
        as [Hlt|_]; try done.
    unfold AD013_MSG_HEADER_SIZE in Hlt. lia. }
  induction k as [|k IH]; intros pre w Hpre.
  - exists [], w. rewrite Hstop by lia. unfold total. simpl.
    split_and!; try done; lia.
  - destruct k as [|k'].
    { exists [], w. rewrite Hstop by lia. unfold total. simpl.
      split_and!; try done; lia. }
    destruct (Z.lt_ge_cases (Z.of_nat (length pre)) 12) as [Hlt|Hge].
    2: { exists [], w. rewrite Hstop by lia. unfold total. simpl.
         split_and!; try done; lia. }
    rewrite Send_read_step by lia.
    cbn [stream_readBytes Wire_Stream].
    pose proof (log_readBytes (AD013_MAX_ACK_BUFF_SIZE - Z.of_nat (length pre)) w)
      as Hl.
    pose proof (stream_readBytes_le
                  (AD013_MAX_ACK_BUFF_SIZE - Z.of_nat (length pre)) w) as Hle.
    cbn [stream_readBytes Wire_Stream] in Hle.
    destruct (wire_readBytes (AD013_MAX_ACK_BUFF_SIZE - Z.of_nat (length pre)) w)
      as [c w0].
    cbn [fst snd] in Hl, Hle |- *. unfold AD013_MAX_ACK_BUFF_SIZE in Hle.
    specialize (Hle ltac:(lia)).
    rewrite Z.mod_small by lia.
    assert (Hm : memcpy (pre ++ replicate (20 - length pre) 0)
                   (Z.to_nat (Z.of_nat (length pre))) c (length c)
                 = (pre ++ c) ++ replicate (20 - length (pre ++ c)) 0).
    { unfold memcpy. rewrite Nat2Z.id, firstn_all, take_app_length.
      rewrite drop_app_add, drop_replicate, length_app, <- app_assoc.
      do 3 f_equal. lia. }
    rewrite Hm.
    replace (Z.of_nat (length pre) + Z.of_nat (length c))
      with (Z.of_nat (length (pre ++ c))) by (rewrite length_app; lia).
    destruct (IH (pre ++ c) w0 ltac:(rewrite length_app; lia))
      as (new & w1 & E & Hlog & Hcap & Hlen & Hlast & Hfull & _).
    exists (c :: new), w1. rewrite E. rewrite length_app in *.
    rewrite total_cons. simpl concat. rewrite length_app.
    split_and!.
    + f_equal. f_equal; [|lia]. rewrite <- !app_assoc. do 4 f_equal. lia.
    + rewrite Hlog, Hl. cbn [loop_reads].
      rewrite reverse_cons, <- app_assoc.
      by replace (Z.of_nat (length pre + length c))
        with (Z.of_nat (length pre) + Z.of_nat (length c)) by lia.
    + lia.
    + simpl. lia.
    + intros _. destruct new as [|c' new'].
      * unfold total. simpl. lia.
      * rewrite removelast_cons_ne by done. rewrite total_cons.
        specialize (Hlast ltac:(done)). lia.
    + simpl. intros Hshort. specialize (Hfull ltac:(lia)). lia.
    + done.
Qed.

(** C4 (as amended).  After writing the command the routine reads in a
    loop, gathering what arrives in its 20-byte buffer: every read asks
    for the room left in the buffer, and the chunk it brings is stored
    behind the bytes already there.  The loop makes at least one read and
    stays within [MAX_RETRIES] = 5 (it stops after four), never holds more
    than 20 bytes, and goes on exactly as long as fewer than 12 bytes are
    in hand; the length field of the reply is not consulted.  When fewer
    than 10 bytes have been gathered the command fails with -1. *)
Theorem Send_read_loop (cs : bool) (code : Z) (w : Wire)
    (params : option AD013_Params) (rd : recv_arg) :
  sendable params ->
  let frame := AD013_Send_build code params in
  exists (new : list (list Z)) (w1 : Wire),
    AD013_Send_read 5 (replicate (Z.to_nat AD013_MAX_ACK_BUFF_SIZE) 0) 0
      (stream_write frame w)
    = (concat new ++ replicate (20 - length (concat new)) 0, total new, w1) /\
    log w1 = reverse (loop_reads 0 new) ++ EvWrite frame :: log w /\
    (1 <= length new <= 4)%nat /\
    total new <= 20 /\
    total (removelast new) < 12 /\
    ((length new < 4)%nat -> 12 <= total new) /\
    (total new < 10 ->
     AD013_Send cs code w params rd
     = Some (-1, None, board_delay 50 (board_delay 50 w1))).
Proof.
  intros Hg frame.
  destruct (Send_read_spec 5 [] (stream_write frame w) ltac:(simpl; lia))
    as (new & w1 & E & Hlog & Hcap & Hlen & Hlast & Hfull & Hne).
  assert (E' : AD013_Send_read 5
                 (replicate (Z.to_nat AD013_MAX_ACK_BUFF_SIZE) 0) 0
                 (stream_write frame w)
               = (concat new ++ replicate (20 - length (concat new)) 0,
                  total new, w1)) by exact E.
  clear E. simpl length in *. rewrite Z.add_0_l in *.
  specialize (Hne ltac:(lia) ltac:(lia)).
  exists new, w1. split_and!.
  - exact E'.
  - exact Hlog.
  - destruct new; [done|simpl; lia].
  - simpl in Hlen. lia.
  - lia.
  - by apply Hlast.
  - intros Hshort. apply Hfull. simpl. lia.
  - intros Hlt. unfold AD013_Send. rewrite (sendable_guard params Hg).
    fold frame. rewrite E'. unfold AD013_Send_parse.
    by destruct (Z.ltb_spec (total new) 10); [|lia].
Qed.

Lemma Send_read_loop_witness :
  let gen_char := Some (mkParams [0xFF; 0xFF; 0xFF; 0xFF] (1 :: replicate 19 0) 1) in
  let frame := AD013_Send_build 0x02 gen_char in
  let w := wire_of [[0xEF; 0x01; 0xFF]; []; [0xFF; 0xFF; 0xFF; 0x07]; [0; 3];
                    [0; 0; 0x0A]] in
  exists (new : list (list Z)) (w1 : Wire),
    AD013_Send_read 5 (replicate (Z.to_nat AD013_MAX_ACK_BUFF_SIZE) 0) 0
      (stream_write frame w)
    = (concat new ++ replicate (20 - length (concat new)) 0, total new, w1) /\
    log w1 = reverse (loop_reads 0 new) ++ EvWrite frame :: log w /\
    (1 <= length new <= 4)%nat /\
    total new <= 20 /\
    total (removelast new) < 12 /\
    ((length new < 4)%nat -> 12 <= total new) /\
    (total new < 10 ->
     AD013_Send true 0x02 w gen_char RecvNone
     = Some (-1, None, board_delay 50 (board_delay 50 w1))).
Proof.
  intros gen_char frame w.
  apply (Send_read_loop true 0x02 w gen_char RecvNone).
  simpl. lia.
Defined.

(** The first twelve bytes of a sixteen-byte reply (length field 7) end
    the loop after one read; the four bytes that complete the frame are
    never read, and the outcome is the checksum error, not a timeout. *)
Lemma Send_read_stops_at_12 :
  let chunk1 := [0xEF; 0x01; 0xFF; 0xFF; 0xFF; 0xFF; 0x07; 0; 7; 0; 0; 5] in
  let chunk2 := [0; 0x42; 0; 0x55] in
  let L := AD013_get_uint16_value chunk1 AD013_MSG_OFFSET_LENGTH in
  let r := AD013_Send true 0x04 (wire_of [chunk1; chunk2]) None RecvNone in
  L = 7 /\
  read_chunks ∘ snd <$> r = Some [chunk1] /\
  rx ∘ snd <$> r = Some [chunk2] /\
  total ∘ read_chunks ∘ snd <$> r = Some 12 /\
  ~ (12 >= 9 + L) /\
  fst <$> r = Some (-99, None) /\
  fst <$> r <> Some (-1, None).
Proof. vm_compute. split_and!; done. Qed.

(** Four empty reads use up the loop: a reply that arrives after them is
    not read. *)
Example Send_read_four_reads :
  let reply := [0xEF; 0x01; 0xFF; 0xFF; 0xFF; 0xFF; 0x07; 0; 3; 0; 0; 0x0A] in
  let r := AD013_Send true 0x01 (wire_of [[]; []; []; []; reply]) None RecvNone in
  read_chunks ∘ snd <$> r = Some [[]; []; []; []] /\
  rx ∘ snd <$> r = Some [reply] /\
  fst <$> r = Some (-1, None).
Proof. vm_compute. done. Qed.

(** ** Sensor discovery *)

(** The scan stops with 1 at the first speed answered with a non-negative
    value and ends with -1 when none is. *)
Lemma FindSensor_scan_spec {T : Type} `{Stream T} (cs : bool)
    (p : AD013_Params) (speeds : list Z) :
  forall s : T,
    exists res,
      CFP_FindSensor_scan cs speeds p s = Some res /\
      ((res.1 = 1 /\
        exists pre speed post s1 r,
          speeds = pre ++ speed :: post /\
          scan_fails cs p pre s s1 /\
          AD013_Send cs 0x13 (board_delay 100 (serial_begin speed s1))
            (Some p) RecvNone = Some r /\
          0 <= r.1.1 < 256 /\ r.2 = res.2) \/
       (res.1 = -1 /\ scan_fails cs p speeds s res.2)).
Proof.
  induction speeds as [|speed speeds IH]; intros s; cbn [CFP_FindSensor_scan].
  - eexists. split; [done|]. right. split; [done|constructor].
  - destruct (Send_no_data cs 0x13 (board_delay 100 (serial_begin speed s))
                (Some p)) as (c & s1 & E & Hrange).
    rewrite E. cbn [mbind option_bind].
    destruct (Z.ltb_spec c 0) as [Hneg|Hpos].
    + destruct (IH s1) as (res & Eres & Hres).
      exists res. split; [exact Eres|].
      destruct Hres as [(H1 & pre & b & post & s2 & r & Hsp & Hf & Er & Hr)
                       |(H1 & Hf)].
      * left. split; [done|].
        exists (speed :: pre), b, post, s2, r.
        split; [by rewrite Hsp|]. split; [|by split].
        by apply (scan_fails_cons cs p speed pre s s2 (c, None, s1)).
      * right. split; [done|].
        by apply (scan_fails_cons cs p speed speeds s res.2 (c, None, s1)).
    + eexists. split; [done|]. left. split; [done|].
      exists [], speed, speeds, s, (c, None, s1).
      split; [done|]. split; [constructor|]. split; [exact E|].
      simpl. split; [lia|done].
Qed.

Lemma begun_record (e : wire_event) (w : Wire) :
  begun (wire_record e w)
  = begun w ++ match e with EvBegin b => [b] | _ => [] end.
Proof.
  unfold begun, wire_record. simpl. rewrite reverse_cons, omap_app.
  by destruct e.
Qed.

Lemma begun_readBytes (n : Z) (w : Wire) :
  begun (wire_readBytes n w).2 = begun w.
Proof.
  unfold wire_readBytes. destruct (rx w) as [|c r]; cbn [snd].
  - rewrite begun_record. apply app_nil_r.
  - unfold begun. simpl. rewrite reverse_cons, omap_app. apply app_nil_r.
Qed.

Lemma begun_Send_read (k : nat) :
  forall (buf : list Z) (got : Z) (w : Wire),
    begun (AD013_Send_read k buf got w).2 = begun w.
Proof.
  induction k as [|k IH]; intros buf got w; simpl.
  - by destruct (got <? _).
  - destruct (got <? _); [|done].
    destruct k as [|k']; [done|].
    simpl in IH |- *.
    pose proof (begun_readBytes (AD013_MAX_ACK_BUFF_SIZE - got) w) as Hr.
    destruct (wire_readBytes (AD013_MAX_ACK_BUFF_SIZE - got) w) as [chunk w'].
    rewrite IH. exact Hr.
Qed.

Lemma begun_Send (cs : bool) (code : Z) (w : Wire)
    (params : option AD013_Params) (rd : recv_arg)
    (r : Z * option (list Z) * Wire) :
  AD013_Send cs code w params rd = Some r -> begun r.2 = begun w.
Proof.
  unfold AD013_Send.
  destruct (match params with Some _ => _ | None => _ end);
    [by intros [= <-]|].
  pose proof (begun_Send_read 5 (replicate (Z.to_nat AD013_MAX_ACK_BUFF_SIZE) 0) 0
                (stream_write (AD013_Send_build code params) w)) as Hr.
  destruct (AD013_Send_read 5 _ 0 _) as [[buf got] w'].
  simpl in Hr. rewrite begun_record, app_nil_r in Hr.
  destruct (AD013_Send_parse cs _ buf got rd); intros [= <-]; simpl; try done.
  by rewrite !begun_record, !app_nil_r.
Qed.

Lemma begun_scan_fails (cs : bool) (p : AD013_Params) (speeds : list Z)
    (w w' : Wire) :
  scan_fails cs p speeds w w' -> begun w' = begun w ++ speeds.
Proof.
  induction 1 as [s|speed speeds s s' r E Hneg Hf IH].
  - by rewrite app_nil_r.
  - rewrite IH, (begun_Send _ _ _ _ _ _ E).
    cbn [board_delay serial_begin Wire_Stream].
    rewrite !begun_record, app_nil_r, <- app_assoc. done.
Qed.

(** C5.  Called with a negative speed, discovery opens the port at
    115200, 57600, 38400, 19200 and 9600 baud in that order and sends the
    password command at each.  It returns 1 at the first speed at which
    the command returns a status byte, without looking at which status
    that is, and opens no further speed; when the command fails at every
    speed it returns -1.  So a sensor that answers the password command
    with PACKET_ERR (0x01) at the first speed is reported as found, where
    success is meant for the answers OK and BAD_PWD only. *)
Theorem FindSensor_scan (cs : bool) (defTimeout : Z) (w : Wire)
    (serSpeed : Z) (params : option AD013_Params) :
  serSpeed < 0 ->
  let p := CFP_FindSensor_myParams params in
  let w0 := stream_setTimeout defTimeout w in
  (exists res,
     CFP_FindSensor cs defTimeout w serSpeed params = Some res /\
     ((res.1 = 1 /\
       exists pre speed post w1 r,
         speedVals = pre ++ speed :: post /\
         scan_fails cs p pre w0 w1 /\
         AD013_Send cs 0x13 (board_delay 100 (serial_begin speed w1))
           (Some p) RecvNone = Some r /\
         0 <= r.1.1 < 256 /\ r.2 = res.2 /\
         begun res.2 = begun w ++ pre ++ [speed]) \/
      (res.1 = -1 /\
       scan_fails cs p speedVals w0 res.2 /\
       begun res.2 = begun w ++ speedVals))) /\
  (forall cs' : bool,
     let reply := [0xEF; 0x01; 0xFF; 0xFF; 0xFF; 0xFF; 0x07; 0; 3; 0x01; 0; 0x0B] in
     let w1 := board_delay 100 (serial_begin 115200
                 (stream_setTimeout 1000 (wire_of [reply]))) in
     let answer := PS_VerifyPwd cs' w1 (Some (CFP_FindSensor_myParams None)) in
     let res := CFP_FindSensor cs' 1000 (wire_of [reply]) (-1) None in
     fst <$> answer = Some (AD013_CODE_ERROR, None) /\
     AD013_CODE_ERROR <> AD013_CODE_OK /\
     AD013_CODE_ERROR <> AD013_CODE_PASSWORD_ERROR /\
     fst <$> res = Some 1 /\
     begun ∘ snd <$> res = Some [115200]).
Proof.
  intros Hneg p w0. split.
  - unfold CFP_FindSensor.
    destruct (Z.ltb_spec serSpeed 0) as [_|]; [|lia].
    fold p. fold w0.
    assert (Hw0 : begun w0 = begun w).
    { subst w0. cbn [stream_setTimeout Wire_Stream].
      rewrite begun_record. apply app_nil_r. }
    destruct (FindSensor_scan_spec cs p speedVals w0) as (res & Eres & Hres).
    exists res. split; [exact Eres|].
    destruct Hres as [(H1 & pre & speed & post & w1 & r & Hsp & Hf & Er & Hr & Hw)
                     |(H1 & Hf)].
    + left. split; [done|]. exists pre, speed, post, w1, r.
      split; [done|]. split; [done|]. split; [done|]. split; [done|].
      split; [done|].
      rewrite <- Hw, (begun_Send _ _ _ _ _ _ Er).
      cbn [board_delay serial_begin Wire_Stream].
      rewrite !begun_record, app_nil_r.
      rewrite (begun_scan_fails cs p pre w0 w1 Hf), Hw0, <- app_assoc. done.
    + right. split; [done|]. split; [done|].
      by rewrite (begun_scan_fails cs p speedVals w0 _ Hf), Hw0.
  - intros [|]; vm_compute; split_and!; done.
Qed.

Lemma FindSensor_scan_witness :
  let reply := [0xEF; 0x01; 0xFF; 0xFF; 0xFF; 0xFF; 0x07; 0; 3; 0; 0; 0x0A] in
  let silent := [[]; []; []; []] in
  let w := wire_of (silent ++ silent ++ silent ++ [reply]) in
  exists res,
    CFP_FindSensor true 1000 w (-1) None = Some res /\
    res.1 = 1 /\ begun res.2 = [115200; 57600; 38400; 19200].
Proof.
  intros reply silent w.
  destruct (FindSensor_scan true 1000 w (-1) None ltac:(lia))
    as [(res & E & Hres) _].
  exists res. split; [exact E|].
  destruct Hres as [(H1 & _)|(H1 & _)].
  - split; [exact H1|]. vm_compute in E. injection E as <-.
    vm_compute. reflexivity.
  - vm_compute in E. injection E as <-. vm_compute in H1. discriminate H1.
Defined.

(** ** Capture and search *)

Section Poll.

Context {T : Type} `{Stream T}.
Variable cs : bool.

(** More fuel does not change what the polling loop returns. *)
Lemma SearchTemplate_poll_mono (fuel : nat) :
  forall (fuel' : nat) (timeOut : Z) (s : T) (r : Z * T),
    (fuel <= fuel')%nat ->
    AD013_SearchTemplate_poll cs fuel timeOut s = Some r ->
    AD013_SearchTemplate_poll cs fuel' timeOut s = Some r.
Proof.
  induction fuel as [|fuel IH]; intros fuel' timeOut s r Hle; simpl; [done|].
  destruct fuel' as [|fuel']; [lia|]. simpl.
  destruct (PS_GetImage cs s) as [[[code d] s1]|]; [|done]. simpl.
  destruct (code =? 0); [done|].
  destruct (timeOut <=? 0); [done|].
  apply IH. lia.
Qed.

(** The polling loop returns within [timeOut + 1] iterations. *)
Lemma SearchTemplate_poll_total (fuel : nat) :
  forall (timeOut : Z) (s : T),
    (Z.to_nat timeOut < fuel)%nat ->
    exists r, AD013_SearchTemplate_poll cs fuel timeOut s = Some r.
Proof.
  induction fuel as [|fuel IH]; intros timeOut s Hfuel; [lia|]. simpl.
  destruct (Send_no_data cs 0x01 s None) as (code & s1 & E & _).
  unfold PS_GetImage. rewrite E. simpl.
  destruct (code =? 0); [by eexists|].
  destruct (Z.leb_spec timeOut 0); [by eexists|].
  apply IH. lia.
Qed.

(** The loop as a recursion on the remaining budget. *)
Lemma SearchTemplate_unfold (s : T) (timeOut threashold : Z) (so : bool) :
  AD013_SearchTemplate cs s timeOut threashold so
  = '(code, _, s1) ← PS_GetImage cs s;
    if code =? 0 then AD013_SearchTemplate_match cs code s1 so
    else if timeOut <=? 0 then Some (-1, s1)
    else AD013_SearchTemplate cs (board_delay 120 s1) (timeOut - 360)
           threashold so.
Proof.
  unfold AD013_SearchTemplate at 1. cbn [AD013_SearchTemplate_poll].
  destruct (PS_GetImage cs s) as [[[code d] s1]|]; [|done]. simpl.
  destruct (Z.eqb_spec code 0) as [Hz|Hnz]; [done|].
  destruct (Z.leb_spec timeOut 0) as [Hle|Hgt].
  - simpl. unfold AD013_SearchTemplate_match.
    by destruct (Z.eqb_spec code 0).
  - change (120 + 240) with 360. unfold AD013_SearchTemplate.
    assert (Hfuel : (Z.to_nat (timeOut - 360) < S (Z.to_nat (timeOut - 360)))%nat)
      by lia.
    destruct (SearchTemplate_poll_total _ (timeOut - 360) (board_delay 120 s1)
                Hfuel) as [r Hr].
    rewrite Hr.
    assert (Hle : (S (Z.to_nat (timeOut - 360)) <= Z.to_nat timeOut)%nat) by lia.
    by rewrite (SearchTemplate_poll_mono _ _ _ _ r Hle Hr).
Qed.

End Poll.

(** C8 (as amended).  In the GetImage polling loop of capture-and-search
    an OK answer ends the polling and the flow goes on to GenChar.  Any
    other answer, NO_FINGER, IMAGE_FAIL and PACKET_ERR alike, makes the
    loop poll again as long as the remaining budget is positive: it waits
    120 ms and takes the full cost of the iteration (120 ms + 240 ms) off
    the budget.  Once the budget is zero or below, such an answer ends the
    flow with -1.  The loop always comes to an end. *)
Theorem SearchTemplate_polling {T : Type} `{Stream T} (cs : bool) (s : T)
    (timeOut threashold : Z) (so : bool) :
  (exists r,
     AD013_SearchTemplate_poll cs (S (Z.to_nat timeOut)) timeOut s = Some r) /\
  exists g,
    PS_GetImage cs s = Some g /\
    let code := g.1.1 in
    (code = AD013_CODE_OK ->
     AD013_SearchTemplate cs s timeOut threashold so
     = AD013_SearchTemplate_match cs AD013_CODE_OK g.2 so) /\
    (code <> AD013_CODE_OK -> timeOut <= 0 ->
     AD013_SearchTemplate cs s timeOut threashold so = Some (-1, g.2)) /\
    (code <> AD013_CODE_OK -> 0 < timeOut ->
     AD013_SearchTemplate cs s timeOut threashold so
     = AD013_SearchTemplate cs (board_delay 120 g.2) (timeOut - (120 + 240))
         threashold so).
Proof.
  split; [apply SearchTemplate_poll_total; lia|].
  destruct (Send_no_data cs 0x01 s None) as (code & s1 & E & _).
  exists (code, None, s1). split; [exact E|]. cbn [fst snd].
  rewrite SearchTemplate_unfold. unfold PS_GetImage. rewrite E. simpl.
  unfold AD013_CODE_OK.
  split_and!.
  - intros ->. done.
  - intros Hne Hle. destruct (Z.eqb_spec code 0); [done|].
    by destruct (Z.leb_spec timeOut 0); [|lia].
  - intros Hne Hgt. destruct (Z.eqb_spec code 0); [done|].
    by destruct (Z.leb_spec timeOut 0); [lia|].
Qed.

Lemma SearchTemplate_polling_witness :
  let no_finger := [0xEF; 0x01; 0xFF; 0xFF; 0xFF; 0xFF; 0x07; 0; 3; 0x02; 0; 0x0C] in
  let ok := [0xEF; 0x01; 0xFF; 0xFF; 0xFF; 0xFF; 0x07; 0; 3; 0x00; 0; 0x0A] in
  let w := wire_of [no_finger; ok; ok; ok] in
  (exists g,
     PS_GetImage true w = Some g /\
     (* budget left: poll again with 360 ms less *)
     AD013_SearchTemplate true w 5000 50 false
     = AD013_SearchTemplate true (board_delay 120 g.2)
         (5000 - (120 + 240)) 50 false /\
     (* budget used up: give up *)
     AD013_SearchTemplate true w 0 50 false = Some (-1, g.2)) /\
  (* finger present: go on *)
  (exists g,
     PS_GetImage true (wire_of [ok; ok; ok]) = Some g /\
     AD013_SearchTemplate true (wire_of [ok; ok; ok]) 5000 50 false
     = AD013_SearchTemplate_match true AD013_CODE_OK g.2 false).
Proof.
  intros no_finger ok w. split.
  - destruct (SearchTemplate_polling true w 5000 50 false)
      as (_ & g & E & _ & _ & H3).
    destruct (SearchTemplate_polling true w 0 50 false)
      as (_ & g' & E' & _ & H2 & _).
    rewrite E in E'. injection E' as <-.
    exists g. split; [exact E|].
    vm_compute in E. injection E as <-. split.
    + apply H3; [vm_compute; discriminate | lia].
    + apply H2; [vm_compute; discriminate | lia].
  - destruct (SearchTemplate_polling true (wire_of [ok; ok; ok]) 5000 50 false)
      as (_ & g & E & H1 & _).
    exists g. split; [exact E|].
    vm_compute in E. injection E as <-.
    apply H1. vm_compute. reflexivity.
Defined.

(** The flow as a whole has a result unless the copy of the Search reply
    is out of bounds: here the sensor answers Search with a length field
    of 0 under a matching sum. *)
Example SearchTemplate_search_copy_fault :
  let ok := [0xEF; 0x01; 0xFF; 0xFF; 0xFF; 0xFF; 0x07; 0; 3; 0x00; 0; 0x0A] in
  let bad := [0xEF; 0x01; 0xFF; 0xFF; 0xFF; 0xFF; 0x07; 0; 0; 0x00; 0; 0x07] in
  AD013_SearchTemplate true (wire_of [ok; ok; bad]) 5000 50 false = None /\
  (exists r, AD013_SearchTemplate_poll true (S (Z.to_nat 5000)) 5000
               (wire_of [ok; ok; bad]) = Some r).
Proof. vm_compute. split; [reflexivity|by eexists]. Qed.

(** IMAGE_FAIL and PACKET_ERR do not end the flow: the loop polls again,
    and when the next answer is OK the flow goes through GenChar and
    Search and returns 1. *)
Lemma SearchTemplate_polls_after_image_fail :
  let image_fail := [0xEF; 0x01; 0xFF; 0xFF; 0xFF; 0xFF; 0x07; 0; 3; 0x03; 0; 0x0D] in
  let packet_err := [0xEF; 0x01; 0xFF; 0xFF; 0xFF; 0xFF; 0x07; 0; 3; 0x01; 0; 0x0B] in
  let ok := [0xEF; 0x01; 0xFF; 0xFF; 0xFF; 0xFF; 0x07; 0; 3; 0x00; 0; 0x0A] in
  let get_image := AD013_Send_build 0x01 None in
  let gen_char := [0xEF; 0x01; 0xFF; 0xFF; 0xFF; 0xFF; 0x01; 0; 4; 0x02; 1; 0; 8] in
  let search :=
    [0xEF; 0x01; 0xFF; 0xFF; 0xFF; 0xFF; 0x01; 0; 8; 0x04; 1; 0; 0; 0; 99; 0; 0x71] in
  let run1 := AD013_SearchTemplate true (wire_of [image_fail; ok; ok; ok]) 5000 50 false in
  let run2 := AD013_SearchTemplate true (wire_of [packet_err; ok; ok; ok]) 5000 50 false in
  fst <$> PS_GetImage true (wire_of [image_fail; ok; ok; ok])
    = Some (AD013_CODE_IMAGE_FAIL, None) /\
  fst <$> PS_GetImage true (wire_of [packet_err; ok; ok; ok])
    = Some (AD013_CODE_ERROR, None) /\
  fst <$> run1 = Some 1 /\
  written <$> (snd <$> run1) = Some [get_image; get_image; gen_char; search] /\
  fst <$> run2 = Some 1 /\
  written <$> (snd <$> run2) = Some [get_image; get_image; gen_char; search].
Proof. vm_compute. split_and!; reflexivity. Qed.

(** The flow returns 1 only through the search step, and the last frame
    it wrote is then the Search command built there. *)
Lemma SearchTemplate_match_search (cs : bool) (code : Z) (w w' : Wire)
    (so : bool) :
  AD013_SearchTemplate_match cs code w so = Some (1, w') ->
  list.last (written w')
  = Some [0xEF; 0x01; 0xFF; 0xFF; 0xFF; 0xFF; 0x01; 0; 8; 0x04;
          1; 0; 0; 0; 99; 0; 0x71].
Proof.
  unfold AD013_SearchTemplate_match.
  destruct (negb (code =? 0)); [intros [=]|].
  destruct (PS_GenChar cs w _) as [[[code' d] w1]|]; [|done]. simpl.
  destruct (_ || _); [intros [=]|].
  unfold PS_Search.
  match goal with
  | |- context [AD013_Send cs 4 w1 ?p RecvAlloc] =>
      pose proof (fun r => written_Send cs 0x04 w1 p RecvAlloc r
                             ltac:(vm_compute; discriminate)) as Hw
  end.
  destruct (AD013_Send cs 4 w1 _ RecvAlloc) as [[[m d'] w2]|]; [|done].
  specialize (Hw _ eq_refl). cbn [snd] in Hw. simpl. intros [= <-].
  rewrite Hw. apply last_snoc.
Qed.

(** C6 (as amended).  Whenever capture-and-search, run with the scope not
    limited to the security officer, reaches its search step (it returns
    1), the last frame it wrote is the Search command (opcode 0x04) with
    the operands buffer id 1, start 0 and 99, each 16-bit operand high byte
    first. *)
Theorem SearchTemplate_search_operands (cs : bool) (w w' : Wire)
    (timeOut threashold : Z) :
  AD013_SearchTemplate cs w timeOut threashold false = Some (1, w') ->
  list.last (written w')
  = Some (spec_frame 0x04 (push_wire (push_u8 1) ++ push_wire (push_u16 0)
                             ++ push_wire (push_u16 99))).
Proof.
  unfold AD013_SearchTemplate.
  destruct (AD013_SearchTemplate_poll cs _ timeOut w) as [[code w1]|]; [|done].
  simpl. intros Hm. by apply SearchTemplate_match_search in Hm.
Qed.

Lemma SearchTemplate_search_operands_witness :
  let ok := [0xEF; 0x01; 0xFF; 0xFF; 0xFF; 0xFF; 0x07; 0; 3; 0x00; 0; 0x0A] in
  let hit := [0xEF; 0x01; 0xFF; 0xFF; 0xFF; 0xFF; 0x07; 0; 7; 0x00;
              0; 5; 0; 0x42; 0; 0x55] in
  exists w',
    AD013_SearchTemplate true (wire_of [ok; ok; hit]) 5000 50 false = Some (1, w') /\
    list.last (written w')
    = Some [0xEF; 0x01; 0xFF; 0xFF; 0xFF; 0xFF; 0x01; 0; 8; 0x04;
            1; 0; 0; 0; 99; 0; 0x71].
Proof.
  intros ok hit.
  destruct (AD013_SearchTemplate true (wire_of [ok; ok; hit]) 5000 50 false)
    as [[r w']|] eqn:E; [|vm_compute in E; discriminate E].
  assert (Hr : r = 1) by (vm_compute in E; congruence).
  subst r. exists w'. split; [reflexivity|].
  exact (SearchTemplate_search_operands true (wire_of [ok; ok; hit]) w' 5000 50 E).
Defined.

(** The operands sent are (1, 0, 99) for either scope: not (0, 100) for
    the general search and not (0, 20) for the security officer's. *)
Lemma SearchTemplate_search_sends_99 :
  let ok := [0xEF; 0x01; 0xFF; 0xFF; 0xFF; 0xFF; 0x07; 0; 3; 0x00; 0; 0x0A] in
  let hit := [0xEF; 0x01; 0xFF; 0xFF; 0xFF; 0xFF; 0x07; 0; 7; 0x00;
              0; 5; 0; 0x42; 0; 0x55] in
  let search_of (start count : Z) :=
    spec_frame 0x04 (push_wire (push_u8 1) ++ push_wire (push_u16 start)
                       ++ push_wire (push_u16 count)) in
  let sent (so : bool) :=
    (fun r : Z * Wire => list.last (written r.2))
      <$> AD013_SearchTemplate true (wire_of [ok; ok; hit]) 5000 50 so in
  sent false = Some (Some (search_of 0 99)) /\
  sent false <> Some (Some (search_of 0 100)) /\
  sent true = Some (Some (search_of 0 99)) /\
  sent true <> Some (Some (search_of 0 20)).
Proof. vm_compute. split_and!; done. Qed.

(** C7.  Capture-and-search returns only 1 or -1.  When the sensor reports
    a match in slot 5 it returns 1, not 5; when the sensor reports
    NOT_FOUND it returns 1, not -1. *)
Theorem SearchTemplate_returns_constant :
  (forall (cs : bool) (w : Wire) (timeOut threashold : Z) (so : bool) r,
      AD013_SearchTemplate cs w timeOut threashold so = Some r ->
      r.1 = 1 \/ r.1 = -1) /\
  (let ok := [0xEF; 0x01; 0xFF; 0xFF; 0xFF; 0xFF; 0x07; 0; 3; 0x00; 0; 0x0A] in
   let hit := [0xEF; 0x01; 0xFF; 0xFF; 0xFF; 0xFF; 0x07; 0; 7; 0x00;
               0; 5; 0; 0x42; 0; 0x55] in
   let not_found := [0xEF; 0x01; 0xFF; 0xFF; 0xFF; 0xFF; 0x07; 0; 7; 0x09;
                     0; 0; 0; 0; 0; 0x17] in
   (* what the Search command gets back in each case *)
   fst <$> PS_Search true (wire_of [hit])
             (Some (mkParams [] [1; 0; 0; 0; 99] 5)) RecvAlloc
     = Some (AD013_CODE_OK, Some [0; 5; 0; 0x42; 0]) /\
   AD013_get_uint16_value [0; 5; 0; 0x42; 0] 0 = 5 /\
   fst ∘ fst <$> PS_Search true (wire_of [not_found])
                   (Some (mkParams [] [1; 0; 0; 0; 99] 5)) RecvAlloc
     = Some AD013_CODE_FINGER_NOT_FOUND /\
   (* what the flow returns *)
   fst <$> AD013_SearchTemplate true (wire_of [ok; ok; hit]) 5000 50 false
     = Some 1 /\
   fst <$> AD013_SearchTemplate true (wire_of [ok; ok; not_found]) 5000 50 false
     = Some 1).
Proof.
  split.
  - intros cs w timeOut threashold so r. unfold AD013_SearchTemplate.
    destruct (AD013_SearchTemplate_poll cs _ timeOut w) as [[code w1]|]; [|done].
    simpl. unfold AD013_SearchTemplate_match.
    destruct (negb (code =? 0)); [intros [= <-]; by right|].
    destruct (PS_GenChar cs w1 _) as [[[code' d] w2]|]; [|done]. simpl.
    destruct (_ || _); [intros [= <-]; by right|].
    destruct (PS_Search cs w2 _ RecvAlloc) as [[[m d'] w3]|]; [|done].
    simpl. intros [= <-]. by left.
  - vm_compute. split_and!; reflexivity.
Qed.

(** * Further properties of the driver *)

(** ** Byte codec *)

(** X1.  Writing a 16-bit value into a buffer and reading it back at the
    same place gives the value; the write keeps the length of the buffer,
    stores two bytes and touches no other cell. *)
Theorem uint16_codec_round_trip (buf : list Z) (off : nat) (w : Z) :
  (S off < length buf)%nat -> 0 <= w < 65536 ->
  let buf' := AD013_set_uint16_value buf off w in
  AD013_get_uint16_value buf' off = w /\
  length buf' = length buf /\
  (0 <= cell buf' off < 256 /\ 0 <= cell buf' (S off) < 256) /\
  (forall i, i <> off -> i <> S off -> cell buf' i = cell buf i).
Proof.
  intros Hoff Hw buf'. subst buf'.
  split; [rewrite get_set_uint16 by done; apply Z.mod_small; lia|].
  unfold AD013_set_uint16_value.
  split; [by rewrite !length_insert|].
  split.
  - rewrite cell_insert_ne, !cell_insert_eq by (rewrite ?length_insert; lia).
    rewrite Z.mod_small by lia.
    split; [|apply Z.mod_pos_bound; lia].
    split; [apply Z.div_pos; lia | apply Z.div_lt_upper_bound; lia].
  - intros i H1 H2. rewrite !cell_insert_ne; done.
Qed.

Lemma uint16_codec_round_trip_witness :
  AD013_get_uint16_value
    (AD013_set_uint16_value [0xEF; 0x01; 0; 0; 0x07] 2 0x1234) 2 = 0x1234 /\
  AD013_set_uint16_value [0xEF; 0x01; 0; 0; 0x07] 2 0x1234
    = [0xEF; 0x01; 0x12; 0x34; 0x07].
Proof.
  split.
  - apply (uint16_codec_round_trip [0xEF; 0x01; 0; 0; 0x07] 2 0x1234);
      [simpl; lia | lia].
  - reflexivity.
Defined.

(** X2.  Reading the 16-bit value of two bytes of a buffer and writing it
    back at the same place leaves the buffer as it was. *)
Theorem uint16_codec_write_back (buf : list Z) (off : nat) :
  (S off < length buf)%nat ->
  0 <= cell buf off < 256 -> 0 <= cell buf (S off) < 256 ->
  0 <= AD013_get_uint16_value buf off < 65536 /\
  AD013_set_uint16_value buf off (AD013_get_uint16_value buf off) = buf.
Proof.
  intros Hoff Hhi Hlo. unfold AD013_get_uint16_value, AD013_set_uint16_value.
  replace (off + 1)%nat with (S off) by lia.
  set (hi := cell buf off) in *. set (lo := cell buf (S off)) in *.
  split; [lia|].
  rewrite (Z.mod_small (lo + 256 * hi)) by lia.
  replace ((lo + 256 * hi) / 256) with hi
    by (apply (Z.div_unique _ 256 hi lo); lia).
  replace ((lo + 256 * hi) mod 256) with lo
    by (apply (Z.mod_unique _ 256 hi lo); lia).
  rewrite (list_insert_id buf off hi) by (by apply cell_lookup; lia).
  apply list_insert_id. apply cell_lookup. lia.
Qed.

Lemma uint16_codec_write_back_witness :
  AD013_set_uint16_value [0xEF; 0x01; 0x12; 0x34; 0x07] 2
    (AD013_get_uint16_value [0xEF; 0x01; 0x12; 0x34; 0x07] 2)
  = [0xEF; 0x01; 0x12; 0x34; 0x07].
Proof.
  apply (uint16_codec_write_back [0xEF; 0x01; 0x12; 0x34; 0x07] 2);
    [simpl; lia | unfold cell; simpl; lia | unfold cell; simpl; lia].
Defined.

(** ** Parameter buffer: edges and composition *)

(** X3.  A negative cursor is repaired by the one-byte and the two-byte
    append: they behave as on a cleared buffer, storing at cell 0 and
    leaving the cursor at 1, respectively 2. *)
Theorem AddParam_repairs_negative_size (p : AD013_Params) (b w : Z) :
  size p < 0 -> (2 <= length (buff p))%nat ->
  0 <= b < 256 -> 0 <= w < 65536 ->
  (exists p1, AD013_AddParam1 (Some p) b = (1, Some p1) /\
              size p1 = 1 /\ contents p1 = [b]) /\
  (exists p2, AD013_AddParam2 (Some p) w = (2, Some p2) /\
              size p2 = 2 /\ contents p2 = [w / 256; w mod 256]).
Proof.
  intros Hneg Hlen Hb Hw. split.
  - unfold AD013_AddParam1, AD013_MAX_PARAMS_SIZE.
    destruct (Z.gtb_spec (size p) (20 - 1)); [lia|].
    destruct (Z.ltb_spec (size p) 0); [|lia].
    eexists. split; [reflexivity|]. split; [done|].
    unfold contents. simpl. rewrite Z.mod_small by lia.
    change (Pos.to_nat 1) with 1%nat.
    destruct (buff p) as [|x l]; [simpl in Hlen; lia|done].
  - unfold AD013_AddParam2, AD013_MAX_PARAMS_SIZE.
    destruct (Z.gtb_spec (size p) (20 - 2)); [lia|].
    destruct (Z.ltb_spec (size p) 0); [|lia].
    eexists. split; [reflexivity|]. split; [done|].
    unfold contents. simpl. rewrite (Z.mod_small w) by lia.
    change (Pos.to_nat 2) with 2%nat. change (Pos.to_nat 1) with 1%nat.
    destruct (buff p) as [|x [|y l]]; simpl in Hlen; try lia. done.
Qed.

Lemma AddParam_repairs_negative_size_witness :
  let p := mkParams [0xFF; 0xFF; 0xFF; 0xFF] (replicate 20 0x55) (-3) in
  (exists p1, AD013_AddParam1 (Some p) 7 = (1, Some p1) /\
              size p1 = 1 /\ contents p1 = [7]) /\
  (exists p2, AD013_AddParam2 (Some p) 0x0102 = (2, Some p2) /\
              size p2 = 2 /\ contents p2 = [1; 2]).
Proof.
  intros p.
  apply (AddParam_repairs_negative_size p 7 0x0102); simpl; lia.
Defined.

(** X4.  The two-byte append is the one-byte append of the high byte
    followed by that of the low byte whenever two cells are free; with one
    cell free it refuses and leaves the struct untouched, where the
    one-byte append still succeeds: no half value is ever stored. *)
Theorem AddParam2_is_two_AddParam1 (p : AD013_Params) (w : Z) :
  0 <= w < 65536 ->
  (size p <= AD013_MAX_PARAMS_SIZE - 2 ->
   AD013_AddParam2 (Some p) w
   = AD013_AddParam1 (AD013_AddParam1 (Some p) (w / 256)).2 (w mod 256)) /\
  (size p = AD013_MAX_PARAMS_SIZE - 1 ->
   AD013_AddParam2 (Some p) w = (-1, Some p) /\
   (AD013_AddParam1 (Some p) (w / 256)).1 = AD013_MAX_PARAMS_SIZE).
Proof.
  intros Hw. unfold AD013_AddParam2, AD013_AddParam1, AD013_MAX_PARAMS_SIZE.
  rewrite (Z.mod_small w) by lia.
  assert (Hhi : 0 <= w / 256 < 256)
    by (split; [apply Z.div_pos; lia | apply Z.div_lt_upper_bound; lia]).
  pose proof (Z.mod_pos_bound w 256 ltac:(lia)) as Hlo.
  split.
  - intros Hfit.
    destruct (Z.gtb_spec (size p) (20 - 2)); [exfalso; lia|].
    destruct (Z.gtb_spec (size p) (20 - 1)) ; [exfalso; lia|].
    cbn [snd size buff devId].
    destruct (Z.ltb_spec (size p) 0) as [Hneg|Hnn].
    + change (0 + 1 >? 20 - 1) with false. change (0 + 1 <? 0) with false.
      cbn match. rewrite (Z.mod_small (w / 256)), (Z.mod_small (w mod 256)) by lia. reflexivity.
    + destruct (Z.gtb_spec (size p + 1) (20 - 1)); [exfalso; lia|].
      destruct (Z.ltb_spec (size p + 1) 0); [exfalso; lia|].
      rewrite (Z.mod_small (w / 256)), (Z.mod_small (w mod 256)) by lia.
      by replace (size p + 1 + 1) with (size p + 2) by lia.
  - intros Hone.
    destruct (Z.gtb_spec (size p) (20 - 2)); [|exfalso; lia].
    destruct (Z.gtb_spec (size p) (20 - 1)); [exfalso; lia|].
    destruct (Z.ltb_spec (size p) 0); [exfalso; lia|].
    split; [done|]. simpl. lia.
Qed.

Lemma AddParam2_is_two_AddParam1_witness :
  let p := mkParams [0xFF; 0xFF; 0xFF; 0xFF] (replicate 20 0) 3 in
  let q := mkParams [0xFF; 0xFF; 0xFF; 0xFF] (replicate 20 0) 19 in
  AD013_AddParam2 (Some p) 0x0163
  = AD013_AddParam1 (AD013_AddParam1 (Some p) 0x01).2 0x63 /\
  AD013_AddParam2 (Some q) 0x0163 = (-1, Some q) /\
  (AD013_AddParam1 (Some q) 0x01).1 = 20.
Proof.
  intros p q.
  destruct (AddParam2_is_two_AddParam1 p 0x0163 ltac:(lia)) as [Hp _].
  destruct (AddParam2_is_two_AddParam1 q 0x0163 ltac:(lia)) as [_ Hq].
  split; [apply Hp; vm_compute; discriminate|].
  apply Hq. reflexivity.
Defined.

Lemma memcpy_memcpy (dst a b : list Z) (off : nat) :
  (off + length a <= length dst)%nat ->
  memcpy (memcpy dst off a (length a)) (off + length a) b (length b)
  = memcpy dst off (a ++ b) (length a + length b).
Proof.
  intros Hfit. unfold memcpy.
  rewrite !firstn_all.
  rewrite <- (length_app a b), firstn_all.
  rewrite (app_assoc (take off dst) a).
  assert (Hl : length (take off dst ++ a) = (off + length a)%nat)
    by (rewrite length_app, length_take; lia).
  set (l := take off dst ++ a) in *.
  replace (off + length a)%nat with (length l) by done.
  rewrite take_app_length, drop_app_add, drop_drop.
  subst l. rewrite <- !app_assoc. do 3 f_equal.
  rewrite Hl, length_app. f_equal. lia.
Qed.

(** X5.  Appending a blob and then another is appending their
    concatenation: the same return value and the same struct, as long as
    both fit. *)
Theorem AddParamN_app (p : AD013_Params) (bs cs : list Z) :
  params_wf p ->
  size p + Z.of_nat (length bs) + Z.of_nat (length cs) <= AD013_MAX_PARAMS_SIZE ->
  AD013_AddParamN
    (AD013_AddParamN (Some p) (Some bs) (Z.of_nat (length bs))).2
    (Some cs) (Z.of_nat (length cs))
  = AD013_AddParamN (Some p) (Some (bs ++ cs)) (Z.of_nat (length (bs ++ cs))).
Proof.
  intros [Hlen Hsz] Hfit. unfold AD013_MAX_PARAMS_SIZE in *.
  unfold AD013_AddParamN, AD013_MAX_PARAMS_SIZE.
  rewrite length_app, !Z.mod_small by lia.
  destruct (Z.gtb_spec (size p) (20 - Z.of_nat (length bs))); [exfalso; lia|].
  cbn [snd size buff devId].
  destruct (Z.gtb_spec (size p + Z.of_nat (length bs))
              (20 - Z.of_nat (length cs))); [exfalso; lia|].
  destruct (Z.gtb_spec (size p)
              (20 - Z.of_nat (length bs + length cs))); [exfalso; lia|].
  rewrite !Nat2Z.id.
  replace (Z.to_nat (size p + Z.of_nat (length bs)))
    with (Z.to_nat (size p) + length bs)%nat by lia.
  rewrite memcpy_memcpy by lia.
  replace (size p + Z.of_nat (length bs) + Z.of_nat (length cs))
    with (size p + Z.of_nat (length bs + length cs)) by lia.
  reflexivity.
Qed.

Lemma AddParamN_app_witness :
  AD013_AddParamN
    (AD013_AddParamN (Some AD013_DefaultParams) (Some [1; 2]) 2).2
    (Some [3; 4; 5]) 3
  = AD013_AddParamN (Some AD013_DefaultParams) (Some [1; 2; 3; 4; 5]) 5.
Proof.
  apply (AddParamN_app AD013_DefaultParams [1; 2] [3; 4; 5]).
  - split; [reflexivity | simpl; unfold AD013_MAX_PARAMS_SIZE; lia].
  - simpl. unfold AD013_MAX_PARAMS_SIZE. lia.
Defined.

Lemma cell_memcpy_outside (dst src : list Z) (off n i : nat) :
  (off + n <= length dst)%nat -> (n <= length src)%nat ->
  (i < off \/ off + n <= i)%nat ->
  cell (memcpy dst off src n) i = cell dst i.
Proof.
  intros Hd Hs Hi. unfold memcpy, cell. rewrite !nth_lookup.
  destruct Hi as [Hlt|Hge].
  - rewrite lookup_app_l by (rewrite length_take; lia).
    by rewrite lookup_take_lt.
  - rewrite lookup_app_r by (rewrite length_take; lia).
    rewrite lookup_app_r by (rewrite !length_take; lia).
    rewrite lookup_drop, !length_take. do 2 f_equal. lia.
Qed.

(** X6.  An append that fits writes only the cells between the old and
    the new cursor: every other cell of the array, the length of the array
    and the device id stay as they were. *)
Theorem push_touches_only_new_cells (p : AD013_Params) (x : push) :
  params_wf p -> push_ok x ->
  size p + push_size x <= AD013_MAX_PARAMS_SIZE ->
  exists p',
    (do_push (Some p) x).2 = Some p' /\
    devId p' = devId p /\
    length (buff p') = length (buff p) /\
    forall i : nat,
      Z.of_nat i < size p \/ size p + push_size x <= Z.of_nat i ->
      cell (buff p') i = cell (buff p) i.
Proof.
  intros [Hlen Hsz] Hok Hfit. unfold AD013_MAX_PARAMS_SIZE in *.
  destruct x as [b|w|bs]; simpl in *.
  - unfold AD013_AddParam1, AD013_MAX_PARAMS_SIZE.
    destruct (Z.gtb_spec (size p) (20 - 1)); [exfalso; lia|].
    destruct (Z.ltb_spec (size p) 0); [exfalso; lia|].
    eexists. split; [reflexivity|]. simpl.
    split; [done|]. split; [by rewrite length_insert|].
    intros i Hi. apply cell_insert_ne. lia.
  - unfold AD013_AddParam2, AD013_MAX_PARAMS_SIZE.
    destruct (Z.gtb_spec (size p) (20 - 2)); [exfalso; lia|].
    destruct (Z.ltb_spec (size p) 0); [exfalso; lia|].
    eexists. split; [reflexivity|]. simpl.
    split; [done|]. split; [by rewrite !length_insert|].
    intros i Hi. rewrite !cell_insert_ne; [done|lia|lia].
  - unfold AD013_AddParamN, AD013_MAX_PARAMS_SIZE.
    rewrite Z.mod_small by lia.
    destruct (Z.gtb_spec (size p) (20 - Z.of_nat (length bs)));
      [exfalso; lia|].
    eexists. split; [reflexivity|]. simpl. rewrite Nat2Z.id.
    split; [done|]. split; [apply memcpy_length; lia|].
    intros i Hi. apply cell_memcpy_outside; lia.
Qed.

Lemma push_touches_only_new_cells_witness :
  let p := mkParams [1; 2; 3; 4] ([9; 8] ++ replicate 18 0x55) 2 in
  exists p',
    (do_push (Some p) (push_u16 0x0A0B)).2 = Some p' /\
    devId p' = [1; 2; 3; 4] /\
    length (buff p') = 20%nat /\
    forall i : nat,
      Z.of_nat i < 2 \/ 2 + 2 <= Z.of_nat i ->
      cell (buff p') i = cell (buff p) i.
Proof.
  intros p.
  apply (push_touches_only_new_cells p (push_u16 0x0A0B)).
  - split; [reflexivity | simpl; unfold AD013_MAX_PARAMS_SIZE; lia].
  - simpl. lia.
  - simpl. unfold AD013_MAX_PARAMS_SIZE. lia.
Defined.

(** ** The command routine: frame, outcome and footprint *)

(** X7.  For every opcode byte and every parameter buffer in a regular
    state (0 to 20 bytes), or no buffer at all, the frame assembled by the
    command routine is the frame of the data model: 12 bytes more than the
    payload, length field 3 + payload length, and in its last two bytes the
    sum modulo 2^16 of the bytes from the flag to the end of the payload;
    every cell of it is a byte. *)
Theorem Send_build_frame (code : Z) (params : option AD013_Params) :
  0 <= code < 256 ->
  match params with Some p => params_wf p | None => True end ->
  Forall (fun b => 0 <= b < 256) (payload_of params) ->
  let frame := AD013_Send_build code params in
  let payload := payload_of params in
  let n := length payload in
  frame = spec_frame code payload /\
  length frame = (12 + n)%nat /\
  AD013_get_uint16_value frame AD013_MSG_OFFSET_LENGTH = 3 + Z.of_nat n /\
  AD013_get_uint16_value frame (AD013_MSG_OFFSET_DATA + n)
    = frame_sum (take (4 + n) (drop AD013_MSG_OFFSET_FLAG frame)) /\
  Forall (fun b => 0 <= b < 256) frame.
Proof.
  intros Hcode Hp Hbytes frame payload n.
  assert (Hn : Z.of_nat n = params_size params /\ (n <= 20)%nat).
  { subst n payload. destruct params as [p|]; simpl; [|lia].
    destruct Hp as [Hl Hs]. unfold AD013_MAX_PARAMS_SIZE in *.
    unfold contents. rewrite length_take. lia. }
  destruct Hn as [Hn Hn20].
  assert (Hb : frame = spec_frame code payload).
  { subst frame payload. apply build_spec_frame; try done.
    - rewrite <- Hn. unfold AD013_MAX_PARAMS_SIZE. lia.
    - destruct params as [p|]; [|done]. destruct Hp as [Hl Hs].
      unfold AD013_MAX_PARAMS_SIZE in *. lia. }
  split; [exact Hb|]. rewrite Hb. clear Hb frame.
  split; [apply spec_frame_length|].
  unfold spec_frame. fold n.
  set (len := 3 + Z.of_nat n).
  set (body := [1; len / 256; len mod 256; code] ++ payload).
  assert (Hlb : length body = (4 + n)%nat)
    by (subst body; rewrite length_app; simpl; lia).
  assert (HS : 0 <= frame_sum body < 65536) by (apply Z.mod_pos_bound; lia).
  split; [by apply get_uint16_bytes|].
  split.
  - replace (take (4 + n) (drop AD013_MSG_OFFSET_FLAG
               ([239; 1; 255; 255; 255; 255] ++ body
                  ++ [frame_sum body / 256; frame_sum body mod 256])))
      with body.
    2: { change (drop AD013_MSG_OFFSET_FLAG _)
           with (body ++ [frame_sum body / 256; frame_sum body mod 256]).
         by rewrite <- Hlb, take_app_length. }
    assert (Hoff : (AD013_MSG_OFFSET_DATA + n)%nat
                   = length ([239; 1; 255; 255; 255; 255] ++ body)).
    { rewrite length_app, Hlb. simpl. unfold AD013_MSG_OFFSET_DATA. lia. }
    rewrite Hoff, (app_assoc _ body).
    generalize ([239; 1; 255; 255; 255; 255] ++ body). intros l.
    apply get_uint16_bytes.
    + by rewrite cell_app_r, Nat.sub_diag by lia.
    + rewrite cell_app_r by lia.
      by replace (S (length l) - length l)%nat with 1%nat by lia.
  - assert (Hlen : 0 <= len < 256) by (subst len; lia).
    apply Forall_app. split; [repeat constructor; lia|].
    apply Forall_app. split.
    + subst body. apply Forall_app. split; [|done].
      rewrite (Z.div_small len), (Z.mod_small len) by lia.
      repeat constructor; lia.
    + repeat constructor.
      * apply Z.div_pos; lia.
      * apply Z.div_lt_upper_bound; lia.
      * apply Z.mod_pos_bound. lia.
      * apply Z.mod_pos_bound. lia.
Qed.

Lemma Send_build_frame_witness :
  let p := mkParams [0xFF; 0xFF; 0xFF; 0xFF]
             ([0x80; 0xFF; 0x01] ++ replicate 17 0) 20 in
  let frame := AD013_Send_build 0xF0 (Some p) in
  length frame = 32%nat /\
  AD013_get_uint16_value frame AD013_MSG_OFFSET_LENGTH = 23 /\
  AD013_get_uint16_value frame 30 = 1 + 0 + 23 + 0xF0 + 0x80 + 0xFF + 0x01.
Proof.
  intros p frame.
  destruct (Send_build_frame 0xF0 (Some p)) as (_ & Hl & Hf & Hs & _).
  - lia.
  - split; [reflexivity | simpl; unfold AD013_MAX_PARAMS_SIZE; lia].
  - vm_compute. repeat constructor; discriminate.
  - split; [exact Hl|]. split; [exact Hf|]. refine (eq_trans Hs _). reflexivity.
Defined.




Lemma log_Send_read (k : nat) :
  forall (buf : list Z) (got : Z) (w : Wire),
    exists rs,
      log (AD013_Send_read k buf got w).2 = rs ++ log w /\
      Forall is_read rs /\ (length rs <= k - 1)%nat.
Proof.
  induction k as [|k IH]; intros buf got w.
  - exists []. simpl. by destruct (got <? _).
  - cbn [AD013_Send_read].
    destruct (got <? _); [|by exists []; simpl; split; [|split; [|lia]]].
    destruct k as [|k']; [by exists []; simpl; split; [|split; [|lia]]|].
    cbn [stream_readBytes Wire_Stream].
    pose proof (log_readBytes (AD013_MAX_ACK_BUFF_SIZE - got) w) as Hl.
    destruct (wire_readBytes (AD013_MAX_ACK_BUFF_SIZE - got) w) as [chunk w1].
    cbn [fst snd] in Hl.
    destruct (IH (memcpy buf (Z.to_nat got) chunk (length chunk))
                ((got + Z.of_nat (length chunk)) mod 65536) w1)
      as (rs & Hrs & Hall & Hlen).
    exists (rs ++ [EvRead (AD013_MAX_ACK_BUFF_SIZE - got) chunk]).
    rewrite Hrs, Hl, <- app_assoc. split; [done|]. split.
    + apply Forall_app. split; [done|]. by repeat constructor.
    + rewrite length_app. simpl. lia.
Qed.

(** X9.  On the wire, a command that passes the first check leaves this
    and nothing else: its frame, written first; then between one and four
    reads; and, exactly when it returns -1, two waits of 50 ms.  It never
    writes a second frame, reopens the port or changes the timeout.  (Sent
    without a receive pointer it always has a result.) *)
Theorem Send_footprint (cs : bool) (code : Z) (w : Wire)
    (params : option AD013_Params) (rd : recv_arg) :
  sendable params ->
  (rd = RecvNone -> exists r, AD013_Send cs code w params rd = Some r) /\
  forall r,
    AD013_Send cs code w params rd = Some r ->
    exists rs ds,
      log r.2 = ds ++ rs ++ EvWrite (AD013_Send_build code params) :: log w /\
      Forall is_read rs /\ (1 <= length rs <= 4)%nat /\
      ((r.1.1 = -1 /\ ds = [EvDelay 50; EvDelay 50]) \/
       (r.1.1 <> -1 /\ ds = [])).
Proof.
  intros Hg. split.
  { intros ->. destruct (Send_no_data cs code w params) as (c & w' & E & _).
    by eexists. }
  intros r. unfold AD013_Send. rewrite (sendable_guard params Hg).
  set (frame := AD013_Send_build code params).
  set (w0 := stream_write frame w).
  rewrite (Send_read_step 3) by lia.
  cbn [stream_readBytes Wire_Stream].
  pose proof (log_readBytes (AD013_MAX_ACK_BUFF_SIZE - 0) w0) as Hl.
  destruct (wire_readBytes (AD013_MAX_ACK_BUFF_SIZE - 0) w0) as [chunk w1].
  cbn [fst snd] in Hl |- *.
  destruct (log_Send_read 4
              (memcpy (replicate (Z.to_nat AD013_MAX_ACK_BUFF_SIZE) 0)
                 (Z.to_nat 0) chunk (length chunk))
              ((0 + Z.of_nat (length chunk)) mod 65536) w1)
    as (rs & Hrs & Hall & Hlen).
  destruct (AD013_Send_read 4 _ _ w1) as [[buf got] w2].
  cbn [snd] in Hrs.
  assert (Hlog : log w2
                 = (rs ++ [EvRead (AD013_MAX_ACK_BUFF_SIZE - 0) chunk])
                     ++ EvWrite frame :: log w).
  { rewrite Hrs, Hl, <- app_assoc. done. }
  assert (Hreads : Forall is_read (rs ++ [EvRead (AD013_MAX_ACK_BUFF_SIZE - 0) chunk])).
  { apply Forall_app. split; [done|]. by repeat constructor. }
  assert (Hcount : (1 <= length (rs ++ [EvRead (AD013_MAX_ACK_BUFF_SIZE - 0) chunk]) <= 4)%nat).
  { rewrite length_app. simpl. lia. }
  destruct (AD013_Send_parse cs frame buf got rd) as [| |c d|] eqn:Hparse;
    intros [= <-]; cbn [fst snd].
  - exists (rs ++ [EvRead (AD013_MAX_ACK_BUFF_SIZE - 0) chunk]),
      [EvDelay 50; EvDelay 50].
    cbn [board_delay Wire_Stream]. simpl. rewrite Hlog.
    split; [done|]. split; [done|]. split; [done|]. by left.
  - exists (rs ++ [EvRead (AD013_MAX_ACK_BUFF_SIZE - 0) chunk]), [].
    split; [done|]. split; [done|]. split; [done|]. right. by split.
  - exists (rs ++ [EvRead (AD013_MAX_ACK_BUFF_SIZE - 0) chunk]), [].
    split; [done|]. split; [done|]. split; [done|]. right. split; [|done].
    unfold AD013_Send_parse in Hparse.
    destruct (got <? 10); [done|]. destruct (memcmp _ _ 5 =? 0); [|done].
    destruct (negb _); [done|].
    assert (0 <= to_uint8 (cell buf AD013_MSG_OFFSET_CODE) < 256)
      by (apply Z.mod_pos_bound; lia).
    destruct rd as [| |n].
    + injection Hparse as <- _. lia.
    + destruct (_ <? 2); [done|]. destruct (_ <=? _); [|done].
      injection Hparse as <- _. lia.
    + destruct (n <? 0); [done|]. destruct (_ <=? _); [|done].
      injection Hparse as <- _. lia.
Qed.

Lemma Send_footprint_witness :
  let gen_char := Some (mkParams [0xFF; 0xFF; 0xFF; 0xFF] (1 :: replicate 19 0) 1) in
  let w := wire_of [[0xEF; 0x01; 0xFF; 0xFF; 0xFF; 0xFF; 0x07; 0; 3; 0; 0; 0x0A]] in
  exists r rs ds,
    AD013_Send true 0x02 w gen_char RecvNone = Some r /\
    log r.2 = ds ++ rs ++ EvWrite (AD013_Send_build 0x02 gen_char) :: log w /\
    Forall is_read rs /\ (1 <= length rs <= 4)%nat /\
    ((r.1.1 = -1 /\ ds = [EvDelay 50; EvDelay 50]) \/
     (r.1.1 <> -1 /\ ds = [])).
Proof.
  intros gen_char w.
  destruct (Send_footprint true 0x02 w gen_char RecvNone ltac:(simpl; lia))
    as [Hret Hfoot].
  destruct (Hret eq_refl) as [r E].
  destruct (Hfoot r E) as (rs & ds & H).
  exists r, rs, ds. split; [exact E | exact H].
Defined.

Lemma readBytes_silent (n : Z) (w : Wire) :
  silent w ->
  (wire_readBytes n w).1 = [] /\ silent (wire_readBytes n w).2.
Proof.
  unfold silent, wire_readBytes. intros Hs.
  destruct (rx w) as [|c r] eqn:Hrx; [simpl; by rewrite Hrx|].
  inversion Hs as [|? ? Hc Hr]; subst. simpl. rewrite take_nil, drop_nil.
  by split.
Qed.

Lemma Send_read_silent (k : nat) :
  forall (buf : list Z) (got : Z) (w : Wire),
    silent w -> 0 <= got < 12 -> (Z.to_nat got <= length buf)%nat ->
    exists w',
      AD013_Send_read (S k) buf got w = (buf, got, w') /\
      silent w' /\
      log w' = replicate k (EvRead (AD013_MAX_ACK_BUFF_SIZE - got) []) ++ log w.
Proof.
  induction k as [|k IH]; intros buf got w Hs Hgot Hbuf.
  - exists w. simpl. by destruct (got <? _).
  - cbn [AD013_Send_read].
    destruct (Z.ltb_spec got (AD013_MSG_HEADER_SIZE + 2)) as [_|Hge];
      [|unfold AD013_MSG_HEADER_SIZE in Hge; lia].
    cbn [stream_readBytes Wire_Stream].
    destruct (readBytes_silent (AD013_MAX_ACK_BUFF_SIZE - got) w Hs) as [Hc Hs1].
    pose proof (log_readBytes (AD013_MAX_ACK_BUFF_SIZE - got) w) as Hl.
    destruct (wire_readBytes (AD013_MAX_ACK_BUFF_SIZE - got) w) as [chunk w1].
    cbn [fst snd] in Hc, Hs1, Hl. subst chunk.
    assert (Hm : memcpy buf (Z.to_nat got) [] (length ([] : list Z)) = buf).
    { unfold memcpy. simpl. rewrite Nat.add_0_r. apply take_drop. }
    rewrite Hm. simpl length. rewrite Z.add_0_r, Z.mod_small by lia.
    destruct (IH buf got w1 Hs1 Hgot Hbuf) as (w' & E & Hs' & Hl').
    exists w'. split; [exact E|]. split; [done|].
    rewrite Hl', Hl, replicate_S_end, <- app_assoc. done.
Qed.

(** X10.  When the port delivers nothing, a command that passes the first
    check makes four reads of 20 bytes, all empty, waits twice 50 ms and
    returns -1 without bytes for the caller. *)
Theorem Send_silent_port (cs : bool) (code : Z) (w : Wire)
    (params : option AD013_Params) (rd : recv_arg) :
  sendable params -> silent w ->
  exists w',
    AD013_Send cs code w params rd = Some (-1, None, w') /\
    silent w' /\
    log w' = [EvDelay 50; EvDelay 50]
               ++ replicate 4 (EvRead 20 [])
               ++ EvWrite (AD013_Send_build code params) :: log w.
Proof.
  intros Hg Hs. unfold AD013_Send. rewrite (sendable_guard params Hg).
  destruct (Send_read_silent 4 (replicate (Z.to_nat AD013_MAX_ACK_BUFF_SIZE) 0) 0
              (stream_write (AD013_Send_build code params) w))
    as (w' & E & Hs' & Hl); [done|lia|simpl; lia|].
  rewrite E. unfold AD013_Send_parse. change (0 <? 10) with true. cbn match.
  eexists. split; [reflexivity|].
  cbn [board_delay Wire_Stream]. split; [done|].
  simpl. rewrite Hl. done.
Qed.

Lemma Send_silent_port_witness :
  let gen_char := Some (mkParams [0xFF; 0xFF; 0xFF; 0xFF] (1 :: replicate 19 0) 1) in
  exists w',
    AD013_Send true 0x02 (wire_of [[]; []]) gen_char RecvAlloc
    = Some (-1, None, w') /\
    silent w' /\
    log w' = [EvDelay 50; EvDelay 50]
               ++ replicate 4 (EvRead 20 [])
               ++ EvWrite (AD013_Send_build 0x02 gen_char) :: [].
Proof.
  intros gen_char.
  apply (Send_silent_port true 0x02 (wire_of [[]; []]) gen_char RecvAlloc).
  - simpl. lia.
  - repeat constructor.
Defined.

(** ** The command routine: fragments and corruption *)

(** What the loop leaves in the buffer when the reply arrives in pieces
    that fit and the piece that reaches 12 bytes is the last one. *)
Lemma Send_read_fragments (k : nat) :
  forall (chunks : list (list Z)) (pre : list Z) (w : Wire),
    rx w = chunks ->
    (length chunks <= k - 1)%nat ->
    Z.of_nat (length pre) + total chunks <= 20 ->
    (chunks <> [] -> Z.of_nat (length pre) + total (removelast chunks) < 12) ->
    (AD013_Send_read k (pre ++ replicate (20 - length pre) 0)
       (Z.of_nat (length pre)) w).1
    = (pre ++ concat chunks
         ++ replicate (20 - length pre - length (concat chunks)) 0,
       Z.of_nat (length pre) + total chunks).
Proof.
  assert (Hdone : forall pre : list Z,
             (pre ++ replicate (20 - length pre) 0, Z.of_nat (length pre))
             = (pre ++ concat [] ++ replicate (20 - length pre - length (concat ([] : list (list Z)))) 0,
                Z.of_nat (length pre) + total [])).
  { intros pre. unfold total. simpl. rewrite Nat.sub_0_r, Z.add_0_r. done. }
  induction k as [|k IH]; intros chunks pre w Hrx Hlen Hcap Hlast.
  - destruct chunks; [|simpl in Hlen; lia]. simpl.
    destruct (_ <? _); apply Hdone.
  - destruct k as [|k'].
    { destruct chunks; [|simpl in Hlen; lia]. simpl.
      destruct (_ <? _); apply Hdone. }
    pose proof (total_nonneg chunks) as Hnn.
    destruct (Z.ltb_spec (Z.of_nat (length pre)) 12) as [Hlt|Hge].
    2: { destruct chunks as [|c cs].
         - cbn [AD013_Send_read].
           destruct (Z.ltb_spec (Z.of_nat (length pre)) (AD013_MSG_HEADER_SIZE + 2))
             as [Hx|_]; [unfold AD013_MSG_HEADER_SIZE in Hx; lia|].
           apply Hdone.
         - specialize (Hlast ltac:(done)).
           pose proof (total_nonneg (removelast (c :: cs))). lia. }
    rewrite Send_read_step by lia.
    cbn [stream_readBytes Wire_Stream]. unfold wire_readBytes. rewrite Hrx.
    unfold AD013_MAX_ACK_BUFF_SIZE.
    destruct chunks as [|c cs].
    + cbn [fst snd]. simpl length. rewrite Z.add_0_r, Z.mod_small by lia.
      assert (Hm : memcpy (pre ++ replicate (20 - length pre) 0)
                     (Z.to_nat (Z.of_nat (length pre))) [] 0
                   = pre ++ replicate (20 - length pre) 0).
      { unfold memcpy. simpl. rewrite Nat.add_0_r. apply take_drop. }
      rewrite Hm.
      apply (IH [] pre); [exact Hrx|simpl; lia|done|done].
    + rewrite total_cons in Hcap.
      pose proof (total_nonneg cs) as Hcs.
      rewrite take_ge, drop_ge by lia. cbn [fst snd].
      rewrite Z.mod_small by lia.
      assert (Hm : memcpy (pre ++ replicate (20 - length pre) 0)
                     (Z.to_nat (Z.of_nat (length pre))) c (length c)
                   = (pre ++ c) ++ replicate (20 - length (pre ++ c)) 0).
      { unfold memcpy. rewrite Nat2Z.id, firstn_all, take_app_length.
        rewrite drop_app_add, drop_replicate, length_app, <- app_assoc.
        do 3 f_equal. lia. }
      rewrite Hm.
      replace (Z.of_nat (length pre) + Z.of_nat (length c))
        with (Z.of_nat (length (pre ++ c))) by (rewrite length_app; lia).
      rewrite (IH cs (pre ++ c)).
      * rewrite total_cons, !length_app. simpl concat.
        rewrite <- !app_assoc, length_app. f_equal; [|lia].
        do 4 f_equal. lia.
      * done.
      * simpl in Hlen. lia.
      * rewrite length_app. lia.
      * intros Hne. rewrite removelast_cons_ne in Hlast by done.
        specialize (Hlast ltac:(done)). rewrite total_cons in Hlast.
        rewrite length_app. lia.
Qed.

(** X11.  A reply that arrives in up to four pieces is put together: as
    long as the pieces hold no more than 20 bytes in all and those before
    the last hold fewer than 12, the command returns what it returns when
    the same bytes arrive in one read. *)
Theorem Send_reassembles_fragments (cs : bool) (code : Z)
    (params : option AD013_Params) (rd : recv_arg) (chunks : list (list Z)) :
  sendable params ->
  (length chunks <= 4)%nat ->
  total chunks <= 20 ->
  (chunks <> [] -> total (removelast chunks) < 12) ->
  fst <$> AD013_Send cs code (wire_of chunks) params rd
  = fst <$> AD013_Send cs code (wire_of [concat chunks]) params rd.
Proof.
  intros Hg Hlen Hcap Hlast. unfold AD013_Send.
  rewrite (sendable_guard params Hg).
  set (frame := AD013_Send_build code params).
  assert (H1 : (AD013_Send_read 5 (replicate (Z.to_nat AD013_MAX_ACK_BUFF_SIZE) 0) 0
                  (stream_write frame (wire_of chunks))).1
               = (concat chunks ++ replicate (20 - 0 - length (concat chunks)) 0,
                  0 + total chunks)).
  { apply (Send_read_fragments 5 chunks []); simpl; try done; lia. }
  assert (H2 : (AD013_Send_read 5 (replicate (Z.to_nat AD013_MAX_ACK_BUFF_SIZE) 0) 0
                  (stream_write frame (wire_of [concat chunks]))).1
               = (concat [concat chunks]
                    ++ replicate (20 - 0 - length (concat [concat chunks])) 0,
                  0 + total [concat chunks])).
  { apply (Send_read_fragments 5 [concat chunks] []); simpl; try done; try lia;
      unfold total in *; simpl; rewrite ?app_nil_r; lia. }
  assert (Ht : total [concat chunks] = total chunks).
  { unfold total. simpl. by rewrite app_nil_r. }
  rewrite Ht in H2. simpl concat in H2. rewrite app_nil_r in H2.
  destruct (AD013_Send_read 5 _ 0 (stream_write frame (wire_of chunks)))
    as [[buf1 got1] w1].
  destruct (AD013_Send_read 5 _ 0 (stream_write frame (wire_of [concat chunks])))
    as [[buf2 got2] w2].
  cbn [fst] in H1, H2. injection H1 as -> ->. injection H2 as -> ->.
  by destruct (AD013_Send_parse cs _ _ _ rd).
Qed.

Lemma Send_reassembles_fragments_witness :
  let gen_char := Some (mkParams [0xFF; 0xFF; 0xFF; 0xFF] (1 :: replicate 19 0) 1) in
  fst <$> AD013_Send true 0x02
            (wire_of [[0xEF; 0x01; 0xFF]; []; [0xFF; 0xFF; 0xFF; 0x07; 0];
                      [3; 0; 0; 0x0A]]) gen_char RecvNone
  = fst <$> AD013_Send true 0x02
              (wire_of [[0xEF; 0x01; 0xFF; 0xFF; 0xFF; 0xFF; 0x07; 0; 3; 0; 0; 0x0A]])
              gen_char RecvNone.
Proof.
  intros gen_char.
  apply (Send_reassembles_fragments true 0x02 gen_char RecvNone
           [[0xEF; 0x01; 0xFF]; []; [0xFF; 0xFF; 0xFF; 0x07; 0]; [3; 0; 0; 0x0A]]).
  - simpl. lia.
  - simpl. lia.
  - vm_compute. discriminate.
  - intros _. vm_compute. reflexivity.
Defined.

(** ** The checksum and what it detects *)

Lemma checksum_fold_sum (g : nat -> Z) (l : list nat) :
  forall acc, 0 <= acc < 65536 ->
    foldl (fun sum i => Z.land (sum + g i) 65535) acc l
    = (acc + foldr Z.add 0 (map g l)) mod 65536.
Proof.
  induction l as [|i l IH]; intros acc Hacc; simpl.
  - rewrite Z.add_0_r, Z.mod_small; lia.
  - rewrite IH by (rewrite land_65535; apply Z.mod_pos_bound; lia).
    rewrite land_65535, Z.add_mod_idemp_l by lia. f_equal. lia.
Qed.

Lemma sum_map_update (g g' : nat -> Z) (j : nat) (l : list nat) :
  NoDup l -> j ∈ l -> (forall i, i <> j -> g' i = g i) ->
  foldr Z.add 0 (map g' l) = foldr Z.add 0 (map g l) + (g' j - g j).
Proof.
  intros Hnd Hj Hext. induction Hnd as [|i l Hi Hnd IH]; [by inversion Hj|].
  simpl. destruct (decide (i = j)) as [->|Hne].
  - assert (Hrest : map g' l = map g l).
    { apply map_ext_in. intros k Hk. apply Hext. intros ->.
      apply Hi. by apply list_elem_of_In. }
    rewrite Hrest. lia.
  - rewrite Hext by done. rewrite IH; [lia|].
    inversion Hj; subst; [done|done].
Qed.

(** The checksum over a range after one cell of the range is replaced. *)
Lemma checksum_insert (conv : Z -> Z) (buf : list Z) (lo : nat) (hi : Z)
    (j : nat) (x : Z) :
  (lo <= j)%nat -> Z.of_nat j < hi -> (j < length buf)%nat ->
  checksum conv (<[j := x]> buf) lo hi
  = (checksum conv buf lo hi + (conv x - conv (cell buf j))) mod 65536.
Proof.
  intros Hlo Hhi Hlen. unfold checksum.
  rewrite !(checksum_fold_sum (fun i => conv (cell _ i))) by lia.
  rewrite !Z.add_0_l.
  rewrite (sum_map_update (fun i => conv (cell buf i))
             (fun i => conv (cell (<[j:=x]> buf) i)) j).
  - rewrite cell_insert_eq by done.
    by rewrite Z.add_mod_idemp_l by lia.
  - apply NoDup_seq.
  - apply elem_of_seq. lia.
  - intros i Hi. by rewrite cell_insert_ne.
Qed.

Lemma char_to_int_inj (cs : bool) (a b : Z) :
  0 <= a < 256 -> 0 <= b < 256 ->
  -256 < char_to_int cs a - char_to_int cs b < 256 /\
  (char_to_int cs a = char_to_int cs b -> a = b).
Proof.
  intros Ha Hb. unfold char_to_int. rewrite !Z.mod_small by lia.
  destruct cs; simpl;
    destruct (Z.leb_spec 128 a); destruct (Z.leb_spec 128 b); lia.
Qed.

(** One altered byte in the summed part of an accepted reply makes the
    validation end in the checksum error. *)
Lemma Send_parse_detects_corruption (cs : bool) (send recv : list Z)
    (len : Z) (rd : recv_arg) (j : nat) (x c : Z) (d : option (list Z)) :
  AD013_Send_parse cs send recv len rd = ReplyCode c d ->
  6 <= Z.of_nat j < len - 2 -> (j < length recv)%nat ->
  0 <= cell recv j < 256 -> 0 <= x < 256 -> x <> cell recv j ->
  AD013_Send_parse cs send (<[j := x]> recv) len rd = ReplyBadSum.
Proof.
  intros Hacc Hj Hlen Hold Hx Hne. revert Hacc. unfold AD013_Send_parse.
  destruct (len <? 10); [done|].
  rewrite (memcmp_ext 5 send (<[j:=x]> recv) recv)
    by (intros i Hi; apply cell_insert_ne; lia).
  destruct (memcmp send recv 5 =? 0); [|done].
  unfold AD013_get_uint16_value.
  rewrite !(cell_insert_ne recv j) by lia.
  rewrite checksum_insert by (unfold AD013_MSG_OFFSET_FLAG; lia).
  set (sum := checksum (char_to_int cs) recv AD013_MSG_OFFSET_FLAG (len - 2)).
  set (recv_sum := cell recv (Z.to_nat (len - 2) + 1)
                   + 256 * cell recv (Z.to_nat (len - 2))).
  destruct (Z.eqb_spec sum recv_sum) as [Heq|]; [|done]. intros _.
  destruct (char_to_int_inj cs x (cell recv j) Hx Hold) as [Hrange Hinj].
  set (delta := char_to_int cs x - char_to_int cs (cell recv j)) in *.
  assert (Hd : delta <> 0) by (intros H0; apply Hne, Hinj; lia).
  assert (Hs : 0 <= sum < 65536).
  { subst sum. unfold checksum. rewrite checksum_fold_sum by lia.
    apply Z.mod_pos_bound. lia. }
  destruct (Z.eqb_spec ((sum + delta) mod 65536) recv_sum) as [Hbad|]; [|done].
  exfalso. rewrite <- Heq in Hbad.
  pose proof (Z.div_mod (sum + delta) 65536 ltac:(lia)). lia.
Qed.

(** X12.  When a reply of 12 to 20 bytes, delivered in one read, is
    accepted with a status byte, the same reply with one byte of its summed
    part (offset 6 up to the two sum bytes) replaced by a different byte is
    rejected with -99. *)
Theorem Send_detects_corrupted_byte (cs : bool) (code : Z)
    (params : option AD013_Params) (rd : recv_arg) (reply : list Z)
    (j : nat) (x : Z) (r : Z * option (list Z) * Wire) :
  sendable params ->
  (12 <= length reply <= 20)%nat ->
  AD013_Send cs code (wire_of [reply]) params rd = Some r ->
  0 <= r.1.1 ->
  (6 <= j < length reply - 2)%nat ->
  0 <= cell reply j < 256 -> 0 <= x < 256 -> x <> cell reply j ->
  fst <$> AD013_Send cs code (wire_of [<[j := x]> reply]) params rd
  = Some (-99, None).
Proof.
  intros Hg Hlen E Hacc Hj Hold Hx Hne. revert E.
  rewrite (Send_one_chunk cs code (wire_of [reply]) params rd reply [])
    by done.
  rewrite (Send_one_chunk cs code (wire_of [<[j:=x]> reply]) params rd
             (<[j:=x]> reply) []) by (rewrite ?length_insert; done).
  rewrite length_insert.
  rewrite <- insert_app_l by lia.
  set (recv := reply ++ replicate (20 - length reply) 0).
  destruct (AD013_Send_parse cs _ recv _ rd) as [| |c d|] eqn:Hparse;
    intros [= <-]; cbn [fst snd] in Hacc; [lia|lia|].
  rewrite (Send_parse_detects_corruption cs _ recv _ rd j x c d Hparse); try done.
  - lia.
  - subst recv. rewrite length_app. lia.
  - subst recv. by rewrite cell_app_l by lia.
  - subst recv. by rewrite cell_app_l by lia.
Qed.

Lemma Send_detects_corrupted_byte_witness :
  let gen_char := Some (mkParams [0xFF; 0xFF; 0xFF; 0xFF] (1 :: replicate 19 0) 1) in
  (* the length byte 3 of an acknowledgement turned into 2 *)
  fst <$> AD013_Send true 0x02
            (wire_of [[0xEF; 0x01; 0xFF; 0xFF; 0xFF; 0xFF; 0x07; 0; 2; 0; 0; 0x0A]])
            gen_char RecvNone = Some (-99, None).
Proof.
  intros gen_char.
  apply (Send_detects_corrupted_byte true 0x02 gen_char RecvNone
           [0xEF; 0x01; 0xFF; 0xFF; 0xFF; 0xFF; 0x07; 0; 3; 0; 0; 0x0A] 8 2
           (0, None,
            {| rx := [];
               log := [EvRead 20 [0xEF; 0x01; 0xFF; 0xFF; 0xFF; 0xFF;
                                  0x07; 0; 3; 0; 0; 0x0A];
                       EvWrite (AD013_Send_build 0x02 gen_char)] |})).
  - simpl. lia.
  - simpl. lia.
  - vm_compute. reflexivity.
  - simpl. lia.
  - simpl. lia.
  - unfold cell. simpl. lia.
  - lia.
  - unfold cell. simpl. lia.
Defined.

(** ** Commands see the pending input only *)

Lemma readBytes_rx (n : Z) (w w' : Wire) :
  rx w = rx w' ->
  (wire_readBytes n w).1 = (wire_readBytes n w').1 /\
  rx (wire_readBytes n w).2 = rx (wire_readBytes n w').2.
Proof.
  intros Hrx. unfold wire_readBytes, wire_record. rewrite <- Hrx.
  destruct (rx w) as [|c r] eqn:E; simpl; by split.
Qed.

Lemma Send_read_rx (k : nat) :
  forall (buf : list Z) (got : Z) (w w' : Wire),
    rx w = rx w' ->
    (AD013_Send_read k buf got w).1 = (AD013_Send_read k buf got w').1 /\
    rx (AD013_Send_read k buf got w).2 = rx (AD013_Send_read k buf got w').2.
Proof.
  induction k as [|k IH]; intros buf got w w' Hrx.
  - simpl. by destruct (got <? _).
  - cbn [AD013_Send_read]. destruct (got <? _); [|done].
    destruct k as [|k']; [done|].
    cbn [stream_readBytes Wire_Stream].
    destruct (readBytes_rx (AD013_MAX_ACK_BUFF_SIZE - got) w w' Hrx) as [Hc Hr].
    destruct (wire_readBytes (AD013_MAX_ACK_BUFF_SIZE - got) w) as [c1 w1].
    destruct (wire_readBytes (AD013_MAX_ACK_BUFF_SIZE - got) w') as [c2 w2].
    cbn [fst snd] in Hc, Hr. subst c2. by apply IH.
Qed.

(** What a command returns, and what it leaves pending, depends on the
    pending input alone, not on what happened on the wire before. *)
Lemma Send_rx (cs : bool) (code : Z) (params : option AD013_Params)
    (rd : recv_arg) (w w' : Wire) :
  rx w = rx w' ->
  fst <$> AD013_Send cs code w params rd
  = fst <$> AD013_Send cs code w' params rd /\
  rx ∘ snd <$> AD013_Send cs code w params rd
  = rx ∘ snd <$> AD013_Send cs code w' params rd.
Proof.
  intros Hrx. unfold AD013_Send.
  destruct (match params with Some _ => _ | None => _ end);
    [simpl; by rewrite Hrx|].
  assert (Hrx' : rx (stream_write (AD013_Send_build code params) w)
                 = rx (stream_write (AD013_Send_build code params) w'))
    by exact Hrx.
  destruct (Send_read_rx 5 (replicate (Z.to_nat AD013_MAX_ACK_BUFF_SIZE) 0) 0
              _ _ Hrx') as [H1 H2].
  destruct (AD013_Send_read 5 _ 0 (stream_write _ w)) as [[b1 g1] w1].
  destruct (AD013_Send_read 5 _ 0 (stream_write _ w')) as [[b2 g2] w2].
  cbn [fst snd] in H1, H2. injection H1 as -> ->.
  destruct (AD013_Send_parse cs _ b2 g2 rd); simpl; try done;
    by rewrite H2.
Qed.

(** X13.  [AD013_Recv] returns 1 whatever arrives.  It writes nothing, and
    it takes a pending chunk of up to 128 bytes off the port: a command
    sent afterwards returns what it would return had those bytes never
    arrived. *)
Theorem Recv_drains_pending_bytes (cs : bool) (code : Z)
    (params : option AD013_Params) (rd : recv_arg) (data : list Z)
    (data_len : Z) (stale : list Z) (rest : list (list Z)) (w : Wire) :
  rx w = stale :: rest -> (length stale <= 128)%nat ->
  let r := AD013_Recv data data_len w in
  r.1 = 1 /\
  written r.2 = written w /\
  rx r.2 = rest /\
  fst <$> AD013_Send cs code r.2 params rd
  = fst <$> AD013_Send cs code (wire_of rest) params rd.
Proof.
  intros Hrx Hlen r. subst r. unfold AD013_Recv.
  cbn [stream_readBytes Wire_Stream].
  pose proof (written_readBytes 128 w) as Hw.
  assert (Hr : rx (wire_readBytes 128 w).2 = rest).
  { unfold wire_readBytes. rewrite Hrx. simpl.
    by rewrite drop_ge by (change (Pos.to_nat 128) with 128%nat; lia). }
  destruct (wire_readBytes 128 w) as [c w1]. cbn [fst snd] in *.
  split; [done|]. split; [done|]. split; [done|].
  by apply Send_rx.
Qed.

Lemma Recv_drains_pending_bytes_witness :
  let ok := [0xEF; 0x01; 0xFF; 0xFF; 0xFF; 0xFF; 0x07; 0; 3; 0x00; 0; 0x0A] in
  let r := AD013_Recv [] 0 (wire_of [[0x55; 0x55; 0x55]; ok]) in
  r.1 = 1 /\
  written r.2 = [] /\
  rx r.2 = [ok] /\
  fst <$> AD013_Send true 0x01 r.2 None RecvNone
  = fst <$> AD013_Send true 0x01 (wire_of [ok]) None RecvNone.
Proof.
  intros ok r.
  apply (Recv_drains_pending_bytes true 0x01 None RecvNone [] 0
           [0x55; 0x55; 0x55] [ok] (wire_of [[0x55; 0x55; 0x55]; ok])).
  - reflexivity.
  - simpl. lia.
Defined.

(** ** Sensor discovery: the other paths *)

Lemma FindSensor_scan_trace (cs : bool) (p : AD013_Params) (speeds : list Z) :
  sendable (Some p) ->
  forall w : Wire,
    exists (res : Z * Wire) (k : nat),
      CFP_FindSensor_scan cs speeds p w = Some res /\
      (k <= length speeds)%nat /\
      (speeds <> [] -> (1 <= k)%nat) /\
      begun res.2 = begun w ++ take k speeds /\
      written res.2
      = written w ++ replicate k (AD013_Send_build 0x13 (Some p)) /\
      (res.1 = 1 \/ (res.1 = -1 /\ k = length speeds)).
Proof.
  intros Hg. induction speeds as [|speed speeds IH]; intros w;
    cbn [CFP_FindSensor_scan].
  - exists (-1, w), 0%nat. simpl. rewrite !app_nil_r.
    split_and!; try done. by right.
  - set (w1 := board_delay 100 (serial_begin speed w)).
    destruct (Send_no_data cs 0x13 w1 (Some p)) as (r & w2 & E & _).
    pose proof (written_Send cs 0x13 w1 (Some p) RecvNone _ Hg E) as Hw.
    pose proof (begun_Send cs 0x13 w1 (Some p) RecvNone _ E) as Hb.
    assert (Hw1 : written w1 = written w /\ begun w1 = begun w ++ [speed]).
    { subst w1. cbn [board_delay serial_begin Wire_Stream].
      by rewrite !written_record, !begun_record, !app_nil_r. }
    destruct Hw1 as [Hw1 Hb1]. rewrite Hw1 in Hw. rewrite Hb1 in Hb.
    rewrite E. cbn [fst snd mbind option_bind] in Hw, Hb |- *.
    destruct (r <? 0).
    + destruct (IH w2) as (res & k & Eres & Hk & _ & Hbk & Hwk & Hres).
      exists res, (S k). rewrite Hbk, Hwk, Hb, Hw, <- !app_assoc. simpl.
      split; [done|]. split; [lia|]. split; [lia|]. split; [done|].
      split; [done|].
      destruct Hres as [?|[? ->]]; [by left | by right].
    + exists (1, w2), 1%nat. simpl. rewrite take_0.
      split; [done|]. split; [lia|]. split; [lia|]. split; [done|].
      split; [done|]. by left.
Qed.

(** X14.  Called with a negative speed and a password struct that holds
    at least one byte, discovery writes exactly one password frame for
    every speed it opens, always the same frame; the speeds opened are a
    prefix of the candidate list, all five when it returns -1; and it
    returns 1 or -1. *)
Theorem FindSensor_one_frame_per_speed (cs : bool) (defTimeout : Z) (w : Wire)
    (serSpeed : Z) (params : option AD013_Params) :
  serSpeed < 0 ->
  sendable (Some (CFP_FindSensor_myParams params)) ->
  let p := CFP_FindSensor_myParams params in
  exists (res : Z * Wire) (k : nat),
    CFP_FindSensor cs defTimeout w serSpeed params = Some res /\
    (1 <= k <= 5)%nat /\
    begun res.2 = begun w ++ take k speedVals /\
    written res.2 = written w ++ replicate k (AD013_Send_build 0x13 (Some p)) /\
    (res.1 = 1 \/ (res.1 = -1 /\ k = 5%nat)).
Proof.
  intros Hneg Hg p. unfold CFP_FindSensor.
  destruct (Z.ltb_spec serSpeed 0) as [_|]; [|lia]. fold p.
  destruct (FindSensor_scan_trace cs p speedVals Hg
              (stream_setTimeout defTimeout w))
    as (res & k & E & Hk & Hk1 & Hb & Hw & Hres).
  exists res, k. cbn [stream_setTimeout Wire_Stream] in Hb, Hw.
  rewrite begun_record, written_record, !app_nil_r in *.
  split; [exact E|].
  split; [split; [by apply Hk1|exact Hk]|]. by split_and!.
Qed.

Lemma FindSensor_one_frame_per_speed_witness :
  let reply := [0xEF; 0x01; 0xFF; 0xFF; 0xFF; 0xFF; 0x07; 0; 3; 0; 0; 0x0A] in
  let silent4 := [[]; []; []; []] in
  exists (res : Z * Wire) (k : nat),
    CFP_FindSensor true 1000 (wire_of (silent4 ++ [reply])) (-1) None
    = Some res /\
    (1 <= k <= 5)%nat /\
    begun res.2 = take k speedVals /\
    written res.2
    = replicate k [0xEF; 0x01; 0xFF; 0xFF; 0xFF; 0xFF; 0x01; 0x00; 0x07; 0x13;
                   0x00; 0x00; 0x00; 0x00; 0x00; 0x1B] /\
    (res.1 = 1 \/ (res.1 = -1 /\ k = 5%nat)).
Proof.
  intros reply silent4.
  apply (FindSensor_one_frame_per_speed true 1000
           (wire_of (silent4 ++ [reply])) (-1) None).
  - lia.
  - vm_compute. discriminate.
Defined.

Lemma FindSensor_scan_unsendable (cs : bool) (p : AD013_Params)
    (speeds : list Z) :
  size p < 1 ->
  forall w : Wire,
    exists res,
      CFP_FindSensor_scan cs speeds p w = Some res /\
      res.1 = -1 /\ written res.2 = written w /\
      begun res.2 = begun w ++ speeds /\
      read_chunks res.2 = read_chunks w.
Proof.
  intros Hp. induction speeds as [|speed speeds IH]; intros w;
    cbn [CFP_FindSensor_scan].
  - eexists. split; [done|]. simpl. by rewrite app_nil_r.
  - assert (HS : AD013_Send cs 19 (board_delay 100 (serial_begin speed w))
                   (Some p) RecvNone
                 = Some (-1, None, board_delay 100 (serial_begin speed w))).
    { unfold AD013_Send. by destruct (Z.ltb_spec (size p) 1) as [_|]; [|lia]. }
    rewrite HS. cbn [mbind option_bind]. cbn beta iota zeta.
    change (-1 <? 0) with true. cbn iota.
    destruct (IH (board_delay 100 (serial_begin speed w)))
      as (res & E & H1 & Hw & Hb & Hr).
    exists res. split; [exact E|].
    rewrite H1, Hw, Hb, Hr. cbn [board_delay serial_begin Wire_Stream].
    rewrite !written_record, !begun_record, !read_chunks_record, !app_nil_r.
    by rewrite <- app_assoc.
Qed.

(** X15.  Discovery called with a parameter struct that holds no byte
    (the default struct, say) never talks to the sensor: at any speed
    argument it returns -1 without a byte written or a read made; with a
    negative speed it still opens all five candidate speeds. *)
Theorem FindSensor_empty_struct (cs : bool) (defTimeout : Z) (w : Wire)
    (serSpeed : Z) (p : AD013_Params) :
  size p < 1 ->
  exists res,
    CFP_FindSensor cs defTimeout w serSpeed (Some p) = Some res /\
    res.1 = -1 /\
    written res.2 = written w /\
    read_chunks res.2 = read_chunks w /\
    (serSpeed < 0 -> begun res.2 = begun w ++ speedVals) /\
    (0 < serSpeed -> begun res.2 = begun w ++ [serSpeed]) /\
    (serSpeed = 0 -> begun res.2 = begun w).
Proof.
  intros Hp. unfold CFP_FindSensor. cbn [CFP_FindSensor_myParams].
  destruct (Z.ltb_spec serSpeed 0) as [Hneg|Hnn].
  - destruct (FindSensor_scan_unsendable cs p speedVals Hp
                (stream_setTimeout defTimeout w)) as (res & E & H1 & Hw & Hb & Hr).
    exists res. split; [exact E|].
    cbn [stream_setTimeout Wire_Stream] in *.
    rewrite written_record, begun_record, read_chunks_record, !app_nil_r in *.
    split; [done|]. split; [done|]. split; [done|].
    split; [done|]. split; intros; lia.
  - unfold AD013_Send. destruct (Z.ltb_spec (size p) 1) as [_|]; [|lia].
    cbn [mbind option_bind]. cbn beta iota.
    change (-1 <? 0) with true. cbn iota.
    eexists. split; [reflexivity|]. cbn [fst snd].
    destruct (Z.gtb_spec serSpeed 0) as [Hpos|Hz];
      cbn [board_delay serial_begin stream_setTimeout Wire_Stream];
      rewrite !written_record, !begun_record, !read_chunks_record, !app_nil_r.
    + split; [done|]. split; [done|]. split; [done|].
      split; [intros; lia|]. split; [done|]. intros; lia.
    + split; [done|]. split; [done|]. split; [done|].
      split; [intros; lia|]. split; [intros; lia|]. done.
Qed.

Lemma FindSensor_empty_struct_witness :
  let reply := [0xEF; 0x01; 0xFF; 0xFF; 0xFF; 0xFF; 0x07; 0; 3; 0; 0; 0x0A] in
  exists res,
    CFP_FindSensor true 1000 (wire_of [reply]) (-1) (Some AD013_DefaultParams)
    = Some res /\
    res.1 = -1 /\ written res.2 = [] /\ read_chunks res.2 = [] /\
    begun res.2 = speedVals.
Proof.
  intros reply.
  destruct (FindSensor_empty_struct true 1000 (wire_of [reply]) (-1)
              AD013_DefaultParams ltac:(simpl; lia))
    as (res & E & H1 & Hw & Hr & Hb & _).
  exists res. split; [exact E|].
  split; [exact H1|]. split; [exact Hw|]. split; [exact Hr|].
  apply Hb. lia.
Defined.

(** X16.  Called with a speed that is not negative and a password struct
    that holds at least one byte, discovery sends the password command
    once: it opens the port at that speed when the speed is positive and
    not at all when it is 0, waits 50 ms, writes one frame, and returns 1
    when the command returns a status byte and -1 when it returns a
    negative value. *)
Theorem FindSensor_explicit_speed (cs : bool) (defTimeout : Z) (w : Wire)
    (serSpeed : Z) (params : option AD013_Params) :
  0 <= serSpeed ->
  sendable (Some (CFP_FindSensor_myParams params)) ->
  let p := CFP_FindSensor_myParams params in
  let w0 := stream_setTimeout defTimeout w in
  let w1 := board_delay 50
              (if serSpeed >? 0 then serial_begin serSpeed w0 else w0) in
  exists r res,
    AD013_Send cs 0x13 w1 (Some p) RecvNone = Some r /\
    CFP_FindSensor cs defTimeout w serSpeed params = Some res /\
    res.2 = r.2 /\
    (0 <= r.1.1 -> res.1 = 1) /\
    (r.1.1 < 0 -> res.1 = -1) /\
    begun res.2 = begun w ++ (if serSpeed >? 0 then [serSpeed] else []) /\
    written res.2 = written w ++ [AD013_Send_build 0x13 (Some p)].
Proof.
  intros Hnn Hg p w0 w1. unfold CFP_FindSensor.
  destruct (Z.ltb_spec serSpeed 0) as [|_]; [lia|].
  fold p. fold w0. fold w1.
  destruct (Send_no_data cs 0x13 w1 (Some p)) as (rc & w2 & E & _).
  pose proof (written_Send cs 0x13 w1 (Some p) RecvNone _ Hg E) as Hw.
  pose proof (begun_Send cs 0x13 w1 (Some p) RecvNone _ E) as Hb.
  assert (Hw1 : written w1 = written w /\
                begun w1 = begun w ++ (if serSpeed >? 0 then [serSpeed] else [])).
  { subst w1 w0. destruct (serSpeed >? 0);
      cbn [board_delay serial_begin stream_setTimeout Wire_Stream];
      by rewrite !written_record, !begun_record, !app_nil_r. }
  destruct Hw1 as [Hw1 Hb1]. rewrite Hw1 in Hw. rewrite Hb1 in Hb.
  rewrite E. cbn [fst snd mbind option_bind] in *.
  exists (rc, None, w2).
  destruct (Z.ltb_spec rc 0); eexists; (split; [reflexivity|]);
    (split; [reflexivity|]); cbn [fst snd];
    (split; [done|]); (split; [intros; (done || lia)|]);
    (split; [intros; (done || lia)|]); by split.
Qed.

Lemma FindSensor_explicit_speed_witness :
  let reply := [0xEF; 0x01; 0xFF; 0xFF; 0xFF; 0xFF; 0x07; 0; 3; 0; 0; 0x0A] in
  exists res,
    CFP_FindSensor true 1000 (wire_of [reply]) 57600 None = Some res /\
    res.1 = 1 /\ begun res.2 = [57600] /\
    written res.2
    = [AD013_Send_build 0x13 (Some (CFP_FindSensor_myParams None))].
Proof.
  intros reply.
  destruct (FindSensor_explicit_speed true 1000 (wire_of [reply]) 57600 None)
    as (r & res & Er & E & _ & H1 & _ & Hb & Hw).
  - lia.
  - vm_compute. discriminate.
  - exists res. split; [exact E|].
    split; [|split; [exact Hb|exact Hw]].
    apply H1. vm_compute in Er. injection Er as <-. vm_compute. discriminate.
Defined.

(** ** Capture and search: what goes over the wire *)

Lemma written_GetImage (cs : bool) (w : Wire)
    (r : Z * option (list Z) * Wire) :
  PS_GetImage cs w = Some r -> written r.2 = written w ++ [GetImage_frame].
Proof.
  unfold PS_GetImage. intros E.
  exact (written_Send cs 0x01 w None RecvNone r I E).
Qed.

Lemma SearchTemplate_poll_trace (cs : bool) (fuel : nat) :
  forall (timeOut : Z) (w : Wire) (r : Z * Wire),
    AD013_SearchTemplate_poll cs fuel timeOut w = Some r ->
    exists k : nat,
      (1 <= k)%nat /\
      written r.2 = written w ++ replicate k GetImage_frame /\
      Z.of_nat k <= 1 + (Z.max timeOut 0 + 359) / 360 /\
      (timeOut <= 0 -> k = 1%nat).
Proof.
  induction fuel as [|fuel IH]; intros timeOut w r; [done|].
  cbn [AD013_SearchTemplate_poll].
  pose proof (written_GetImage cs w) as Hw.
  destruct (PS_GetImage cs w) as [[[code d] w1]|]; [|done].
  specialize (Hw _ eq_refl). cbn [snd mbind option_bind] in Hw |- *.
  assert (Hone : exists k : nat,
             (1 <= k)%nat /\
             written w1 = written w ++ replicate k GetImage_frame /\
             Z.of_nat k <= 1 + (Z.max timeOut 0 + 359) / 360 /\
             (timeOut <= 0 -> k = 1%nat)).
  { exists 1%nat. split; [lia|]. split; [done|]. split; [|done].
    assert (0 <= (Z.max timeOut 0 + 359) / 360) by (apply Z.div_pos; lia).
    lia. }
  destruct (code =? 0); [by intros [= <-]|].
  destruct (Z.leb_spec timeOut 0) as [Hle|Hgt]; [by intros [= <-]|].
  intros Hr. destruct (IH _ _ _ Hr) as (k & Hk & Hwk & Hbound & _).
  exists (S k). split; [lia|]. split.
  - rewrite Hwk. cbn [board_delay Wire_Stream].
    rewrite written_record, app_nil_r, Hw, <- app_assoc. done.
  - split; [|lia].
    change (120 + 240) with 360 in Hbound.
    assert (Hstep : 1 + (Z.max (timeOut - 360) 0 + 359) / 360
                    <= (Z.max timeOut 0 + 359) / 360).
    { rewrite (Z.max_l timeOut 0) by lia.
      destruct (Z.le_gt_cases 360 timeOut) as [Hbig|Hsmall].
      - rewrite Z.max_l by lia.
        replace (timeOut + 359) with (timeOut - 360 + 359 + 1 * 360) by lia.
        rewrite Z.div_add by lia. lia.
      - rewrite Z.max_r by lia. change ((0 + 359) / 360) with 0.
        assert (1 <= (timeOut + 359) / 360)
          by (apply Z.div_le_lower_bound; lia).
        lia. }
    lia.
Qed.

Lemma SearchTemplate_match_trace (cs : bool) (code : Z) (w : Wire) (so : bool)
    (res : Z * Wire) :
  AD013_SearchTemplate_match cs code w so = Some res ->
  exists tail : list (list Z),
    written res.2 = written w ++ tail /\
    ((res.1 = 1 /\ tail = [GenChar_frame; Search_frame]) \/
     (res.1 = -1 /\ (tail = [] \/ tail = [GenChar_frame]))).
Proof.
  unfold AD013_SearchTemplate_match.
  destruct (negb (code =? 0)).
  { intros [= <-]. exists []. rewrite app_nil_r. split; [done|].
    right. split; [done|]. by left. }
  unfold PS_GenChar.
  match goal with
  | |- context [AD013_Send cs 2 w ?p RecvNone] =>
      pose proof (fun r => written_Send cs 0x02 w p RecvNone r
                             ltac:(vm_compute; discriminate)) as Hg
  end.
  change (AD013_Send_build 2 _) with GenChar_frame in Hg.
  destruct (AD013_Send cs 2 w _ RecvNone) as [[[code' d] w1]|]; [|done].
  specialize (Hg _ eq_refl). cbn [snd mbind option_bind] in Hg |- *.
  destruct (_ || _).
  { intros [= <-]. exists [GenChar_frame]. split; [done|].
    right. split; [done|]. by right. }
  unfold PS_Search.
  match goal with
  | |- context [AD013_Send cs 4 w1 ?p RecvAlloc] =>
      pose proof (fun r => written_Send cs 0x04 w1 p RecvAlloc r
                             ltac:(vm_compute; discriminate)) as Hs
  end.
  change (AD013_Send_build 4 _) with Search_frame in Hs.
  destruct (AD013_Send cs 4 w1 _ RecvAlloc) as [[[m d'] w2]|]; [|done].
  specialize (Hs _ eq_refl). cbn [snd mbind option_bind] in Hs |- *.
  intros [= <-].
  exists [GenChar_frame; Search_frame]. cbn [fst snd].
  rewrite Hs, Hg, <- app_assoc. split; [done|]. by left.
Qed.

(** X17.  Capture-and-search sends, in this order and nothing else: one
    or more GetImage commands, then at most one GenChar command for buffer
    1, then at most one Search command.  It returns 1 exactly when the
    Search command was sent.  The number of GetImage commands is 1 when the
    budget is zero or negative, and never more than one plus the budget
    divided by 360 ms and rounded up. *)
Theorem SearchTemplate_command_sequence (cs : bool) (w : Wire)
    (timeOut threashold : Z) (so : bool) (r : Z * Wire) :
  AD013_SearchTemplate cs w timeOut threashold so = Some r ->
  exists (k : nat) (tail : list (list Z)),
    written r.2 = written w ++ replicate k GetImage_frame ++ tail /\
    ((r.1 = 1 /\ tail = [GenChar_frame; Search_frame]) \/
     (r.1 = -1 /\ (tail = [] \/ tail = [GenChar_frame]))) /\
    (1 <= k)%nat /\
    Z.of_nat k <= 1 + (Z.max timeOut 0 + 359) / 360 /\
    (timeOut <= 0 -> k = 1%nat).
Proof.
  unfold AD013_SearchTemplate.
  destruct (AD013_SearchTemplate_poll cs _ timeOut w) as [[code w1]|] eqn:Hp;
    [|done].
  cbn [mbind option_bind]. intros Hm.
  destruct (SearchTemplate_poll_trace cs _ _ _ _ Hp) as (k & Hk & Hw & Hb & H1).
  destruct (SearchTemplate_match_trace cs code w1 so r Hm) as (tail & Ht & Hres).
  exists k, tail. cbn [snd] in Hw. rewrite Ht, Hw, <- app_assoc.
  by split_and!.
Qed.

Lemma SearchTemplate_command_sequence_witness :
  let no_finger := [0xEF; 0x01; 0xFF; 0xFF; 0xFF; 0xFF; 0x07; 0; 3; 0x02; 0; 0x0C] in
  let ok := [0xEF; 0x01; 0xFF; 0xFF; 0xFF; 0xFF; 0x07; 0; 3; 0x00; 0; 0x0A] in
  exists (r : Z * Wire) (k : nat) (tail : list (list Z)),
    AD013_SearchTemplate true (wire_of [no_finger; no_finger; ok; ok; ok])
      1000 50 false = Some r /\
    written r.2 = replicate k GetImage_frame ++ tail /\
    ((r.1 = 1 /\ tail = [GenChar_frame; Search_frame]) \/
     (r.1 = -1 /\ (tail = [] \/ tail = [GenChar_frame]))) /\
    (1 <= k)%nat /\
    Z.of_nat k <= 1 + (Z.max 1000 0 + 359) / 360 /\
    (1000 <= 0 -> k = 1%nat).
Proof.
  intros no_finger ok.
  destruct (AD013_SearchTemplate true
              (wire_of [no_finger; no_finger; ok; ok; ok]) 1000 50 false)
    as [r|] eqn:E; [|vm_compute in E; discriminate E].
  exists r.
  destruct (SearchTemplate_command_sequence true _ 1000 50 false r E)
    as (k & tail & H).
  exists k, tail. split; [reflexivity | exact H].
Defined.

Lemma Send_silent_result (cs : bool) (code : Z) (w : Wire)
    (params : option AD013_Params) (rd : recv_arg) :
  sendable params -> silent w ->
  exists w',
    AD013_Send cs code w params rd = Some (-1, None, w') /\
    silent w' /\
    written w' = written w ++ [AD013_Send_build code params].
Proof.
  intros Hg Hs.
  assert (E : exists w', AD013_Send cs code w params rd = Some (-1, None, w') /\
                         silent w').
  { unfold AD013_Send. rewrite (sendable_guard params Hg).
    destruct (Send_read_silent 4 (replicate (Z.to_nat AD013_MAX_ACK_BUFF_SIZE) 0) 0
                (stream_write (AD013_Send_build code params) w))
      as (w' & E & Hs' & Hl); [done|lia|simpl; lia|].
    rewrite E. unfold AD013_Send_parse. change (0 <? 10) with true. cbn match.
    eexists. split; [reflexivity|]. done. }
  destruct E as (w' & E & Hs'). exists w'. split; [exact E|]. split; [done|].
  exact (written_Send cs code w params rd _ Hg E).
Qed.

(** X18.  When the sensor acknowledges GetImage with OK and then stops
    answering, capture-and-search does not notice: it sends GenChar and
    Search, each of which times out with -1, and returns 1. *)
Theorem SearchTemplate_ignores_silence (cs : bool) (w w1 : Wire)
    (d : option (list Z)) (timeOut threashold : Z) (so : bool) :
  PS_GetImage cs w = Some (AD013_CODE_OK, d, w1) ->
  silent w1 ->
  let gen := (AD013_AddParam1 (Some AD013_DefaultParams) 1).2 in
  let search :=
    (AD013_AddParam2
       (AD013_AddParam2
          (AD013_AddParam1 (option_map AD013_ClearParams gen) 1).2 0).2 99).2 in
  exists w2 w',
    PS_GenChar cs w1 gen = Some (-1, None, w2) /\
    PS_Search cs w2 search RecvAlloc = Some (-1, None, w') /\
    AD013_SearchTemplate cs w timeOut threashold so = Some (1, w') /\
    written w' = written w ++ [GetImage_frame; GenChar_frame; Search_frame] /\
    silent w'.
Proof.
  intros Hok Hs gen search. rewrite SearchTemplate_unfold.
  pose proof (written_GetImage cs w _ Hok) as Hw.
  rewrite Hok. cbn [fst snd mbind option_bind] in *.
  change (AD013_CODE_OK =? 0) with true. cbn match.
  unfold AD013_SearchTemplate_match. change (negb (AD013_CODE_OK =? 0)) with false.
  cbn match. fold gen. unfold PS_GenChar, PS_Search.
  destruct (Send_silent_result cs 2 w1 gen RecvNone
              ltac:(vm_compute; discriminate) Hs) as (w2 & Eg & Hg2 & Hg3).
  change (AD013_Send_build 2 _) with GenChar_frame in Hg3.
  rewrite Eg. cbn [mbind option_bind].
  change (_ || _) with false. cbn match. fold search.
  destruct (Send_silent_result cs 4 w2 search RecvAlloc
              ltac:(vm_compute; discriminate) Hg2) as (w3 & Es & Hs2 & Hs3).
  change (AD013_Send_build 4 _) with Search_frame in Hs3.
  rewrite Es. cbn [mbind option_bind].
  exists w2, w3. split; [done|]. split; [done|]. split; [done|].
  split; [|done].
  rewrite Hs3, Hg3, Hw, <- !app_assoc. done.
Qed.

Lemma SearchTemplate_ignores_silence_witness :
  let ok := [0xEF; 0x01; 0xFF; 0xFF; 0xFF; 0xFF; 0x07; 0; 3; 0x00; 0; 0x0A] in
  exists w',
    AD013_SearchTemplate true (wire_of [ok]) 5000 50 false = Some (1, w') /\
    written w' = [GetImage_frame; GenChar_frame; Search_frame] /\
    silent w'.
Proof.
  intros ok.
  destruct (SearchTemplate_ignores_silence true (wire_of [ok])
              {| rx := []; log := [EvRead 20 ok; EvWrite GetImage_frame] |}
              None 5000 50 false)
    as (w2 & w' & _ & _ & E & Hw & Hs).
  - vm_compute. reflexivity.
  - constructor.
  - exists w'. split; [exact E|]. split; [exact Hw|exact Hs].
Defined.

(** ** The command routine: echo check and bytes handed out *)

(** X19.  A reply of 12 to 20 bytes, delivered in one read, that differs
    from the request in one of its first five bytes (the header and the
    first three bytes of the device id) is rejected: the command returns
    -1, hands out no bytes and waits twice 50 ms. *)
Theorem Send_rejects_wrong_echo (cs : bool) (code : Z) (w : Wire)
    (params : option AD013_Params) (rd : recv_arg) (reply : list Z)
    (rest : list (list Z)) (i : nat) :
  sendable params ->
  rx w = reply :: rest ->
  (12 <= length reply <= 20)%nat ->
  (i < 5)%nat ->
  cell (AD013_Send_build code params) i <> cell reply i ->
  exists w',
    AD013_Send cs code w params rd = Some (-1, None, w') /\
    rx w' = rest /\
    log w' = [EvDelay 50; EvDelay 50; EvRead 20 reply;
              EvWrite (AD013_Send_build code params)] ++ log w.
Proof.
  intros Hg Hrx Hlen Hi Hne.
  rewrite (Send_one_chunk cs code w params rd reply rest) by done.
  rewrite (Send_parse_rejects_first_five cs _ _ _ rd i Hi)
    by (rewrite cell_app_l by lia; done).
  eexists. split; [reflexivity|]. done.
Qed.

Lemma Send_rejects_wrong_echo_witness :
  let gen_char := Some (mkParams [0xFF; 0xFF; 0xFF; 0xFF] (1 :: replicate 19 0) 1) in
  let reply := [0xEF; 0x01; 0xFF; 0xFF; 0x00; 0xFF; 0x07; 0; 3; 0; 0; 0x0A] in
  exists w',
    AD013_Send true 0x02 (wire_of [reply]) gen_char RecvNone
    = Some (-1, None, w') /\
    rx w' = [] /\
    log w' = [EvDelay 50; EvDelay 50; EvRead 20 reply;
              EvWrite (AD013_Send_build 0x02 gen_char)] ++ [].
Proof.
  intros gen_char reply.
  apply (Send_rejects_wrong_echo true 0x02 (wire_of [reply]) gen_char RecvNone
           reply [] 4).
  - simpl. lia.
  - reflexivity.
  - simpl. lia.
  - lia.
  - vm_compute. discriminate.
Defined.

(** X20.  When the caller asks the command routine to allocate the
    receive data and a reply of 12 to 20 bytes, delivered in one read,
    has a length field that agrees with its size, the command has a
    result, and when it accepts the reply the bytes handed out are the
    bytes of the reply from offset 10 up to and including its first
    checksum byte: the payload and one byte more. *)
Theorem Send_hands_out_payload_and_sum_byte (cs : bool) (code : Z)
    (params : option AD013_Params) (reply : list Z) :
  sendable params ->
  (12 <= length reply <= 20)%nat ->
  AD013_get_uint16_value reply AD013_MSG_OFFSET_LENGTH
    = Z.of_nat (length reply) - 9 ->
  exists r,
    AD013_Send cs code (wire_of [reply]) params RecvAlloc = Some r /\
    (0 <= r.1.1 ->
     r.1.2 = Some (take (length reply - 11) (drop AD013_MSG_OFFSET_DATA reply))) /\
    length (take (length reply - 11) (drop AD013_MSG_OFFSET_DATA reply))
      = (length reply - 12 + 1)%nat.
Proof.
  intros Hg Hlen HL.
  rewrite (Send_one_chunk cs code (wire_of [reply]) params RecvAlloc reply [])
    by done.
  set (recv := reply ++ replicate (20 - length reply) 0).
  assert (Hpk : AD013_get_uint16_value recv AD013_MSG_OFFSET_LENGTH
                = Z.of_nat (length reply) - 9).
  { rewrite <- HL. unfold AD013_get_uint16_value, recv, AD013_MSG_OFFSET_LENGTH.
    by rewrite !cell_app_l by lia. }
  assert (Hl : length (take (length reply - 11)
                         (drop AD013_MSG_OFFSET_DATA reply))
               = (length reply - 12 + 1)%nat).
  { rewrite length_take, length_drop. unfold AD013_MSG_OFFSET_DATA. lia. }
  unfold AD013_Send_parse. rewrite Hpk.
  destruct (_ <? 10);
    [eexists; split; [reflexivity|]; split; [cbn; lia|done]|].
  destruct (memcmp _ _ 5 =? 0);
    [|eexists; split; [reflexivity|]; split; [cbn; lia|done]].
  destruct (negb _);
    [eexists; split; [reflexivity|]; split; [cbn; lia|done]|].
  destruct (Z.ltb_spec (Z.of_nat (length reply) - 9) 2); [lia|].
  rewrite Z.mod_small by lia.
  destruct (Z.leb_spec (Z.of_nat (length reply) - 9 - 2)
              (AD013_MAX_ACK_BUFF_SIZE - Z.of_nat AD013_MSG_OFFSET_DATA))
    as [_|Hx];
    [|unfold AD013_MAX_ACK_BUFF_SIZE, AD013_MSG_OFFSET_DATA in Hx; lia].
  eexists. split; [reflexivity|]. cbn [fst snd]. split; [|done].
  intros _. f_equal.
  replace (Z.to_nat (Z.of_nat (length reply) - 9 - 2))
    with (length reply - 11)%nat by lia.
  unfold recv, AD013_MSG_OFFSET_DATA.
  rewrite drop_app_le by lia.
  apply take_app_le. rewrite length_drop. lia.
Qed.

Lemma Send_hands_out_payload_and_sum_byte_witness :
  let search := Some (mkParams [0xFF; 0xFF; 0xFF; 0xFF]
                        ([1; 0; 0; 0; 99] ++ replicate 15 0) 5) in
  let hit := [0xEF; 0x01; 0xFF; 0xFF; 0xFF; 0xFF; 0x07; 0; 7; 0x00;
              0; 5; 0; 0x42; 0; 0x55] in
  exists r,
    AD013_Send true 0x04 (wire_of [hit]) search RecvAlloc = Some r /\
    r.1.2 = Some [0; 5; 0; 0x42; 0].
Proof.
  intros search hit.
  destruct (Send_hands_out_payload_and_sum_byte true 0x04 search hit)
    as (r & E & Hd & _).
  - simpl. lia.
  - simpl. lia.
  - reflexivity.
  - exists r. split; [exact E|]. apply Hd.
    vm_compute in E. injection E as <-. vm_compute. discriminate.
Defined.
